(** * GoogLeNet (Inception-v1): the graph built by [googlenet/model.py] and
      the training / evaluation loop that runs it.

    The Python program calls TensorFlow 1.x in graph mode.  The embedding
    keeps that structure:

    - the default graph is a list of nodes in creation order; every call of
      a [tf.*] constructor validates the static shapes of its arguments,
      appends one node and returns its handle;
    - a session executes the part of the graph a fetch depends on; the
      numerical kernels, the gradient and the Adam update are fields of the
      class [Library], so every statement holds for any implementation;
    - Python statements run in a state-and-exception monad over a [World]
      that holds the graph, the session's variables, a log of the
      [sess.run] calls and the printed lines. *)

From Stdlib Require Import List ZArith QArith Qround Bool String Lia Arith.
Import ListNotations.
Close Scope Q_scope.
Open Scope nat_scope.

Set Implicit Arguments.
Set Warnings "-register-all".

(* ================================================================== *)
(** ** Python values: exceptions, numpy arrays, [range], slices        *)
(* ================================================================== *)

Inductive exn : Type :=
| ValueError
| IndexError
| TypeError
| RuntimeError
| InvalidArgumentError
| FailedPreconditionError
| LibraryError (code : nat).

Inductive result (A : Type) : Type :=
| Ok (a : A)
| Raise (e : exn).
Arguments Ok {A} a.
Arguments Raise {A} e.

Definition result_bind {A B} (r : result A) (f : A -> result B) : result B :=
  match r with
  | Ok a => f a
  | Raise e => Raise e
  end.

Fixpoint result_mapM {A B} (f : A -> result B) (l : list A) : result (list B) :=
  match l with
  | [] => Ok []
  | x :: rest =>
      result_bind (f x) (fun v =>
      result_bind (result_mapM f rest) (fun vs => Ok (v :: vs)))
  end.

(** A numpy array / runtime tensor value: its shape and its elements in
    row-major order.  [F] is the float32 element type. *)
Inductive ndarray (F : Type) : Type :=
| NdFloat (shape : list nat) (data : list F)
| NdBool (shape : list nat) (data : list bool).
Arguments NdFloat {F} shape data.
Arguments NdBool {F} shape data.

Definition np_shape {F} (a : ndarray F) : list nat :=
  match a with
  | NdFloat s _ => s
  | NdBool s _ => s
  end.

(** [len(a)]: the first dimension; a 0-d array has no length. *)
Definition py_len {F} (a : ndarray F) : result Z :=
  match np_shape a with
  | [] => Raise TypeError
  | n :: _ => Ok (Z.of_nat n)
  end.

(** [t[i]] on the shape tuple. *)
Definition tuple_index (t : list nat) (i : nat) : result nat :=
  match nth_error t i with
  | Some v => Ok v
  | None => Raise IndexError
  end.

(** Python's treatment of one slice bound against a length. *)
Definition slice_bound (i : Z) (n : nat) : nat :=
  if (i <? 0)%Z then Z.to_nat (Z.max 0 (i + Z.of_nat n))
  else Nat.min (Z.to_nat i) n.

Definition row_size (shape : list nat) : nat :=
  fold_right Nat.mul 1 (tl shape).

Definition take_rows {A} (stride lo hi : nat) (data : list A) : list A :=
  firstn ((hi - lo) * stride) (skipn (lo * stride) data).

(** [a[start:stop]] along the first axis. *)
Definition nd_slice {F} (a : ndarray F) (start stop : Z) : result (ndarray F) :=
  match np_shape a with
  | [] => Raise IndexError
  | n :: inner =>
      let lo := slice_bound start n in
      let hi := slice_bound stop n in
      let shape' := (hi - lo) :: inner in
      match a with
      | NdFloat s d => Ok (NdFloat shape' (take_rows (row_size s) lo hi d))
      | NdBool s d => Ok (NdBool shape' (take_rows (row_size s) lo hi d))
      end
  end.

(** [range(start, stop, step)]: the length is computed as CPython does. *)
Definition range_length (start stop step : Z) : Z :=
  if (0 <? step)%Z then
    if (start <? stop)%Z then (1 + (stop - 1 - start) / step)%Z else 0%Z
  else
    if (stop <? start)%Z then (1 + (start - 1 - stop) / (- step))%Z else 0%Z.

Definition py_range (start stop step : Z) : result (list Z) :=
  if (step =? 0)%Z then Raise ValueError
  else Ok (map (fun k => (start + Z.of_nat k * step)%Z)
               (seq 0 (Z.to_nat (range_length start stop step)))).

(* ================================================================== *)
(** ** The TensorFlow graph                                            *)
(* ================================================================== *)

Definition Tensor := nat.
Definition Dim := option nat.
Definition Shape := list Dim.

Inductive Padding : Type := Same | Valid.
Inductive DType : Type := Float32 | BoolT.
Inductive VarRole : Type := Kernel | Bias.

(** A trainable variable is named by the layer node that created it. *)
Definition Var : Type := (nat * VarRole)%type.

Inductive Op : Type :=
| Placeholder (name : string)
| Conv2D (filters : nat) (kernel_size strides : nat * nat) (padding : Padding)
| MaxPooling2D (pool_size strides : nat * nat) (padding : Padding)
| AveragePooling2D (pool_size strides : nat * nat) (padding : Padding)
| LocalResponseNormalization (depth_radius bias alpha beta : Q)
| Concat (axis : nat)
| Flatten
| Dense (units : nat)
| Dropout (rate : Q) (training : bool)
| SoftmaxCrossEntropyWithLogits
| ReduceMean
| Round
| Equal
| Cast (dtype : DType)
| Minimize (learning_rate : Q) (var_list : list Var)
| VariablesInitializer (var_list : list Var).

Record Node : Type := mkNode {
  n_id : nat;
  n_op : Op;
  n_inputs : list nat;
  n_shape : Shape
}.

(** Nodes in creation order; a new node takes the next free id. *)
Definition Graph := list Node.

Definition find_node (g : Graph) (t : Tensor) : option Node :=
  find (fun n => n_id n =? t) g.

Definition mem (x : nat) (l : list nat) : bool := existsb (Nat.eqb x) l.

(** The ids a fetch depends on: one backward sweep over the nodes, newest
    first, collecting the inputs of every node already needed. *)
Fixpoint cone_sweep (rev_nodes : list Node) (needed : list nat) : list nat :=
  match rev_nodes with
  | [] => needed
  | n :: rest =>
      if mem (n_id n) needed
      then cone_sweep rest (n_inputs n ++ needed)
      else cone_sweep rest needed
  end.

Definition cone (g : Graph) (fetches : list Tensor) : list nat :=
  cone_sweep (rev g) fetches.

(** The sub-graph a session runs for [fetches]. *)
Definition prune (g : Graph) (fetches : list Tensor) : Graph :=
  let needed := cone g fetches in
  filter (fun n => mem (n_id n) needed) g.

Definition layer_variables (n : Node) : list Var :=
  match n_op n with
  | Conv2D _ _ _ _ => [(n_id n, Kernel); (n_id n, Bias)]
  | Dense _ => [(n_id n, Kernel); (n_id n, Bias)]
  | _ => []
  end.

(** [tf.trainable_variables()]: the variables of every layer, in creation
    order. *)
Definition trainable_variables (g : Graph) : list Var :=
  flat_map layer_variables g.

(* ------------------------------------------------------------------ *)
(** *** Static shape rules of the library                              *)
(* ------------------------------------------------------------------ *)

(** [conv_utils.conv_output_length]: the length of one spatial axis after a
    window of [filter_size] moved with [stride]. *)
Definition conv_output_length (input_length : Dim) (filter_size : nat)
    (padding : Padding) (stride : nat) : result Dim :=
  match input_length with
  | None => Ok None
  | Some n =>
      if stride =? 0 then Raise ValueError
      else match padding with
           | Same => Ok (Some ((n + stride - 1) / stride))
           | Valid =>
               if n <? filter_size then Raise ValueError
               else Ok (Some ((n - filter_size + stride) / stride))
           end
  end.

Definition window_shape (input : Shape) (window strides : nat * nat)
    (padding : Padding) (channels : Dim) : result Shape :=
  match input with
  | [n; h; w; _] =>
      result_bind (conv_output_length h (fst window) padding (fst strides)) (fun h' =>
      result_bind (conv_output_length w (snd window) padding (snd strides)) (fun w' =>
      Ok [n; h'; w'; channels]))
  | _ => Raise ValueError
  end.

(** Convolution needs a rank-4 input whose channel count is known. *)
Definition conv2d_shape (input : Shape) (filters : nat)
    (kernel_size strides : nat * nat) (padding : Padding) : result Shape :=
  match nth_error input 3 with
  | Some (Some _) => window_shape input kernel_size strides padding (Some filters)
  | _ => Raise ValueError
  end.

Definition pooling_shape (input : Shape) (pool_size strides : nat * nat)
    (padding : Padding) : result Shape :=
  match nth_error input 3 with
  | Some c => window_shape input pool_size strides padding c
  | None => Raise ValueError
  end.

Definition lrn_shape (input : Shape) : result Shape :=
  if List.length input =? 4 then Ok input else Raise ValueError.

(** Two static dimensions agree when one is unknown or both are equal. *)
Definition merge_dim (a b : Dim) : result Dim :=
  match a, b with
  | None, d => Ok d
  | d, None => Ok d
  | Some x, Some y => if x =? y then Ok (Some x) else Raise ValueError
  end.

Fixpoint merge_shape (a b : Shape) : result Shape :=
  match a, b with
  | [], [] => Ok []
  | x :: a', y :: b' =>
      result_bind (merge_dim x y) (fun d =>
      result_bind (merge_shape a' b') (fun s => Ok (d :: s)))
  | _, _ => Raise ValueError
  end.

Definition add_dim (a b : Dim) : Dim :=
  match a, b with
  | Some x, Some y => Some (x + y)
  | _, _ => None
  end.

(** Joining two shapes along [axis]: the axis lengths add, every other
    dimension has to agree. *)
Fixpoint concat2_shape (axis : nat) (a b : Shape) : result Shape :=
  match a, b with
  | x :: a', y :: b' =>
      match axis with
      | O => result_bind (merge_shape a' b') (fun s => Ok (add_dim x y :: s))
      | S k =>
          result_bind (merge_dim x y) (fun d =>
          result_bind (concat2_shape k a' b') (fun s => Ok (d :: s)))
      end
  | _, _ => Raise ValueError
  end.

Fixpoint concat_shape (axis : nat) (first : Shape) (others : list Shape)
    : result Shape :=
  match others with
  | [] => if axis <? List.length first then Ok first else Raise ValueError
  | s :: rest =>
      result_bind (concat2_shape axis first s) (fun acc =>
      concat_shape axis acc rest)
  end.

Fixpoint dims_product (dims : Shape) : Dim :=
  match dims with
  | [] => Some 1
  | Some d :: rest =>
      match dims_product rest with
      | Some p => Some (d * p)
      | None => None
      end
  | None :: _ => None
  end.

Definition flatten_shape (input : Shape) : result Shape :=
  match input with
  | [] => Raise ValueError
  | n :: rest => Ok [n; dims_product rest]
  end.

(** A dense layer needs rank at least 2 and a known last dimension. *)
Definition dense_shape (input : Shape) (units : nat) : result Shape :=
  match rev input with
  | Some _ :: _ :: _ => Ok (removelast input ++ [Some units])
  | _ => Raise ValueError
  end.

(** One loss value per row: the labels and the logits have to agree, the
    class axis is dropped. *)
Definition softmax_cross_entropy_shape (labels logits : Shape) : result Shape :=
  match logits with
  | [] => Raise ValueError
  | _ :: _ => result_bind (merge_shape labels logits) (fun s => Ok (removelast s))
  end.

(** Numpy broadcasting of one pair of dimensions. *)
Definition broadcast_dim (a b : Dim) : result Dim :=
  match a, b with
  | Some x, Some y =>
      if x =? y then Ok (Some x)
      else if x =? 1 then Ok (Some y)
      else if y =? 1 then Ok (Some x)
      else Raise ValueError
  | Some x, None => if x =? 1 then Ok None else Ok (Some x)
  | None, Some y => if y =? 1 then Ok None else Ok (Some y)
  | None, None => Ok None
  end.

Fixpoint broadcast_rev (a b : Shape) : result Shape :=
  match a, b with
  | [], s => Ok s
  | s, [] => Ok s
  | x :: a', y :: b' =>
      result_bind (broadcast_dim x y) (fun d =>
      result_bind (broadcast_rev a' b') (fun s => Ok (d :: s)))
  end.

Definition broadcast_shape (a b : Shape) : result Shape :=
  result_bind (broadcast_rev (rev a) (rev b)) (fun s => Ok (rev s)).

(* ================================================================== *)
(** ** The numerical library behind a session                          *)
(* ================================================================== *)

(** Everything TensorFlow computes with numbers is a field of this class:
    the float32 element operations, the kernels of the layers, variable
    storage and initialisation, the gradient of a scalar with respect to a
    variable inside a sub-graph, and one Adam update of one variable.
    TensorFlow does not undo what a failing call has already written, so
    the variables the initializer and an update leave behind when they
    raise are the library's as well. *)
Class Library : Type := {
  float32 : Type;
  f32_round : float32 -> float32;
  f32_equal : float32 -> float32 -> bool;
  f32_of_bool : bool -> float32;
  f32_mean : list float32 -> float32;
  Store : Type;
  empty_store : Store;
  kernel : Op -> list (ndarray float32) -> list (ndarray float32)
           -> result (ndarray float32);
  read_var : Store -> Var -> result (ndarray float32);
  run_initializer : list Var -> Store -> result Store;
  gradient : Graph -> Tensor -> Var -> list (Tensor * ndarray float32)
             -> Store -> result (ndarray float32);
  apply_adam : Q -> Var -> ndarray float32 -> Store -> result Store;
  initializer_leaves : list Var -> Store -> Store;
  adam_leaves : Q -> Var -> ndarray float32 -> Store -> Store
}.

(** The arrays imported from [utils.load_image_net_224x224x3]. *)
Class ImageNet {L : Library} : Type := {
  X_train : ndarray float32;
  X_test : ndarray float32;
  X_validation : ndarray float32;
  y_train : ndarray float32;
  y_test : ndarray float32;
  y_validation : ndarray float32
}.

Section Model.

Context {L : Library}.

Definition Array : Type := ndarray float32.
Definition Feed : Type := list (Tensor * Array).
Definition Table : Type := list (nat * Array).

Fixpoint assoc (l : list (nat * Array)) (k : nat) : option Array :=
  match l with
  | [] => None
  | (k', v) :: rest => if k' =? k then Some v else assoc rest k
  end.

(** What [print] wrote, without the clock reading. *)
Inductive Msg : Type :=
| MsgBlank
| MsgTraining
| MsgProgress (epoch stop total : Z)
| MsgEpoch (epoch : Z) (values : list (option Array))
| MsgEvaluating
| MsgTest (values : list (option Array)).

(** One [sess.run] call: what was asked, the variables before and after,
    and how the call ended. *)
Record Event : Type := mkEvent {
  ev_fetches : list Tensor;
  ev_feed : Feed;
  ev_before : Store;
  ev_after : Store;
  ev_outcome : result (list (option Array))
}.

Record World : Type := mkWorld {
  graph : Graph;
  session_open : bool;
  store : Store;
  log : list Event;
  stdout : list Msg
}.

Definition initial_world : World :=
  mkWorld [] false empty_store [] [].

(* ------------------------------------------------------------------ *)
(** *** Statements: state and exceptions                               *)
(* ------------------------------------------------------------------ *)

Definition TF (A : Type) : Type := World -> World * result A.

Definition ret {A} (a : A) : TF A := fun w => (w, Ok a).

Definition raise {A} (e : exn) : TF A := fun w => (w, Raise e).

Definition bind {A B} (m : TF A) (f : A -> TF B) : TF B :=
  fun w =>
    match m w with
    | (w', Ok a) => f a w'
    | (w', Raise e) => (w', Raise e)
    end.

Definition lift_result {A} (r : result A) : TF A := fun w => (w, r).

Fixpoint for_each {A} (l : list A) (body : A -> TF unit) : TF unit :=
  match l with
  | [] => ret tt
  | x :: rest => bind (body x) (fun _ => for_each rest body)
  end.

Fixpoint tf_mapM {A B} (f : A -> TF B) (l : list A) : TF (list B) :=
  match l with
  | [] => ret []
  | x :: rest =>
      bind (f x) (fun v => bind (tf_mapM f rest) (fun vs => ret (v :: vs)))
  end.

End Model.

Notation "x <- c1 ;; c2" := (bind c1 (fun x => c2))
  (at level 61, c1 at next level, right associativity).
Notation "c1 ;; c2" := (bind c1 (fun _ => c2))
  (at level 61, right associativity).

Section Graph_construction.

Context {L : Library}.

Definition print (m : Msg) : TF unit :=
  fun w => (mkWorld (graph w) (session_open w) (store w) (log w) (stdout w ++ [m]), Ok tt).

Definition with_graph (w : World) (g : Graph) : World :=
  mkWorld g (session_open w) (store w) (log w) (stdout w).

(** Appends one node to the default graph and returns its handle. *)
Definition add_node (op : Op) (inputs : list Tensor) (shape : Shape) : TF Tensor :=
  fun w =>
    let id := List.length (graph w) in
    (with_graph w (graph w ++ [mkNode id op inputs shape]), Ok id).

(** [t.get_shape()] of an existing tensor. *)
Definition shape_of (t : Tensor) : TF Shape :=
  fun w =>
    match find_node (graph w) t with
    | Some n => (w, Ok (n_shape n))
    | None => (w, Raise ValueError)
    end.

Definition tf_placeholder (dtype : DType) (shape : Shape) (name : string) : TF Tensor :=
  add_node (Placeholder name) [] shape.

(** [tf.layers.conv2d(inputs, filters, kernel_size, strides=(1, 1),
    padding='valid')]. *)
Definition tf_layers_conv2d (inputs : Tensor) (filters : nat)
    (kernel_size strides : nat * nat) (padding : Padding) : TF Tensor :=
  s <- shape_of inputs ;;
  out <- lift_result (conv2d_shape s filters kernel_size strides padding) ;;
  add_node (Conv2D filters kernel_size strides padding) [inputs] out.

(** [tf.layers.max_pooling2d(inputs, pool_size, strides, padding='valid')]. *)
Definition tf_layers_max_pooling2d (inputs : Tensor)
    (pool_size strides : nat * nat) (padding : Padding) : TF Tensor :=
  s <- shape_of inputs ;;
  out <- lift_result (pooling_shape s pool_size strides padding) ;;
  add_node (MaxPooling2D pool_size strides padding) [inputs] out.

(** [tf.layers.average_pooling2d(inputs, pool_size, strides,
    padding='valid')]. *)
Definition tf_layers_average_pooling2d (inputs : Tensor)
    (pool_size strides : nat * nat) (padding : Padding) : TF Tensor :=
  s <- shape_of inputs ;;
  out <- lift_result (pooling_shape s pool_size strides padding) ;;
  add_node (AveragePooling2D pool_size strides padding) [inputs] out.

Definition tf_nn_local_response_normalization (input : Tensor)
    (depth_radius bias alpha beta : Q) : TF Tensor :=
  s <- shape_of input ;;
  out <- lift_result (lrn_shape s) ;;
  add_node (LocalResponseNormalization depth_radius bias alpha beta) [input] out.

Definition tf_concat (values : list Tensor) (axis : nat) : TF Tensor :=
  shapes <- tf_mapM shape_of values ;;
  match shapes with
  | [] => raise ValueError
  | s :: rest =>
      out <- lift_result (concat_shape axis s rest) ;;
      add_node (Concat axis) values out
  end.

Definition tf_layers_flatten (inputs : Tensor) : TF Tensor :=
  s <- shape_of inputs ;;
  out <- lift_result (flatten_shape s) ;;
  add_node Flatten [inputs] out.

(** [tf.layers.dense(inputs, units, activation=None)]. *)
Definition tf_layers_dense (inputs : Tensor) (units : nat) : TF Tensor :=
  s <- shape_of inputs ;;
  out <- lift_result (dense_shape s units) ;;
  add_node (Dense units) [inputs] out.

(** [tf.layers.dropout(inputs, rate, training=False)]: the source never
    passes [training]. *)
Definition tf_layers_dropout (inputs : Tensor) (rate : Q) : TF Tensor :=
  s <- shape_of inputs ;;
  add_node (Dropout rate false) [inputs] s.

Definition tf_nn_softmax_cross_entropy_with_logits_v2 (labels logits : Tensor)
    : TF Tensor :=
  sl <- shape_of labels ;;
  sg <- shape_of logits ;;
  out <- lift_result (softmax_cross_entropy_shape sl sg) ;;
  add_node SoftmaxCrossEntropyWithLogits [labels; logits] out.

(** [tf.reduce_mean(t)] with no axis: the mean of all entries, a scalar. *)
Definition tf_reduce_mean (input : Tensor) : TF Tensor :=
  _ <- shape_of input ;;
  add_node ReduceMean [input] [].

Definition tf_round (x : Tensor) : TF Tensor :=
  s <- shape_of x ;;
  add_node Round [x] s.

Definition tf_equal (x y : Tensor) : TF Tensor :=
  sx <- shape_of x ;;
  sy <- shape_of y ;;
  out <- lift_result (broadcast_shape sx sy) ;;
  add_node Equal [x; y] out.

Definition tf_cast (x : Tensor) (dtype : DType) : TF Tensor :=
  s <- shape_of x ;;
  add_node (Cast dtype) [x] s.

Record Optimizer : Type := mkOptimizer { opt_learning_rate : Q }.

Definition tf_train_AdamOptimizer (learning_rate : Q) : TF Optimizer :=
  ret (mkOptimizer learning_rate).

(** [compute_gradients]: a variable has a gradient exactly when the layer
    that owns it lies on a path to the loss; the others get [None]. *)
Definition compute_gradients (g : Graph) (loss : Tensor) : list (bool * Var) :=
  let connected := cone g [loss] in
  map (fun v => (mem (fst v) connected, v)) (trainable_variables g).

(** [optimizer.minimize(loss)] over all trainable variables of the graph:
    variables without a gradient are skipped, and at least one variable
    must have one. *)
Definition minimize (optimizer : Optimizer) (loss : Tensor) : TF Tensor :=
  _ <- shape_of loss ;;
  fun w =>
    let grads_and_vars := compute_gradients (graph w) loss in
    let vars_with_grad := map snd (filter fst grads_and_vars) in
    match vars_with_grad with
    | [] => (w, Raise ValueError)
    | _ :: _ =>
        add_node (Minimize (opt_learning_rate optimizer) vars_with_grad) [loss] [] w
    end.

Definition tf_global_variables_initializer : TF Tensor :=
  fun w => add_node (VariablesInitializer (trainable_variables (graph w))) [] [] w.

End Graph_construction.

(* ================================================================== *)
(** ** Sessions: running a fetch                                       *)
(* ================================================================== *)

Section Session_semantics.

Context {L : Library}.

(** A fed array fits a placeholder when the ranks agree and every known
    static dimension is matched. *)
Fixpoint feed_compatible (static : Shape) (actual : list nat) : bool :=
  match static, actual with
  | [], [] => true
  | None :: s, _ :: a => feed_compatible s a
  | Some d :: s, n :: a => (d =? n) && feed_compatible s a
  | _, _ => false
  end.

Fixpoint eqb_shape (a b : list nat) : bool :=
  match a, b with
  | [], [] => true
  | x :: a', y :: b' => (x =? y) && eqb_shape a' b'
  | _, _ => false
  end.

Fixpoint map2 {A B C} (f : A -> B -> C) (l1 : list A) (l2 : list B) : list C :=
  match l1, l2 with
  | x :: r1, y :: r2 => f x y :: map2 f r1 r2
  | _, _ => []
  end.

Definition table_get (tbl : Table) (i : nat) : result Array :=
  match assoc tbl i with
  | Some v => Ok v
  | None => Raise InvalidArgumentError
  end.

(** The value of a node without variables, from the values of its inputs.
    Rounding, comparison, the cast of booleans and the mean are spelled out
    on the elements; dropout built with [training=False] passes its input
    through; everything else is the library's kernel. *)
Definition compute (op : Op) (ins : list Array) : result Array :=
  match op, ins with
  | Dropout _ false, [x] => Ok x
  | Round, [NdFloat s d] => Ok (NdFloat s (map f32_round d))
  | Equal, [NdFloat s1 d1; NdFloat s2 d2] =>
      if eqb_shape s1 s2 then Ok (NdBool s1 (map2 f32_equal d1 d2))
      else kernel op [] ins
  | Cast Float32, [NdBool s d] => Ok (NdFloat s (map f32_of_bool d))
  | Cast Float32, [NdFloat s d] => Ok (NdFloat s d)
  | ReduceMean, [NdFloat s d] => Ok (NdFloat [] [f32_mean d])
  | _, _ => kernel op [] ins
  end.

Fixpoint apply_updates (learning_rate : Q) (grads_and_vars : list (Array * Var))
    (st : Store) : result Store :=
  match grads_and_vars with
  | [] => Ok st
  | (grad, v) :: rest =>
      result_bind (apply_adam learning_rate v grad st) (fun st' =>
      apply_updates learning_rate rest st')
  end.

(** Runs one node of the sub-graph [sub]: placeholders read the feed,
    layers read their variables, the training operation computes every
    gradient from the current variables and then applies the updates, the
    initializer sets the variables; all other nodes only add a value. *)
Definition exec_node (sub : Graph) (feed : Feed) (n : Node)
    (state : Store * Table) : result (Store * Table) :=
  let (st, tbl) := state in
  result_bind (result_mapM (table_get tbl) (n_inputs n)) (fun ins =>
  match n_op n with
  | Placeholder _ =>
      match assoc feed (n_id n) with
      | None => Raise InvalidArgumentError
      | Some v =>
          if feed_compatible (n_shape n) (np_shape v)
          then Ok (st, (n_id n, v) :: tbl)
          else Raise ValueError
      end
  | Conv2D _ _ _ _ | Dense _ =>
      result_bind (read_var st (n_id n, Kernel)) (fun k =>
      result_bind (read_var st (n_id n, Bias)) (fun b =>
      result_bind (kernel (n_op n) [k; b] ins) (fun v =>
      Ok (st, (n_id n, v) :: tbl))))
  | Minimize learning_rate var_list =>
      match n_inputs n with
      | [loss] =>
          result_bind (result_mapM (fun v => gradient sub loss v feed st) var_list)
            (fun grads =>
          result_bind (apply_updates learning_rate (combine grads var_list) st)
            (fun st' => Ok (st', tbl)))
      | _ => Raise InvalidArgumentError
      end
  | VariablesInitializer var_list =>
      result_bind (run_initializer var_list st) (fun st' => Ok (st', tbl))
  | op =>
      result_bind (compute op ins) (fun v => Ok (st, (n_id n, v) :: tbl))
  end).

Fixpoint exec (sub : Graph) (feed : Feed) (nodes : list Node)
    (state : Store * Table) : result (Store * Table) :=
  match nodes with
  | [] => Ok state
  | n :: rest =>
      result_bind (exec_node sub feed n state) (fun state' =>
      exec sub feed rest state')
  end.

(** What a run that raises leaves in the variables.  The updates of a
    training step that were applied before the failing one stay; a node
    that only reads the variables leaves them alone. *)
Fixpoint updates_leave (learning_rate : Q) (grads_and_vars : list (Array * Var))
    (st : Store) : Store :=
  match grads_and_vars with
  | [] => st
  | (grad, v) :: rest =>
      match apply_adam learning_rate v grad st with
      | Ok st' => updates_leave learning_rate rest st'
      | Raise _ => adam_leaves learning_rate v grad st
      end
  end.

Definition node_leaves (sub : Graph) (feed : Feed) (n : Node)
    (state : Store * Table) : Store :=
  let (st, tbl) := state in
  match result_mapM (table_get tbl) (n_inputs n) with
  | Raise _ => st
  | Ok _ =>
      match n_op n with
      | Minimize learning_rate var_list =>
          match n_inputs n with
          | [loss] =>
              match result_mapM (fun v => gradient sub loss v feed st) var_list with
              | Ok grads => updates_leave learning_rate (combine grads var_list) st
              | Raise _ => st
              end
          | _ => st
          end
      | VariablesInitializer var_list => initializer_leaves var_list st
      | _ => st
      end
  end.

Fixpoint exec_leaves (sub : Graph) (feed : Feed) (nodes : list Node)
    (state : Store * Table) : Store :=
  match nodes with
  | [] => fst state
  | n :: rest =>
      match exec_node sub feed n state with
      | Ok state' => exec_leaves sub feed rest state'
      | Raise _ => node_leaves sub feed n state
      end
  end.

Definition run_fetches_leaves (g : Graph) (fetches : list Tensor) (feed : Feed)
    (st : Store) : Store :=
  if forallb (fun t => match find_node g t with Some _ => true | None => false end)
             fetches
  then let sub := prune g fetches in exec_leaves sub feed sub (st, [])
  else st.

(** The graph fragment a fetch needs, run in creation order. *)
Definition run_fetches (g : Graph) (fetches : list Tensor) (feed : Feed)
    (st : Store) : result (Store * list (option Array)) :=
  if forallb (fun t => match find_node g t with Some _ => true | None => false end)
             fetches
  then
    let sub := prune g fetches in
    result_bind (exec sub feed sub (st, [])) (fun state =>
    Ok (fst state, map (assoc (snd state)) fetches))
  else Raise ValueError.

Definition Session : Type := unit.

(** [tf.Session()]: a fresh session, no variable initialised. *)
Definition tf_Session : TF Session :=
  fun w => (mkWorld (graph w) true empty_store (log w) (stdout w), Ok tt).

(** [sess.run(fetches, feed_dict)].  Every call is logged with its
    outcome; a call that raises keeps what it had written to the
    variables before it failed. *)
Definition sess_run (sess : Session) (fetches : list Tensor) (feed : Feed)
    : TF (list (option Array)) :=
  fun w =>
    if session_open w then
      match run_fetches (graph w) fetches feed (store w) with
      | Ok (st', values) =>
          (mkWorld (graph w) true st'
                   (log w ++ [mkEvent fetches feed (store w) st' (Ok values)])
                   (stdout w),
           Ok values)
      | Raise e =>
          let st' := run_fetches_leaves (graph w) fetches feed (store w) in
          (mkWorld (graph w) true st'
                   (log w ++ [mkEvent fetches feed (store w) st' (Raise e)])
                   (stdout w),
           Raise e)
      end
    else (w, Raise RuntimeError).

Definition sess_close (sess : Session) : TF unit :=
  fun w => (mkWorld (graph w) false (store w) (log w) (stdout w), Ok tt).

End Session_semantics.

(* ================================================================== *)
(** ** googlenet/model.py                                              *)
(* ================================================================== *)

Module GoogLeNet.

Section Source.

Context {L : Library} {D : ImageNet}.

Record t : Type := mk {
  num_classes : nat;
  X : Tensor;
  y : Tensor;
  learning_rate : Q;
  num_epochs : Z;
  batch_size : Z
}.

(** [GoogLeNet.__init__], defaults [learning_rate=0.001], [num_epochs=10],
    [batch_size=100]. *)
Definition __init__ (learning_rate : Q) (num_epochs batch_size : Z) : TF t :=
  num_classes <- lift_result (tuple_index (np_shape y_train) 1) ;;
  X <- tf_placeholder Float32 [None; Some 224; Some 224; Some 3] "image" ;;
  y <- tf_placeholder Float32 [None; Some num_classes] "label" ;;
  ret (mk num_classes X y learning_rate num_epochs batch_size).

(** [GoogLeNet.inception] *)
Definition inception (inputs : Tensor)
    (conv_11_size conv_33_reduce_size conv_33_size
     conv_56_reduce_size conv_56_size pool_proj_size : nat) : TF Tensor :=
  (* Path 1 *)
  conv_11 <- tf_layers_conv2d inputs conv_11_size (1, 1) (1, 1) Same ;;
  (* Path 2 *)
  conv_33_reduce <- tf_layers_conv2d inputs conv_33_reduce_size (1, 1) (1, 1) Same ;;
  conv_33 <- tf_layers_conv2d conv_33_reduce conv_33_size (3, 3) (1, 1) Same ;;
  (* Path 3 *)
  conv_56_reduce <- tf_layers_conv2d inputs conv_56_reduce_size (1, 1) (1, 1) Same ;;
  conv_56 <- tf_layers_conv2d conv_56_reduce conv_56_size (5, 5) (1, 1) Same ;;
  (* Path 4 *)
  pool <- tf_layers_max_pooling2d inputs (3, 3) (1, 1) Same ;;
  conv_pool <- tf_layers_conv2d pool pool_proj_size (1, 1) (1, 1) Same ;;
  (* Concatenation *)
  tf_concat [conv_11; conv_33; conv_56; conv_pool] 3.

(** [GoogLeNet.auxiliary] *)
Definition auxiliary (self : t) (inputs : Tensor) : TF Tensor :=
  pool <- tf_layers_average_pooling2d inputs (5, 5) (3, 3) Same ;;
  conv <- tf_layers_conv2d pool 128 (1, 1) (1, 1) Valid ;;
  flat <- tf_layers_flatten conv ;;
  full <- tf_layers_dense flat 1024 ;;
  drop <- tf_layers_dropout full 0.3%Q ;;
  tf_layers_dense drop (num_classes self).

(** [GoogLeNet.run] *)
Definition run (self : t) : TF unit :=
  (* 1st Convolutional Layer *)
  conv_1 <- tf_layers_conv2d (X self) 64 (7, 7) (2, 2) Same ;;
  pool_1 <- tf_layers_max_pooling2d conv_1 (3, 3) (2, 2) Same ;;
  norm_1 <- tf_nn_local_response_normalization pool_1 2.0%Q 1.0%Q 0.0002%Q 0.75%Q ;;
  (* 2nd Convolutional Layer *)
  conv_2a <- tf_layers_conv2d norm_1 64 (1, 1) (1, 1) Same ;;
  conv_2b <- tf_layers_conv2d conv_2a 192 (3, 3) (1, 1) Same ;;
  norm_2 <- tf_nn_local_response_normalization conv_2b 2.0%Q 1.0%Q 0.0002%Q 0.75%Q ;;
  pool_2 <- tf_layers_max_pooling2d norm_2 (3, 3) (2, 2) Same ;;
  (* 3rd Inception Layer *)
  inception_3a <- inception pool_2 64 96 128 16 32 32 ;;
  inception_3b <- inception inception_3a 128 128 192 32 96 64 ;;
  pool_3 <- tf_layers_max_pooling2d inception_3b (3, 3) (2, 2) Same ;;
  (* 4.1 Inception Layer *)
  inception_4a <- inception pool_3 192 96 208 16 48 64 ;;
  inception_4b <- inception inception_4a 160 112 224 24 64 64 ;;
  inception_4c <- inception inception_4b 128 128 256 24 64 64 ;;
  inception_4d <- inception inception_4c 112 144 288 32 64 64 ;;
  inception_4e <- inception inception_4d 256 160 320 32 128 128 ;;
  pool_4 <- tf_layers_max_pooling2d inception_4e (3, 3) (2, 2) Same ;;
  (* 4.2 Auxiliary Layer *)
  auxiliary_1 <- auxiliary self inception_4a ;;
  auxiliary_2 <- auxiliary self inception_4d ;;
  (* 5th Inception Layer *)
  inception_5a <- inception pool_4 256 160 320 32 128 128 ;;
  inception_5b <- inception inception_5a 384 192 384 48 128 128 ;;
  pool_5 <- tf_layers_average_pooling2d inception_5b (7, 7) (1, 1) Valid ;;
  (* 6th Full Connected Layer *)
  flat_5 <- tf_layers_flatten pool_5 ;;
  drop_6 <- tf_layers_dropout flat_5 0.4%Q ;;
  linear <- tf_layers_dense drop_6 (num_classes self) ;;
  (* Backward propagation *)
  cross_entropy <- tf_nn_softmax_cross_entropy_with_logits_v2 (y self) linear ;;
  loss <- tf_reduce_mean cross_entropy ;;
  optimizer <- tf_train_AdamOptimizer (learning_rate self) ;;
  train <- minimize optimizer loss ;;
  (* Compute accuracy *)
  round_linear <- tf_round linear ;;
  round_y <- tf_round (y self) ;;
  corrects <- tf_equal round_linear round_y ;;
  corrects_f <- tf_cast corrects Float32 ;;
  accuracy <- tf_reduce_mean corrects_f ;;
  (* Train the network *)
  sess <- tf_Session ;;
  init <- tf_global_variables_initializer ;;
  _ <- sess_run sess [init] [] ;;
  print MsgBlank ;;
  print MsgTraining ;;
  epochs <- lift_result (py_range 0 (num_epochs self) 1) ;;
  for_each epochs (fun i =>
    total <- lift_result (py_len X_train) ;;
    starts <- lift_result (py_range 0 total (batch_size self)) ;;
    for_each starts (fun start =>
      let end_ := (start + batch_size self)%Z in
      batch_X <- lift_result (nd_slice X_train start end_) ;;
      batch_y <- lift_result (nd_slice y_train start end_) ;;
      _ <- sess_run sess [train] [(X self, batch_X); (y self, batch_y)] ;;
      if (end_ mod 100 =? 0)%Z
      then (total' <- lift_result (py_len X_train) ;;
            print (MsgProgress i end_ total'))
      else ret tt) ;;
    (* Show loss on validation dataset when finishing each epoch *)
    values <- sess_run sess [loss; accuracy]
                [(X self, X_validation); (y self, y_validation)] ;;
    print (MsgEpoch i values)) ;;
  (* Evaluate on test set *)
  print MsgEvaluating ;;
  values <- sess_run sess [loss; accuracy] [(X self, X_test); (y self, y_test)] ;;
  print (MsgTest values) ;;
  sess_close sess.

(** [net = GoogLeNet(); net.run()] *)
Definition main : TF unit :=
  net <- __init__ 0.001%Q 10 100 ;;
  run net.

End Source.

End GoogLeNet.

(* ================================================================== *)
(** ** A small exact library and data set                              *)
(* ================================================================== *)

(** Used to run the program on concrete inputs: elements are rationals,
    rounding is to the nearest integer with ties to even, every layer
    kernel answers with the same 1 x 2 array, and the store counts the
    Adam updates applied so far. *)
Module Exact.

Definition round_half_even (q : Q) : Q :=
  let f := Qfloor q in
  let frac := Qminus q (inject_Z f) in
  match Qcompare frac 0.5%Q with
  | Lt => inject_Z f
  | Gt => inject_Z (f + 1)
  | Eq => if Z.even f then inject_Z f else inject_Z (f + 1)
  end.

Definition mean (l : list Q) : Q :=
  Qred (Qdiv (fold_right Qplus 0%Q l) (inject_Z (Z.of_nat (List.length l)))).

Definition logits : ndarray Q := NdFloat [1; 2] [0.6%Q; 0.7%Q].

#[export] Instance library : Library := {|
  float32 := Q;
  f32_round := round_half_even;
  f32_equal := Qeq_bool;
  f32_of_bool := fun b : bool => if b then 1%Q else 0%Q;
  f32_mean := mean;
  Store := nat;
  empty_store := 0;
  kernel := fun _ _ _ => Ok logits;
  read_var := fun _ _ => Ok logits;
  run_initializer := fun _ _ => Ok 0;
  gradient := fun _ _ _ _ _ => Ok logits;
  apply_adam := fun _ _ _ st => Ok (S st);
  initializer_leaves := fun _ st => st;
  adam_leaves := fun _ _ _ st => st
|}.

Definition images (n : nat) : ndarray Q :=
  NdFloat [n; 224; 224; 3] (repeat 0%Q (n * (224 * 224 * 3))).

Definition labels (n : nat) : ndarray Q :=
  NdFloat [n; 2] (List.concat (repeat [0%Q; 1%Q] n)).

(** Three training images with two classes, one validation and one test
    image. *)
#[export] Instance data : @ImageNet library := {|
  X_train := images 3;
  X_test := images 1;
  X_validation := images 1;
  y_train := labels 3;
  y_test := labels 1;
  y_validation := labels 1
|}.

End Exact.

(** The same library with an optimizer that gives up after its first 117
    updates, that is, at the second update of the second training step; an
    update that fails writes nothing. *)
Module Failing.

#[export] Instance library : Library := {|
  float32 := Q;
  f32_round := Exact.round_half_even;
  f32_equal := Qeq_bool;
  f32_of_bool := fun b : bool => if b then 1%Q else 0%Q;
  f32_mean := Exact.mean;
  Store := nat;
  empty_store := 0;
  kernel := fun _ _ _ => Ok Exact.logits;
  read_var := fun _ _ => Ok Exact.logits;
  run_initializer := fun _ _ => Ok 0;
  gradient := fun _ _ _ _ _ => Ok Exact.logits;
  apply_adam := fun _ _ _ st => if st <? 117 then Ok (S st) else Raise (LibraryError 7);
  initializer_leaves := fun _ st => st;
  adam_leaves := fun _ _ _ st => st
|}.

#[export] Instance data : @ImageNet library := {|
  X_train := Exact.images 3;
  X_test := Exact.images 1;
  X_validation := Exact.images 1;
  y_train := Exact.labels 3;
  y_test := Exact.labels 1;
  y_validation := Exact.labels 1
|}.

End Failing.

(* ================================================================== *)
(** ** Reading a graph back                                            *)
(* ================================================================== *)

(** Ids are positions: what [add_node] maintains from the empty graph. *)
Definition wf_graph (g : Graph) : Prop :=
  forall i n, nth_error g i = Some n -> n_id n = i.

Fixpoint numbered_from (k : nat) (g : Graph) : bool :=
  match g with
  | [] => true
  | n :: rest => (n_id n =? k) && numbered_from (S k) rest
  end.

(** The same as a check. *)
Definition well_numbered (g : Graph) : bool := numbered_from 0 g.

(** The expression a tensor denotes over the tensors older than
    [boundary], which stay as leaves. *)
Inductive Expr : Type :=
| Leaf (t : Tensor)
| Apply (op : Op) (args : list Expr).

Fixpoint expr_of (fuel : nat) (g : Graph) (boundary : nat) (t : Tensor) : Expr :=
  match fuel with
  | O => Leaf t
  | S fuel' =>
      if t <? boundary then Leaf t
      else match find_node g t with
           | Some n => Apply (n_op n) (map (expr_of fuel' g boundary) (n_inputs n))
           | None => Leaf t
           end
  end.

(** The layers of the architecture; an inception module counts as one. *)
Inductive Layer : Type :=
| LConv (filters : nat) (kernel_size strides : nat * nat) (padding : Padding)
| LMaxPool (pool_size strides : nat * nat) (padding : Padding)
| LAvgPool (pool_size strides : nat * nat) (padding : Padding)
| LNorm (depth_radius bias alpha beta : Q)
| LInception (conv_11_size conv_33_reduce_size conv_33_size
              conv_56_reduce_size conv_56_size pool_proj_size : nat)
| LFlatten
| LDropout (rate : Q)
| LDense (units : nat).

Definition conv_at (g : Graph) (t : Tensor) (kernel_size : nat * nat)
    : option (nat * Tensor) :=
  match find_node g t with
  | Some (mkNode _ (Conv2D f (k1, k2) (1, 1) Same) [x] _) =>
      if (k1 =? fst kernel_size) && (k2 =? snd kernel_size)
      then Some (f, x) else None
  | _ => None
  end.

Definition pool_at (g : Graph) (t : Tensor) : option Tensor :=
  match find_node g t with
  | Some (mkNode _ (MaxPooling2D (3, 3) (1, 1) Same) [x] _) => Some x
  | _ => None
  end.

(** Recognises the four paths of an inception module behind the inputs
    [a; b; c; d] of a channel concatenation, all starting at one tensor. *)
Definition inception_at (g : Graph) (a b c d : Tensor) : option (Layer * Tensor) :=
  match conv_at g a (1, 1), conv_at g b (3, 3), conv_at g c (5, 5), conv_at g d (1, 1) with
  | Some (c11, x1), Some (c33, b'), Some (c56, c'), Some (pp, d') =>
      match conv_at g b' (1, 1), conv_at g c' (1, 1), pool_at g d' with
      | Some (c33r, x2), Some (c56r, x3), Some x4 =>
          if (x1 =? x2) && (x1 =? x3) && (x1 =? x4)
          then Some (LInception c11 c33r c33 c56r c56 pp, x1)
          else None
      | _, _, _ => None
      end
  | _, _, _, _ => None
  end.

(** The layer that produced [t], and the tensor it was applied to. *)
Definition layer_at (g : Graph) (t : Tensor) : option (Layer * Tensor) :=
  match find_node g t with
  | Some n =>
      match n_op n, n_inputs n with
      | Conv2D f k s p, [x] => Some (LConv f k s p, x)
      | MaxPooling2D k s p, [x] => Some (LMaxPool k s p, x)
      | AveragePooling2D k s p, [x] => Some (LAvgPool k s p, x)
      | LocalResponseNormalization r b al be, [x] => Some (LNorm r b al be, x)
      | Concat 3, [a; b; c; d] => inception_at g a b c d
      | Flatten, [x] => Some (LFlatten, x)
      | Dropout rate false, [x] => Some (LDropout rate, x)
      | Dense units, [x] => Some (LDense units, x)
      | _, _ => None
      end
  | None => None
  end.

(** Walks from [t] back to the first tensor that is not the output of a
    layer; the layers come out in forward order, each with its output. *)
Fixpoint walk_back (fuel : nat) (g : Graph) (t : Tensor)
    (acc : list (Layer * Tensor)) : Tensor * list (Layer * Tensor) :=
  match fuel with
  | O => (t, acc)
  | S fuel' =>
      match layer_at g t with
      | Some (l, x) => walk_back fuel' g x ((l, t) :: acc)
      | None => (t, acc)
      end
  end.

Definition layers_to (g : Graph) (t : Tensor) : Tensor * list (Layer * Tensor) :=
  walk_back (List.length g) g t [].

Definition is_inception (l : Layer) : bool :=
  match l with
  | LInception _ _ _ _ _ _ => true
  | _ => false
  end.

(* ================================================================== *)
(** ** The graph the program builds                                    *)
(* ================================================================== *)

Definition layer_vars (ids : list nat) : list Var :=
  flat_map (fun i => [(i, Kernel); (i, Bias)]) ids.

(** Layers with variables on the way from the image to the logits ... *)
Definition main_layers : list nat :=
  [2; 5; 6; 9; 10; 11; 12; 13; 15; 17; 18; 19; 20; 21; 23; 26; 27; 28; 29; 30; 32;
   34; 35; 36; 37; 38; 40; 42; 43; 44; 45; 46; 48; 50; 51; 52; 53; 54; 56;
   58; 59; 60; 61; 62; 64; 79; 80; 81; 82; 83; 85; 87; 88; 89; 90; 91; 93; 98].

Definition all_layers : list nat :=
  [2; 5; 6; 9; 10; 11; 12; 13; 15; 17; 18; 19; 20; 21; 23; 26; 27; 28; 29; 30; 32;
   34; 35; 36; 37; 38; 40; 42; 43; 44; 45; 46; 48; 50; 51; 52; 53; 54; 56;
   58; 59; 60; 61; 62; 64; 68; 70; 72; 74; 76; 78;
   79; 80; 81; 82; 83; 85; 87; 88; 89; 90; 91; 93; 98].

(** The default graph after [GoogLeNet(...).run()] has created its last
    node, for [n] classes and learning rate [lr]. *)
Definition model_graph (n : nat) (lr : Q) : Graph :=
  [
    mkNode 0 (Placeholder "image") [] [None; Some 224; Some 224; Some 3];
    mkNode 1 (Placeholder "label") [] [None; Some n];
    mkNode 2 (Conv2D 64 (7, 7) (2, 2) Same) [0] [None; Some 112; Some 112; Some 64];
    mkNode 3 (MaxPooling2D (3, 3) (2, 2) Same) [2] [None; Some 56; Some 56; Some 64];
    mkNode 4 (LocalResponseNormalization 2.0 1.0 0.0002 0.75) [3] [None; Some 56; Some 56; Some 64];
    mkNode 5 (Conv2D 64 (1, 1) (1, 1) Same) [4] [None; Some 56; Some 56; Some 64];
    mkNode 6 (Conv2D 192 (3, 3) (1, 1) Same) [5] [None; Some 56; Some 56; Some 192];
    mkNode 7 (LocalResponseNormalization 2.0 1.0 0.0002 0.75) [6] [None; Some 56; Some 56; Some 192];
    mkNode 8 (MaxPooling2D (3, 3) (2, 2) Same) [7] [None; Some 28; Some 28; Some 192];
    mkNode 9 (Conv2D 64 (1, 1) (1, 1) Same) [8] [None; Some 28; Some 28; Some 64];
    mkNode 10 (Conv2D 96 (1, 1) (1, 1) Same) [8] [None; Some 28; Some 28; Some 96];
    mkNode 11 (Conv2D 128 (3, 3) (1, 1) Same) [10] [None; Some 28; Some 28; Some 128];
    mkNode 12 (Conv2D 16 (1, 1) (1, 1) Same) [8] [None; Some 28; Some 28; Some 16];
    mkNode 13 (Conv2D 32 (5, 5) (1, 1) Same) [12] [None; Some 28; Some 28; Some 32];
    mkNode 14 (MaxPooling2D (3, 3) (1, 1) Same) [8] [None; Some 28; Some 28; Some 192];
    mkNode 15 (Conv2D 32 (1, 1) (1, 1) Same) [14] [None; Some 28; Some 28; Some 32];
    mkNode 16 (Concat 3) [9; 11; 13; 15] [None; Some 28; Some 28; Some 256];
    mkNode 17 (Conv2D 128 (1, 1) (1, 1) Same) [16] [None; Some 28; Some 28; Some 128];
    mkNode 18 (Conv2D 128 (1, 1) (1, 1) Same) [16] [None; Some 28; Some 28; Some 128];
    mkNode 19 (Conv2D 192 (3, 3) (1, 1) Same) [18] [None; Some 28; Some 28; Some 192];
    mkNode 20 (Conv2D 32 (1, 1) (1, 1) Same) [16] [None; Some 28; Some 28; Some 32];
    mkNode 21 (Conv2D 96 (5, 5) (1, 1) Same) [20] [None; Some 28; Some 28; Some 96];
    mkNode 22 (MaxPooling2D (3, 3) (1, 1) Same) [16] [None; Some 28; Some 28; Some 256];
    mkNode 23 (Conv2D 64 (1, 1) (1, 1) Same) [22] [None; Some 28; Some 28; Some 64];
    mkNode 24 (Concat 3) [17; 19; 21; 23] [None; Some 28; Some 28; Some 480];
    mkNode 25 (MaxPooling2D (3, 3) (2, 2) Same) [24] [None; Some 14; Some 14; Some 480];
    mkNode 26 (Conv2D 192 (1, 1) (1, 1) Same) [25] [None; Some 14; Some 14; Some 192];
    mkNode 27 (Conv2D 96 (1, 1) (1, 1) Same) [25] [None; Some 14; Some 14; Some 96];
    mkNode 28 (Conv2D 208 (3, 3) (1, 1) Same) [27] [None; Some 14; Some 14; Some 208];
    mkNode 29 (Conv2D 16 (1, 1) (1, 1) Same) [25] [None; Some 14; Some 14; Some 16];
    mkNode 30 (Conv2D 48 (5, 5) (1, 1) Same) [29] [None; Some 14; Some 14; Some 48];
    mkNode 31 (MaxPooling2D (3, 3) (1, 1) Same) [25] [None; Some 14; Some 14; Some 480];
    mkNode 32 (Conv2D 64 (1, 1) (1, 1) Same) [31] [None; Some 14; Some 14; Some 64];
    mkNode 33 (Concat 3) [26; 28; 30; 32] [None; Some 14; Some 14; Some 512];
    mkNode 34 (Conv2D 160 (1, 1) (1, 1) Same) [33] [None; Some 14; Some 14; Some 160];
    mkNode 35 (Conv2D 112 (1, 1) (1, 1) Same) [33] [None; Some 14; Some 14; Some 112];
    mkNode 36 (Conv2D 224 (3, 3) (1, 1) Same) [35] [None; Some 14; Some 14; Some 224];
    mkNode 37 (Conv2D 24 (1, 1) (1, 1) Same) [33] [None; Some 14; Some 14; Some 24];
    mkNode 38 (Conv2D 64 (5, 5) (1, 1) Same) [37] [None; Some 14; Some 14; Some 64];
    mkNode 39 (MaxPooling2D (3, 3) (1, 1) Same) [33] [None; Some 14; Some 14; Some 512];
    mkNode 40 (Conv2D 64 (1, 1) (1, 1) Same) [39] [None; Some 14; Some 14; Some 64];
    mkNode 41 (Concat 3) [34; 36; 38; 40] [None; Some 14; Some 14; Some 512];
    mkNode 42 (Conv2D 128 (1, 1) (1, 1) Same) [41] [None; Some 14; Some 14; Some 128];
    mkNode 43 (Conv2D 128 (1, 1) (1, 1) Same) [41] [None; Some 14; Some 14; Some 128];
    mkNode 44 (Conv2D 256 (3, 3) (1, 1) Same) [43] [None; Some 14; Some 14; Some 256];
    mkNode 45 (Conv2D 24 (1, 1) (1, 1) Same) [41] [None; Some 14; Some 14; Some 24];
    mkNode 46 (Conv2D 64 (5, 5) (1, 1) Same) [45] [None; Some 14; Some 14; Some 64];
    mkNode 47 (MaxPooling2D (3, 3) (1, 1) Same) [41] [None; Some 14; Some 14; Some 512];
    mkNode 48 (Conv2D 64 (1, 1) (1, 1) Same) [47] [None; Some 14; Some 14; Some 64];
    mkNode 49 (Concat 3) [42; 44; 46; 48] [None; Some 14; Some 14; Some 512];
    mkNode 50 (Conv2D 112 (1, 1) (1, 1) Same) [49] [None; Some 14; Some 14; Some 112];
    mkNode 51 (Conv2D 144 (1, 1) (1, 1) Same) [49] [None; Some 14; Some 14; Some 144];
    mkNode 52 (Conv2D 288 (3, 3) (1, 1) Same) [51] [None; Some 14; Some 14; Some 288];
    mkNode 53 (Conv2D 32 (1, 1) (1, 1) Same) [49] [None; Some 14; Some 14; Some 32];
    mkNode 54 (Conv2D 64 (5, 5) (1, 1) Same) [53] [None; Some 14; Some 14; Some 64];
    mkNode 55 (MaxPooling2D (3, 3) (1, 1) Same) [49] [None; Some 14; Some 14; Some 512];
    mkNode 56 (Conv2D 64 (1, 1) (1, 1) Same) [55] [None; Some 14; Some 14; Some 64];
    mkNode 57 (Concat 3) [50; 52; 54; 56] [None; Some 14; Some 14; Some 528];
    mkNode 58 (Conv2D 256 (1, 1) (1, 1) Same) [57] [None; Some 14; Some 14; Some 256];
    mkNode 59 (Conv2D 160 (1, 1) (1, 1) Same) [57] [None; Some 14; Some 14; Some 160];
    mkNode 60 (Conv2D 320 (3, 3) (1, 1) Same) [59] [None; Some 14; Some 14; Some 320];
    mkNode 61 (Conv2D 32 (1, 1) (1, 1) Same) [57] [None; Some 14; Some 14; Some 32];
    mkNode 62 (Conv2D 128 (5, 5) (1, 1) Same) [61] [None; Some 14; Some 14; Some 128];
    mkNode 63 (MaxPooling2D (3, 3) (1, 1) Same) [57] [None; Some 14; Some 14; Some 528];
    mkNode 64 (Conv2D 128 (1, 1) (1, 1) Same) [63] [None; Some 14; Some 14; Some 128];
    mkNode 65 (Concat 3) [58; 60; 62; 64] [None; Some 14; Some 14; Some 832];
    mkNode 66 (MaxPooling2D (3, 3) (2, 2) Same) [65] [None; Some 7; Some 7; Some 832];
    mkNode 67 (AveragePooling2D (5, 5) (3, 3) Same) [33] [None; Some 5; Some 5; Some 512];
    mkNode 68 (Conv2D 128 (1, 1) (1, 1) Valid) [67] [None; Some 5; Some 5; Some 128];
    mkNode 69 Flatten [68] [None; Some 3200];
    mkNode 70 (Dense 1024) [69] [None; Some 1024];
    mkNode 71 (Dropout 0.3 false) [70] [None; Some 1024];
    mkNode 72 (Dense n) [71] [None; Some n];
    mkNode 73 (AveragePooling2D (5, 5) (3, 3) Same) [57] [None; Some 5; Some 5; Some 528];
    mkNode 74 (Conv2D 128 (1, 1) (1, 1) Valid) [73] [None; Some 5; Some 5; Some 128];
    mkNode 75 Flatten [74] [None; Some 3200];
    mkNode 76 (Dense 1024) [75] [None; Some 1024];
    mkNode 77 (Dropout 0.3 false) [76] [None; Some 1024];
    mkNode 78 (Dense n) [77] [None; Some n];
    mkNode 79 (Conv2D 256 (1, 1) (1, 1) Same) [66] [None; Some 7; Some 7; Some 256];
    mkNode 80 (Conv2D 160 (1, 1) (1, 1) Same) [66] [None; Some 7; Some 7; Some 160];
    mkNode 81 (Conv2D 320 (3, 3) (1, 1) Same) [80] [None; Some 7; Some 7; Some 320];
    mkNode 82 (Conv2D 32 (1, 1) (1, 1) Same) [66] [None; Some 7; Some 7; Some 32];
    mkNode 83 (Conv2D 128 (5, 5) (1, 1) Same) [82] [None; Some 7; Some 7; Some 128];
    mkNode 84 (MaxPooling2D (3, 3) (1, 1) Same) [66] [None; Some 7; Some 7; Some 832];
    mkNode 85 (Conv2D 128 (1, 1) (1, 1) Same) [84] [None; Some 7; Some 7; Some 128];
    mkNode 86 (Concat 3) [79; 81; 83; 85] [None; Some 7; Some 7; Some 832];
    mkNode 87 (Conv2D 384 (1, 1) (1, 1) Same) [86] [None; Some 7; Some 7; Some 384];
    mkNode 88 (Conv2D 192 (1, 1) (1, 1) Same) [86] [None; Some 7; Some 7; Some 192];
    mkNode 89 (Conv2D 384 (3, 3) (1, 1) Same) [88] [None; Some 7; Some 7; Some 384];
    mkNode 90 (Conv2D 48 (1, 1) (1, 1) Same) [86] [None; Some 7; Some 7; Some 48];
    mkNode 91 (Conv2D 128 (5, 5) (1, 1) Same) [90] [None; Some 7; Some 7; Some 128];
    mkNode 92 (MaxPooling2D (3, 3) (1, 1) Same) [86] [None; Some 7; Some 7; Some 832];
    mkNode 93 (Conv2D 128 (1, 1) (1, 1) Same) [92] [None; Some 7; Some 7; Some 128];
    mkNode 94 (Concat 3) [87; 89; 91; 93] [None; Some 7; Some 7; Some 1024];
    mkNode 95 (AveragePooling2D (7, 7) (1, 1) Valid) [94] [None; Some 1; Some 1; Some 1024];
    mkNode 96 Flatten [95] [None; Some 1024];
    mkNode 97 (Dropout 0.4 false) [96] [None; Some 1024];
    mkNode 98 (Dense n) [97] [None; Some n];
    mkNode 99 SoftmaxCrossEntropyWithLogits [1; 98] [None];
    mkNode 100 ReduceMean [99] [];
    mkNode 101 (Minimize lr (layer_vars main_layers)) [100] [];
    mkNode 102 Round [98] [None; Some n];
    mkNode 103 Round [1] [None; Some n];
    mkNode 104 Equal [102; 103] [None; Some n];
    mkNode 105 (Cast Float32) [104] [None; Some n];
    mkNode 106 ReduceMean [105] [];
    mkNode 107 (VariablesInitializer (layer_vars all_layers)) [] []
  ].

(** The ids of the tensors named in [run]. *)
Definition inception_4a : Tensor := 33.
Definition inception_4d : Tensor := 57.
Definition auxiliary_1 : Tensor := 72.
Definition auxiliary_2 : Tensor := 78.
Definition linear : Tensor := 98.
Definition cross_entropy : Tensor := 99.
Definition loss : Tensor := 100.
Definition train : Tensor := 101.
Definition accuracy : Tensor := 106.
Definition init : Tensor := 107.

(* ================================================================== *)
(** ** The session part of [run] and its schedule                      *)
(* ================================================================== *)

Section Schedule.

Context {L : Library} {D : ImageNet}.

(** [GoogLeNet(learning_rate, num_epochs, batch_size).run()] *)
Definition program (learning_rate : Q) (num_epochs batch_size : Z) : TF unit :=
  net <- GoogLeNet.__init__ learning_rate num_epochs batch_size ;;
  GoogLeNet.run net.

(** The body of the inner loop of [run], the body of the outer loop, and
    everything [run] does once the graph is complete, as functions of the
    tensors [run] holds in local variables. *)
Definition train_batch (self : GoogLeNet.t) (train : Tensor) (i start : Z) : TF unit :=
  let end_ := (start + GoogLeNet.batch_size self)%Z in
  batch_X <- lift_result (nd_slice X_train start end_) ;;
  batch_y <- lift_result (nd_slice y_train start end_) ;;
  _ <- sess_run tt [train] [(GoogLeNet.X self, batch_X); (GoogLeNet.y self, batch_y)] ;;
  if (end_ mod 100 =? 0)%Z
  then (total' <- lift_result (py_len X_train) ;;
        print (MsgProgress i end_ total'))
  else ret tt.

Definition train_epoch (self : GoogLeNet.t) (train loss accuracy : Tensor) (i : Z)
    : TF unit :=
  total <- lift_result (py_len X_train) ;;
  starts <- lift_result (py_range 0 total (GoogLeNet.batch_size self)) ;;
  for_each starts (train_batch self train i) ;;
  values <- sess_run tt [loss; accuracy]
              [(GoogLeNet.X self, X_validation); (GoogLeNet.y self, y_validation)] ;;
  print (MsgEpoch i values).

Definition session_part (self : GoogLeNet.t) (init train loss accuracy : Tensor)
    : TF unit :=
  _ <- sess_run tt [init] [] ;;
  print MsgBlank ;;
  print MsgTraining ;;
  epochs <- lift_result (py_range 0 (GoogLeNet.num_epochs self) 1) ;;
  for_each epochs (train_epoch self train loss accuracy) ;;
  print MsgEvaluating ;;
  values <- sess_run tt [loss; accuracy]
              [(GoogLeNet.X self, X_test); (GoogLeNet.y self, y_test)] ;;
  print (MsgTest values) ;;
  sess_close tt.

(** A [sess.run] call: what is fetched and what is fed. *)
Definition Call : Type := (list Tensor * Feed)%type.

Definition call_of (ev : Event) : Call := (ev_fetches ev, ev_feed ev).

Definition event_ok (ev : Event) : bool :=
  match ev_outcome ev with
  | Ok _ => true
  | Raise _ => false
  end.

(** [a[start:start + size]] for an array with a first axis. *)
Definition batch_of (a : Array) (start size : Z) : Array :=
  match nd_slice a start (start + size) with
  | Ok b => b
  | Raise _ => a
  end.

(** The starts 0, b, 2b, ... below [total]. *)
Definition batch_starts (total : nat) (batch_size : Z) : list Z :=
  map (fun k => (Z.of_nat k * batch_size)%Z)
      (seq 0 ((total + Z.to_nat batch_size - 1) / Z.to_nat batch_size)).

Definition training_feed (X y : Tensor) (batch_size start : Z) : Feed :=
  [(X, batch_of X_train start batch_size); (y, batch_of y_train start batch_size)].

Definition validation_feed (X y : Tensor) : Feed :=
  [(X, X_validation); (y, y_validation)].

Definition test_feed (X y : Tensor) : Feed :=
  [(X, X_test); (y, y_test)].

(** The calls of one epoch: a training step per batch start, then one
    evaluation on the validation set. *)
Definition epoch_calls (X y : Tensor) (batch_size : Z) (starts : list Z) : list Call :=
  map (fun start => ([train], training_feed X y batch_size start)) starts
  ++ [([loss; accuracy], validation_feed X y)].

(** The calls of a whole run: initialisation, the epochs, one evaluation
    on the test set. *)
Definition schedule (X y : Tensor) (batch_size : Z) (starts : list Z) (epochs : nat)
    : list Call :=
  ([init], [])
  :: List.concat (repeat (epoch_calls X y batch_size starts) epochs)
  ++ [([loss; accuracy], test_feed X y)].

(** What the two [range] expressions of [run] yield; a [range] or [len]
    that raises yields nothing. *)
Definition range_values (r : result (list Z)) : list Z :=
  match r with
  | Ok l => l
  | Raise _ => []
  end.

Definition run_starts (batch_size : Z) : list Z :=
  match py_len X_train with
  | Ok total => range_values (py_range 0 total batch_size)
  | Raise _ => []
  end.

Definition run_epochs (num_epochs : Z) : nat :=
  List.length (range_values (py_range 0 num_epochs 1)).

(** An event records what [run_fetches] does on the graph [g] from the
    variables it started with; after a call that raised, the variables
    are what the run left behind. *)
Definition valid_event (g : Graph) (ev : Event) : Prop :=
  match run_fetches g (ev_fetches ev) (ev_feed ev) (ev_before ev) with
  | Ok (st', values) => ev_after ev = st' /\ ev_outcome ev = Ok values
  | Raise e =>
      ev_after ev = run_fetches_leaves g (ev_fetches ev) (ev_feed ev) (ev_before ev) /\
      ev_outcome ev = Raise e
  end.

(** Consecutive events hand the variables on. *)
Fixpoint chained (g : Graph) (st : Store) (evs : list Event) (st' : Store) : Prop :=
  match evs with
  | [] => st' = st
  | ev :: rest =>
      ev_before ev = st /\ valid_event g ev /\ chained g (ev_after ev) rest st'
  end.

(** How a list of events may relate to the calls [p] a statement is meant
    to issue: all of them, in order, when the statement returns; a prefix
    when it raises, and then a failed call is the last one and its error
    is the statement's. *)
Definition trace_ok {A} (p : list Call) (evs : list Event) (r : result A) : Prop :=
  match r with
  | Ok _ => map call_of evs = p /\ forallb event_ok evs = true
  | Raise e =>
      (exists rest, p = map call_of evs ++ rest) /\
      (forallb event_ok evs = true \/
       exists pre ev, evs = pre ++ [ev] /\ forallb event_ok pre = true /\
                      ev_outcome ev = Raise e)
  end.

Definition issues {A} (m : TF A) (p : list Call) : Prop :=
  forall w,
    graph (fst (m w)) = graph w /\
    exists evs,
      log (fst (m w)) = log w ++ evs /\
      chained (graph w) (store w) evs (store (fst (m w))) /\
      trace_ok p evs (snd (m w)).

(** Started with the session open, [m] raises only when the last
    [sess.run] it made raised, and then with that call's error; when it
    returns it leaves the session open, unless it [closes] it. *)
Definition raises_in_session {A} (m : TF A) (closes : bool) : Prop :=
  forall w, session_open w = true ->
    exists evs,
      log (fst (m w)) = log w ++ evs /\
      match snd (m w) with
      | Ok _ => closes = false -> session_open (fst (m w)) = true
      | Raise e => exists pre ev, evs = pre ++ [ev] /\ ev_outcome ev = Raise e
      end.

End Schedule.

(* ================================================================== *)
(** ** The graph without the auxiliary classifiers                     *)
(* ================================================================== *)

(** The nodes of a head: what [head] depends on beyond the tensor it is
    attached to. *)
Definition head_nodes (g : Graph) (head attach : Tensor) : list nat :=
  let below := cone g [attach] in
  filter (fun i => negb (mem i below)) (map n_id (prune g [head])).

Definition without_nodes (g : Graph) (ids : list nat) : Graph :=
  filter (fun n => negb (mem (n_id n) ids)) g.

(** The same graph with the two auxiliary heads removed. *)
Definition without_auxiliary_heads (g : Graph) : Graph :=
  let heads := head_nodes g auxiliary_1 inception_4a
               ++ head_nodes g auxiliary_2 inception_4d in
  without_nodes g heads.

(** Nodes whose execution leaves the variables alone. *)
Definition stateless (n : Node) : bool :=
  match n_op n with
  | Minimize _ _ => false
  | VariablesInitializer _ => false
  | _ => true
  end.

(** The eight nodes one call of [inception] appends to a graph of [k]
    nodes, for an input [x] of static shape [N; H; W; C]. *)
Definition inception_nodes (k : nat) (x : Tensor) (N H W : Dim) (C : nat)
    (conv_11_size conv_33_reduce_size conv_33_size
     conv_56_reduce_size conv_56_size pool_proj_size : nat) : list Node :=
  [ mkNode k (Conv2D conv_11_size (1, 1) (1, 1) Same) [x]
      [N; H; W; Some conv_11_size];
    mkNode (k + 1) (Conv2D conv_33_reduce_size (1, 1) (1, 1) Same) [x]
      [N; H; W; Some conv_33_reduce_size];
    mkNode (k + 2) (Conv2D conv_33_size (3, 3) (1, 1) Same) [k + 1]
      [N; H; W; Some conv_33_size];
    mkNode (k + 3) (Conv2D conv_56_reduce_size (1, 1) (1, 1) Same) [x]
      [N; H; W; Some conv_56_reduce_size];
    mkNode (k + 4) (Conv2D conv_56_size (5, 5) (1, 1) Same) [k + 3]
      [N; H; W; Some conv_56_size];
    mkNode (k + 5) (MaxPooling2D (3, 3) (1, 1) Same) [x]
      [N; H; W; Some C];
    mkNode (k + 6) (Conv2D pool_proj_size (1, 1) (1, 1) Same) [k + 5]
      [N; H; W; Some pool_proj_size];
    mkNode (k + 7) (Concat 3) [k; k + 2; k + 4; k + 6]
      [N; H; W; Some (conv_11_size + conv_33_size + conv_56_size + pool_proj_size)] ].

(* ================================================================== *)
(** ** Reading the run                                                *)
(* ================================================================== *)

(** The world in which the session part of [run] starts. *)
Definition built_world {L : Library} (n : nat) (lr : Q) : World :=
  mkWorld (model_graph n lr) true empty_store [] [].

(** Operations whose value is computed from the values of their inputs
    alone. *)
Definition computed (op : Op) : bool :=
  match op with
  | Placeholder _ | Conv2D _ _ _ _ | Dense _ | Minimize _ _
  | VariablesInitializer _ => false
  | _ => true
  end.

(** The tensors that are outputs of an inception module. *)
Definition inception_outputs (g : Graph) : list Tensor :=
  filter (fun t => match layer_at g t with
                   | Some (l, _) => is_inception l
                   | None => false
                   end)
         (map n_id g).

(** [t] ends an auxiliary classifier: pool - conv - flatten - dense -
    dropout - dense. *)
Definition is_auxiliary_head (g : Graph) (t : Tensor) : bool :=
  match map fst (snd (walk_back 6 g t [])) with
  | [LAvgPool (5, 5) (3, 3) Same; LConv 128 (1, 1) (1, 1) Valid; LFlatten;
     LDense 1024; LDropout _; LDense _] => true
  | _ => false
  end.

Definition auxiliary_heads (g : Graph) : list Tensor :=
  filter (is_auxiliary_head g) (map n_id g).

(** The calls that run the training operation. *)
Definition is_training {L : Library} (c : Call) : bool :=
  match fst c with
  | [t] => t =? train
  | _ => false
  end.

(* ================================================================== *)
(** ** A concrete run                                                  *)
(* ================================================================== *)

(** The default graph right after [GoogLeNet()] with two classes. *)
Definition input_world : @World Exact.library :=
  mkWorld [mkNode 0 (Placeholder "image") [] [None; Some 224; Some 224; Some 3];
           mkNode 1 (Placeholder "label") [] [None; Some 2]]
          false (@empty_store Exact.library) [] [].

(** [GoogLeNet(0.001, 1, 100).run()] on the exact library and its data:
    one epoch of one batch. *)
Definition short_run : @World Exact.library * result unit :=
  @program Exact.library Exact.data 0.001 1 100 initial_world.

(** Its third [sess.run]: the evaluation on the validation set. *)
Definition validation_event : @Event Exact.library :=
  nth 2 (log (fst short_run))
      (mkEvent [] [] (@empty_store Exact.library) (@empty_store Exact.library) (Ok [])).

(** For comparison with [accuracy] only: the position of the largest entry
    of a row, and the share of rows in which logits and labels have it at
    the same position.  The program computes neither. *)
Fixpoint argmax_from (best : Q) (at_best i : nat) (row : list Q) : nat :=
  match row with
  | [] => at_best
  | x :: rest =>
      if Qle_bool x best then argmax_from best at_best (S i) rest
      else argmax_from x i (S i) rest
  end.

Definition argmax (row : list Q) : nat :=
  match row with
  | [] => 0
  | x :: rest => argmax_from x 0 1 rest
  end.

Fixpoint rows_of (width count : nat) (data : list Q) : list (list Q) :=
  match count with
  | 0 => []
  | S k => firstn width data :: rows_of width k (skipn width data)
  end.

Definition argmax_accuracy (logits labels : ndarray Q) : Q :=
  match logits, labels with
  | NdFloat [count; width] dl, NdFloat _ dy =>
      Exact.mean (map2 (fun a b => if argmax a =? argmax b then 1%Q else 0%Q)
                       (rows_of width count dl) (rows_of width count dy))
  | _, _ => 0%Q
  end.

(* ================================================================== *)
(** ** More ways to read a graph and a run                             *)
(* ================================================================== *)

(** The shapes a convolution of [inception] accepts: rank 4 with a known
    channel count. *)
Definition is_feature_map (s : Shape) : bool :=
  match s with
  | [_; _; _; Some _] => true
  | _ => false
  end.

(** A spatial length after the 5x5 average pool with stride 3 and 'same'
    padding. *)
Definition pooled (d : Dim) : Dim := option_map (fun x => (x + 2) / 3) d.

(** The six nodes one call of [auxiliary] appends to a graph of [k] nodes,
    for an input [x] of static shape [N; H; W; C]. *)
Definition auxiliary_nodes (k : nat) (x : Tensor) (N : Dim) (H W C num_classes : nat)
    : list Node :=
  let h := (H + 2) / 3 in
  let w := (W + 2) / 3 in
  [ mkNode k (AveragePooling2D (5, 5) (3, 3) Same) [x] [N; Some h; Some w; Some C];
    mkNode (k + 1) (Conv2D 128 (1, 1) (1, 1) Valid) [k] [N; Some h; Some w; Some 128];
    mkNode (k + 2) Flatten [k + 1] [N; Some (h * (w * 128))];
    mkNode (k + 3) (Dense 1024) [k + 2] [N; Some 1024];
    mkNode (k + 4) (Dropout 0.3 false) [k + 3] [N; Some 1024];
    mkNode (k + 5) (Dense num_classes) [k + 4] [N; Some num_classes] ].

Definition static_shapes (g : Graph) (ts : list Tensor) : list (option Shape) :=
  map (fun t => option_map n_shape (find_node g t)) ts.

(** Every node reads nodes created before it. *)
Definition inputs_are_older (g : Graph) : bool :=
  forallb (fun nd => forallb (fun i => i <? n_id nd) (n_inputs nd)) g.

Definition dropout_nodes (g : Graph) : list Node :=
  filter (fun n => match n_op n with Dropout _ _ => true | _ => false end) g.

Definition var_eqb (a b : Var) : bool :=
  (fst a =? fst b) &&
  match snd a, snd b with
  | Kernel, Kernel | Bias, Bias => true
  | _, _ => false
  end.

Definition var_mem (v : Var) (l : list Var) : bool := existsb (var_eqb v) l.

(** The variables the training operation [t] updates, and the ones the
    initializer [t] sets. *)
Definition minimized_variables (g : Graph) (t : Tensor) : list Var :=
  match option_map n_op (find_node g t) with
  | Some (Minimize _ vars) => vars
  | _ => []
  end.

Definition initialized_variables (g : Graph) (t : Tensor) : list Var :=
  match option_map n_op (find_node g t) with
  | Some (VariablesInitializer vars) => vars
  | _ => []
  end.

(** The elements and the number of rows of an array. *)
Definition float_data {F} (a : ndarray F) : list F :=
  match a with
  | NdFloat _ d => d
  | NdBool _ _ => []
  end.

Definition array_rows {F} (a : ndarray F) : nat := hd 0 (np_shape a).

Section Output.

Context {L : Library} {D : ImageNet}.

Definition is_progress (m : Msg) : bool :=
  match m with
  | MsgProgress _ _ _ => true
  | _ => false
  end.

(** A printed line without the numbers the session returned. *)
Definition without_values (m : Msg) : Msg :=
  match m with
  | MsgEpoch i _ => MsgEpoch i []
  | MsgTest _ => MsgTest []
  | other => other
  end.

(** [len(X_train)], when it has one. *)
Definition run_total : Z :=
  match py_len X_train with
  | Ok total => total
  | Raise _ => 0%Z
  end.

(** The progress lines of epoch [i]: one for every batch whose [end] is a
    multiple of 100. *)
Definition progress_lines (batch_size : Z) (starts : list Z) (i : Z) : list Msg :=
  map (fun start => MsgProgress i (start + batch_size) run_total)
      (filter (fun start => ((start + batch_size) mod 100 =? 0)%Z) starts).

Definition epoch_lines (batch_size : Z) (starts : list Z) (i : Z) : list Msg :=
  progress_lines batch_size starts i ++ [MsgEpoch i []].

Definition transcript (batch_size : Z) (starts epochs : list Z) : list Msg :=
  [MsgBlank; MsgTraining]
  ++ List.concat (map (epoch_lines batch_size starts) epochs)
  ++ [MsgEvaluating; MsgTest []].

(** Started with the session open, [m] prints the lines [p] (a prefix when
    it raises) and leaves the session open, unless [closes] and it
    returns. *)
Definition writes {A} (m : TF A) (p : list Msg) (closes : bool) : Prop :=
  forall w, session_open w = true ->
    exists ls,
      map without_values (stdout (fst (m w))) = map without_values (stdout w) ++ ls /\
      match snd (m w) with
      | Ok _ => ls = p /\ session_open (fst (m w)) = negb closes
      | Raise _ => (exists rest, p = ls ++ rest) /\ session_open (fst (m w)) = true
      end.

End Output.

(** Three images of 2 x 2 pixels with their labels, for the exact library;
    and a graph whose image placeholder leaves the height open. *)
Module Small.

Definition images : ndarray Q :=
  NdFloat [3; 2; 2; 3] (map (fun k => inject_Z (Z.of_nat k)) (seq 0 36)).

Definition labels : ndarray Q :=
  NdFloat [3; 2] [1%Q; 0%Q; 0%Q; 1%Q; 1%Q; 0%Q].

#[export] Instance data : @ImageNet Exact.library :=
  @Build_ImageNet Exact.library images images images labels labels labels.

End Small.

Definition unsized_world : @World Exact.library :=
  mkWorld [mkNode 0 (Placeholder "image") [] [None; None; Some 224; Some 3]]
          false (@empty_store Exact.library) [] [].

(* ================================================================== *)
(** * Proofs                                                           *)
(* ================================================================== *)

Unset Implicit Arguments.

Section Monad_facts.

Context {L : Library}.

Lemma bind_ok {A B} (m : TF A) (k : A -> TF B) (w w' : World) (a : A) :
  m w = (w', Ok a) -> bind m k w = k a w'.
Proof. intros H. unfold bind. rewrite H. reflexivity. Qed.

Lemma bind_raise {A B} (m : TF A) (k : A -> TF B) (w w' : World) (e : exn) :
  m w = (w', Raise e) -> bind m k w = (w', Raise e).
Proof. intros H. unfold bind. rewrite H. reflexivity. Qed.

Lemma bind_ret {A B} (a : A) (k : A -> TF B) (w : World) :
  bind (ret a) k w = k a w.
Proof. reflexivity. Qed.

Lemma bind_lift_ok {A B} (a : A) (k : A -> TF B) (w : World) :
  bind (lift_result (Ok a)) k w = k a w.
Proof. reflexivity. Qed.

End Monad_facts.

(** ** Well-formed graphs *)

Lemma find_from (g : Graph) (k t : nat) :
  (forall i n, nth_error g i = Some n -> n_id n = k + i) ->
  find (fun n => n_id n =? t) g = if t <? k then None else nth_error g (t - k).
Proof.
  revert k. induction g as [|a g IH]; intros k Hwf; simpl.
  - destruct (t <? k); [reflexivity|]. destruct (t - k); reflexivity.
  - assert (Ha : n_id a = k) by (rewrite (Hwf 0 a eq_refl); lia).
    rewrite Ha. destruct (Nat.eqb_spec k t) as [->|Hne].
    + rewrite Nat.ltb_irrefl, Nat.sub_diag. reflexivity.
    + rewrite (IH (S k)).
      * destruct (Nat.ltb_spec t k) as [Hlt|Hge].
        -- assert (Hlt' : (t <? S k) = true) by (apply Nat.ltb_lt; lia).
           rewrite Hlt'. reflexivity.
        -- assert (Hge' : (t <? S k) = false) by (apply Nat.ltb_ge; lia).
           rewrite Hge'. replace (t - k) with (S (t - S k)) by lia. reflexivity.
      * intros i n Hn. rewrite (Hwf (S i) n Hn). lia.
Qed.

Lemma find_node_wf (g : Graph) (t : Tensor) :
  wf_graph g -> find_node g t = nth_error g t.
Proof.
  intros Hwf. unfold find_node. rewrite (find_from g 0 t).
  - simpl. rewrite Nat.sub_0_r. reflexivity.
  - intros i n Hn. simpl. apply Hwf. exact Hn.
Qed.

Lemma wf_graph_snoc (g : Graph) (op : Op) (ins : list nat) (s : Shape) :
  wf_graph g -> wf_graph (g ++ [mkNode (List.length g) op ins s]).
Proof.
  intros Hwf i n Hn.
  destruct (Nat.lt_ge_cases i (List.length g)) as [Hlt|Hge].
  - rewrite nth_error_app1 in Hn by exact Hlt. apply Hwf. exact Hn.
  - rewrite nth_error_app2 in Hn by exact Hge.
    destruct (i - List.length g) as [|j] eqn:Hj.
    + simpl in Hn. injection Hn as <-. simpl. lia.
    + simpl in Hn. destruct j; discriminate.
Qed.

Lemma wf_graph_nil : wf_graph [].
Proof. intros i n Hn. destruct i; discriminate. Qed.

Lemma find_node_old (g : Graph) (l : list Node) (t : Tensor) (nd : Node) :
  find_node g t = Some nd -> find_node (g ++ l) t = Some nd.
Proof.
  unfold find_node. induction g as [|a g IH]; simpl; [discriminate|].
  destruct (n_id a =? t); [trivial | exact IH].
Qed.

Lemma find_node_lt (g : Graph) (t : Tensor) (nd : Node) :
  wf_graph g -> find_node g t = Some nd -> t < List.length g.
Proof.
  intros Hwf H. rewrite find_node_wf in H by exact Hwf.
  apply nth_error_Some. rewrite H. discriminate.
Qed.

Lemma find_node_new (g : Graph) (l : list Node) (i : nat) :
  wf_graph (g ++ l) -> find_node (g ++ l) (List.length g + i) = nth_error l i.
Proof.
  intros Hwf. rewrite find_node_wf by exact Hwf.
  rewrite nth_error_app2 by lia. f_equal. lia.
Qed.

Lemma numbered_from_ids (g : Graph) (k : nat) :
  numbered_from k g = true ->
  forall i n, nth_error g i = Some n -> n_id n = k + i.
Proof.
  revert k. induction g as [|a g IH]; intros k H i n Hn.
  - destruct i; discriminate.
  - simpl in H. apply andb_true_iff in H. destruct H as [Ha Hg].
    apply Nat.eqb_eq in Ha. destruct i as [|i].
    + injection Hn as <-. lia.
    + simpl in Hn. rewrite (IH (S k) Hg i n Hn). lia.
Qed.

Lemma well_numbered_wf (g : Graph) : well_numbered g = true -> wf_graph g.
Proof. intros H i n Hn. apply (numbered_from_ids g 0 H i n Hn). Qed.

(** ** Shape rules at stride 1 with 'same' padding *)

Lemma conv_output_length_same_1 (d : Dim) (k : nat) :
  conv_output_length d k Same 1 = Ok d.
Proof.
  destruct d as [x|]; [|reflexivity].
  unfold conv_output_length. change (1 =? 0) with false. cbv iota.
  rewrite Nat.div_1_r. do 2 f_equal. lia.
Qed.

Lemma merge_dim_refl (d : Dim) : merge_dim d d = Ok d.
Proof. destruct d as [x|]; simpl; [rewrite Nat.eqb_refl|]; reflexivity. Qed.

Lemma concat2_shape_channels (N H W : Dim) (a b : nat) :
  concat2_shape 3 [N; H; W; Some a] [N; H; W; Some b] = Ok [N; H; W; Some (a + b)].
Proof. simpl. rewrite !merge_dim_refl. reflexivity. Qed.

Section Inception_facts.

Context {L : Library}.

Lemma shape_of_ok (w : World) (t : Tensor) (nd : Node) :
  find_node (graph w) t = Some nd -> shape_of t w = (w, Ok (n_shape nd)).
Proof. intros H. unfold shape_of. rewrite H. reflexivity. Qed.

Lemma conv2d_same_ok (w : World) (t : Tensor) (nd : Node) (N H W : Dim) (C f : nat)
    (k : nat * nat) :
  find_node (graph w) t = Some nd ->
  n_shape nd = [N; H; W; Some C] ->
  tf_layers_conv2d t f k (1, 1) Same w =
  (with_graph w (graph w ++ [mkNode (List.length (graph w)) (Conv2D f k (1, 1) Same) [t]
                               [N; H; W; Some f]]),
   Ok (List.length (graph w))).
Proof.
  intros Hf Hs. unfold tf_layers_conv2d.
  rewrite (bind_ok _ _ _ _ _ (shape_of_ok _ _ _ Hf)), Hs.
  unfold conv2d_shape, window_shape. simpl nth_error. simpl fst. simpl snd.
  rewrite !conv_output_length_same_1. reflexivity.
Qed.

Lemma max_pooling2d_same_ok (w : World) (t : Tensor) (nd : Node) (N H W C : Dim)
    (k : nat * nat) :
  find_node (graph w) t = Some nd ->
  n_shape nd = [N; H; W; C] ->
  tf_layers_max_pooling2d t k (1, 1) Same w =
  (with_graph w (graph w ++ [mkNode (List.length (graph w)) (MaxPooling2D k (1, 1) Same) [t]
                               [N; H; W; C]]),
   Ok (List.length (graph w))).
Proof.
  intros Hf Hs. unfold tf_layers_max_pooling2d.
  rewrite (bind_ok _ _ _ _ _ (shape_of_ok _ _ _ Hf)), Hs.
  unfold pooling_shape, window_shape. simpl nth_error. simpl fst. simpl snd.
  rewrite !conv_output_length_same_1. reflexivity.
Qed.

Lemma with_graph_graph (w : World) (g : Graph) : graph (with_graph w g) = g.
Proof. reflexivity. Qed.

Lemma with_graph_twice (w : World) (g g' : Graph) :
  with_graph (with_graph w g) g' = with_graph w g'.
Proof. reflexivity. Qed.

Lemma concat4_ok (w : World) (a b c d : Tensor) (na nb nc nd : Node)
    (N H W : Dim) (ca cb cc cd : nat) :
  find_node (graph w) a = Some na -> n_shape na = [N; H; W; Some ca] ->
  find_node (graph w) b = Some nb -> n_shape nb = [N; H; W; Some cb] ->
  find_node (graph w) c = Some nc -> n_shape nc = [N; H; W; Some cc] ->
  find_node (graph w) d = Some nd -> n_shape nd = [N; H; W; Some cd] ->
  tf_concat [a; b; c; d] 3 w =
  (with_graph w (graph w ++ [mkNode (List.length (graph w)) (Concat 3) [a; b; c; d]
                               [N; H; W; Some (ca + cb + cc + cd)]]),
   Ok (List.length (graph w))).
Proof.
  intros Ha Sa Hb Sb Hc Sc Hd Sd.
  unfold tf_concat, tf_mapM, bind, shape_of, ret, lift_result.
  rewrite Ha, Hb, Hc, Hd, Sa, Sb, Sc, Sd.
  unfold concat_shape. rewrite concat2_shape_channels. unfold result_bind at 1.
  rewrite concat2_shape_channels. unfold result_bind at 1.
  rewrite concat2_shape_channels. reflexivity.
Qed.

Lemma wf_graph_app (g l : Graph) :
  wf_graph g ->
  (forall j n, nth_error l j = Some n -> n_id n = List.length g + j) ->
  wf_graph (g ++ l).
Proof.
  intros Hwf Hl i n Hn.
  destruct (Nat.lt_ge_cases i (List.length g)) as [Hlt|Hge].
  - rewrite nth_error_app1 in Hn by exact Hlt. apply Hwf. exact Hn.
  - rewrite nth_error_app2 in Hn by exact Hge.
    rewrite (Hl _ _ Hn). lia.
Qed.

Lemma with_graph_id (w : World) : with_graph w (graph w) = w.
Proof. destruct w; reflexivity. Qed.

Lemma conv2d_same_next (w : World) (g l : Graph) (t : Tensor) (nd : Node)
    (N H W : Dim) (C f : nat) (k : nat * nat) (j : nat) :
  List.length l = j ->
  find_node (g ++ l) t = Some nd ->
  n_shape nd = [N; H; W; Some C] ->
  tf_layers_conv2d t f k (1, 1) Same (with_graph w (g ++ l)) =
  (with_graph w (g ++ l ++ [mkNode (List.length g + j) (Conv2D f k (1, 1) Same) [t]
                              [N; H; W; Some f]]),
   Ok (List.length g + j)).
Proof.
  intros <- Hf Hs.
  rewrite (conv2d_same_ok (with_graph w (g ++ l)) t nd N H W C f k Hf Hs).
  rewrite with_graph_twice, with_graph_graph, <- app_assoc, length_app. reflexivity.
Qed.

Lemma max_pooling2d_same_next (w : World) (g l : Graph) (t : Tensor) (nd : Node)
    (N H W C : Dim) (k : nat * nat) (j : nat) :
  List.length l = j ->
  find_node (g ++ l) t = Some nd ->
  n_shape nd = [N; H; W; C] ->
  tf_layers_max_pooling2d t k (1, 1) Same (with_graph w (g ++ l)) =
  (with_graph w (g ++ l ++ [mkNode (List.length g + j) (MaxPooling2D k (1, 1) Same) [t]
                              [N; H; W; C]]),
   Ok (List.length g + j)).
Proof.
  intros <- Hf Hs.
  rewrite (max_pooling2d_same_ok (with_graph w (g ++ l)) t nd N H W C k Hf Hs).
  rewrite with_graph_twice, with_graph_graph, <- app_assoc, length_app. reflexivity.
Qed.

Lemma concat4_next (w : World) (g l : Graph) (a b c d : Tensor) (na nb nc nd : Node)
    (N H W : Dim) (ca cb cc cd j : nat) :
  List.length l = j ->
  find_node (g ++ l) a = Some na -> n_shape na = [N; H; W; Some ca] ->
  find_node (g ++ l) b = Some nb -> n_shape nb = [N; H; W; Some cb] ->
  find_node (g ++ l) c = Some nc -> n_shape nc = [N; H; W; Some cc] ->
  find_node (g ++ l) d = Some nd -> n_shape nd = [N; H; W; Some cd] ->
  tf_concat [a; b; c; d] 3 (with_graph w (g ++ l)) =
  (with_graph w (g ++ l ++ [mkNode (List.length g + j) (Concat 3) [a; b; c; d]
                              [N; H; W; Some (ca + cb + cc + cd)]]),
   Ok (List.length g + j)).
Proof.
  intros <- Ha Sa Hb Sb Hc Sc Hd Sd.
  rewrite (concat4_ok (with_graph w (g ++ l)) a b c d na nb nc nd N H W ca cb cc cd
             Ha Sa Hb Sb Hc Sc Hd Sd).
  rewrite with_graph_twice, with_graph_graph, <- app_assoc, length_app. reflexivity.
Qed.

Ltac wf_new Hwf :=
  apply wf_graph_app; [exact Hwf|];
  let j := fresh "j" in let n := fresh "n" in let Hn := fresh "Hn" in
  intros j n Hn;
  repeat (destruct j as [|j]; [injection Hn as <-; simpl; lia|]);
  destruct j; discriminate.

Ltac find_new Hwf :=
  rewrite find_node_new by (wf_new Hwf); reflexivity.

Lemma inception_run (w : World) (inputs : Tensor) (nd : Node) (N H W : Dim)
    (C c11 c33r c33 c56r c56 pp : nat) :
  wf_graph (graph w) ->
  find_node (graph w) inputs = Some nd ->
  n_shape nd = [N; H; W; Some C] ->
  GoogLeNet.inception inputs c11 c33r c33 c56r c56 pp w =
  (with_graph w (graph w ++
     inception_nodes (List.length (graph w)) inputs N H W C c11 c33r c33 c56r c56 pp),
   Ok (List.length (graph w) + 7)).
Proof.
  intros Hwf Hf Hs.
  rewrite <- (with_graph_id w) at 1. rewrite <- (app_nil_r (graph w)) at 1.
  set (g := graph w) in *. set (k := List.length g).
  pose (n0 := mkNode (k + 0) (Conv2D c11 (1, 1) (1, 1) Same) [inputs] [N; H; W; Some c11]).
  pose (n1 := mkNode (k + 1) (Conv2D c33r (1, 1) (1, 1) Same) [inputs] [N; H; W; Some c33r]).
  pose (n2 := mkNode (k + 2) (Conv2D c33 (3, 3) (1, 1) Same) [k + 1] [N; H; W; Some c33]).
  pose (n3 := mkNode (k + 3) (Conv2D c56r (1, 1) (1, 1) Same) [inputs] [N; H; W; Some c56r]).
  pose (n4 := mkNode (k + 4) (Conv2D c56 (5, 5) (1, 1) Same) [k + 3] [N; H; W; Some c56]).
  pose (n5 := mkNode (k + 5) (MaxPooling2D (3, 3) (1, 1) Same) [inputs] [N; H; W; Some C]).
  pose (n6 := mkNode (k + 6) (Conv2D pp (1, 1) (1, 1) Same) [k + 5] [N; H; W; Some pp]).
  assert (F0 : find_node (g ++ [n0; n1; n2; n3; n4; n5; n6]) (k + 0) = Some n0)
    by find_new Hwf.
  assert (F1 : find_node (g ++ [n0; n1]) (k + 1) = Some n1) by find_new Hwf.
  assert (F2 : find_node (g ++ [n0; n1; n2; n3; n4; n5; n6]) (k + 2) = Some n2)
    by find_new Hwf.
  assert (F3 : find_node (g ++ [n0; n1; n2; n3]) (k + 3) = Some n3) by find_new Hwf.
  assert (F4 : find_node (g ++ [n0; n1; n2; n3; n4; n5; n6]) (k + 4) = Some n4)
    by find_new Hwf.
  assert (F5 : find_node (g ++ [n0; n1; n2; n3; n4; n5]) (k + 5) = Some n5)
    by find_new Hwf.
  assert (F6 : find_node (g ++ [n0; n1; n2; n3; n4; n5; n6]) (k + 6) = Some n6)
    by find_new Hwf.
  unfold GoogLeNet.inception.
  refine (eq_trans (bind_ok _ _ _ _ _
    (conv2d_same_next w g [] inputs nd N H W C c11 (1, 1) 0 eq_refl
       (find_node_old _ _ _ _ Hf) Hs)) _).
  refine (eq_trans (bind_ok _ _ _ _ _
    (conv2d_same_next w g [n0] inputs nd N H W C c33r (1, 1) 1 eq_refl
       (find_node_old _ _ _ _ Hf) Hs)) _).
  refine (eq_trans (bind_ok _ _ _ _ _
    (conv2d_same_next w g [n0; n1] (k + 1) n1 N H W c33r c33 (3, 3) 2 eq_refl
       F1 eq_refl)) _).
  refine (eq_trans (bind_ok _ _ _ _ _
    (conv2d_same_next w g [n0; n1; n2] inputs nd N H W C c56r (1, 1) 3 eq_refl
       (find_node_old _ _ _ _ Hf) Hs)) _).
  refine (eq_trans (bind_ok _ _ _ _ _
    (conv2d_same_next w g [n0; n1; n2; n3] (k + 3) n3 N H W c56r c56 (5, 5) 4 eq_refl
       F3 eq_refl)) _).
  refine (eq_trans (bind_ok _ _ _ _ _
    (max_pooling2d_same_next w g [n0; n1; n2; n3; n4] inputs nd N H W (Some C) (3, 3) 5
       eq_refl (find_node_old _ _ _ _ Hf) Hs)) _).
  refine (eq_trans (bind_ok _ _ _ _ _
    (conv2d_same_next w g [n0; n1; n2; n3; n4; n5] (k + 5) n5 N H W C pp (1, 1) 6 eq_refl
       F5 eq_refl)) _).
  refine (eq_trans
    (concat4_next w g [n0; n1; n2; n3; n4; n5; n6] (k + 0) (k + 2) (k + 4) (k + 6)
       n0 n2 n4 n6 N H W c11 c33 c56 pp 7 eq_refl _ eq_refl F2 eq_refl F4 eq_refl
       F6 eq_refl) _).
  - exact F0.
  - unfold inception_nodes, n0, n1, n2, n3, n4, n5, n6. cbn [app].
    rewrite !Nat.add_0_r. reflexivity.
Qed.


Lemma find_node_self (g : Graph) (n : Node) :
  wf_graph g -> In n g -> find_node g (n_id n) = Some n.
Proof.
  intros Hwf Hin. apply In_nth_error in Hin. destruct Hin as [i Hi].
  rewrite (Hwf i n Hi), find_node_wf by exact Hwf. exact Hi.
Qed.

Lemma inception_nodes_wf (g : Graph) (x : Tensor) (N H W : Dim)
    (C c11 c33r c33 c56r c56 pp : nat) :
  wf_graph g ->
  wf_graph (g ++ inception_nodes (List.length g) x N H W C c11 c33r c33 c56r c56 pp).
Proof.
  intros Hwf. unfold inception_nodes. wf_new Hwf.
Qed.

Lemma inception_nodes_found (g : Graph) (x : Tensor) (N H W : Dim)
    (C c11 c33r c33 c56r c56 pp : nat) :
  wf_graph g ->
  let l := inception_nodes (List.length g) x N H W C c11 c33r c33 c56r c56 pp in
  Forall (fun n => find_node (g ++ l) (n_id n) = Some n) l.
Proof.
  intros Hwf l. apply Forall_forall. intros n Hn.
  apply find_node_self.
  - apply inception_nodes_wf. exact Hwf.
  - apply in_or_app. right. exact Hn.
Qed.

Lemma expr_of_S (f : nat) (g : Graph) (b t : nat) :
  expr_of (S f) g b t =
  if t <? b then Leaf t
  else match find_node g t with
       | Some n => Apply (n_op n) (map (expr_of f g b) (n_inputs n))
       | None => Leaf t
       end.
Proof. reflexivity. Qed.

Lemma ltb_add_false (k i : nat) : (k + i <? k) = false.
Proof. apply Nat.ltb_ge. lia. Qed.

Lemma ltb_self_false (k : nat) : (k <? k) = false.
Proof. apply Nat.ltb_irrefl. Qed.

Ltac split_finds H :=
  repeat (let E := fresh "E" in
          apply Forall_cons_iff in H; destruct H as [E H]; cbn [n_id] in E).

Ltac use_finds :=
  repeat match goal with
         | E : find_node ?G ?t = Some _ |- context [find_node ?G ?t] =>
             rewrite E; cbn [n_op n_inputs n_shape n_id map]
         end.

(** The module [inception] leaves behind, seen from the graph: the node
    [k + 7] concatenates the four paths, which all start at [x]. *)
Lemma inception_nodes_read (G : Graph) (k x : nat) (N H W : Dim)
    (C c11 c33r c33 c56r c56 pp f : nat) :
  x < k ->
  Forall (fun n => find_node G (n_id n) = Some n)
         (inception_nodes k x N H W C c11 c33r c33 c56r c56 pp) ->
  expr_of (S (S (S f))) G k (k + 7) =
    Apply (Concat 3)
      [ Apply (Conv2D c11 (1, 1) (1, 1) Same) [Leaf x];
        Apply (Conv2D c33 (3, 3) (1, 1) Same)
          [Apply (Conv2D c33r (1, 1) (1, 1) Same) [Leaf x]];
        Apply (Conv2D c56 (5, 5) (1, 1) Same)
          [Apply (Conv2D c56r (1, 1) (1, 1) Same) [Leaf x]];
        Apply (Conv2D pp (1, 1) (1, 1) Same)
          [Apply (MaxPooling2D (3, 3) (1, 1) Same) [Leaf x]] ] /\
  layer_at G (k + 7) = Some (LInception c11 c33r c33 c56r c56 pp, x).
Proof.
  intros Hlt Hall. unfold inception_nodes in Hall. split_finds Hall.
  apply Nat.ltb_lt in Hlt.
  split.
  - repeat (progress (rewrite ?expr_of_S, ?ltb_add_false, ?ltb_self_false, ?Hlt;
                       use_finds)).
    assert (Hleaf : expr_of f G k x = Leaf x)
      by (destruct f; [reflexivity | rewrite expr_of_S, Hlt; reflexivity]).
    rewrite Hleaf. reflexivity.
  - unfold layer_at, inception_at, conv_at, pool_at. use_finds.
    repeat (progress (cbn; use_finds)). rewrite !Nat.eqb_refl. reflexivity.
Qed.

Lemma shape_found (g : Graph) (t : Tensor) (s : Shape) :
  option_map n_shape (find_node g t) = Some s ->
  exists nd, find_node g t = Some nd /\ n_shape nd = s.
Proof.
  destruct (find_node g t) as [nd|]; simpl; [|discriminate].
  intros H. injection H as <-. exists nd. split; reflexivity.
Qed.

(** C1.  In any world whose graph is numbered in creation order, for an
    input tensor of static shape [N; H; W; C] and any six sizes,
    [inception] returns a tensor that is the concatenation along axis 3,
    in this order, of: a 1x1 convolution with [conv_11_size] filters; a 1x1
    convolution with [conv_33_reduce_size] filters followed by a 3x3
    convolution with [conv_33_size] filters; a 1x1 convolution with
    [conv_56_reduce_size] filters followed by a 5x5 convolution with
    [conv_56_size] filters; a 3x3 max pooling followed by a 1x1 convolution
    with [pool_proj_size] filters.  All four paths read the same input,
    every step has stride 1 and 'same' padding, and the call adds exactly
    these eight nodes. *)
Theorem inception_concatenates_four_paths (w : World) (inputs : Tensor)
    (N H W : Dim) (C : nat)
    (conv_11_size conv_33_reduce_size conv_33_size
     conv_56_reduce_size conv_56_size pool_proj_size : nat) :
  well_numbered (graph w) = true ->
  option_map n_shape (find_node (graph w) inputs) = Some [N; H; W; Some C] ->
  exists w' out,
    GoogLeNet.inception inputs conv_11_size conv_33_reduce_size conv_33_size
      conv_56_reduce_size conv_56_size pool_proj_size w = (w', Ok out) /\
    expr_of (List.length (graph w')) (graph w') (List.length (graph w)) out =
      Apply (Concat 3)
        [ Apply (Conv2D conv_11_size (1, 1) (1, 1) Same) [Leaf inputs];
          Apply (Conv2D conv_33_size (3, 3) (1, 1) Same)
            [Apply (Conv2D conv_33_reduce_size (1, 1) (1, 1) Same) [Leaf inputs]];
          Apply (Conv2D conv_56_size (5, 5) (1, 1) Same)
            [Apply (Conv2D conv_56_reduce_size (1, 1) (1, 1) Same) [Leaf inputs]];
          Apply (Conv2D pool_proj_size (1, 1) (1, 1) Same)
            [Apply (MaxPooling2D (3, 3) (1, 1) Same) [Leaf inputs]] ] /\
    layer_at (graph w') out =
      Some (LInception conv_11_size conv_33_reduce_size conv_33_size
              conv_56_reduce_size conv_56_size pool_proj_size, inputs) /\
    List.length (graph w') = List.length (graph w) + 8 /\
    firstn (List.length (graph w)) (graph w') = graph w /\
    (session_open w', store w', log w', stdout w') =
    (session_open w, store w, log w, stdout w).
Proof.
  intros Hnum Hshape.
  pose proof (well_numbered_wf _ Hnum) as Hwf.
  destruct (shape_found _ _ _ Hshape) as [nd [Hf Hs]].
  pose proof (find_node_lt _ _ _ Hwf Hf) as Hlt.
  pose proof (inception_nodes_found (graph w) inputs N H W C conv_11_size
                conv_33_reduce_size conv_33_size conv_56_reduce_size conv_56_size
                pool_proj_size Hwf) as Hall.
  cbv zeta in Hall.
  eexists. eexists. split; [apply (inception_run w inputs nd N H W C); assumption|].
  rewrite with_graph_graph.
  assert (Hlen : List.length (graph w ++
            inception_nodes (List.length (graph w)) inputs N H W C conv_11_size
              conv_33_reduce_size conv_33_size conv_56_reduce_size conv_56_size
              pool_proj_size)
          = 8 + List.length (graph w))
    by (rewrite length_app; simpl; lia).
  rewrite Hlen. cbn [Nat.add].
  destruct (inception_nodes_read _ _ _ N H W C conv_11_size conv_33_reduce_size
              conv_33_size conv_56_reduce_size conv_56_size pool_proj_size
              (S (S (S (S (S (List.length (graph w))))))) Hlt Hall) as [He Hl].
  repeat split.
  - exact He.
  - exact Hl.
  - lia.
  - rewrite firstn_app, Nat.sub_diag, firstn_all. simpl. apply app_nil_r.
Qed.

(** C7.  For an input of static shape [N; H; W; C] and positive sizes,
    [inception] returns a tensor of shape
    [N; H; W; conv_11_size + conv_33_size + conv_56_size + pool_proj_size]:
    the four tensors it concatenates have shapes [N; H; W; conv_11_size],
    [N; H; W; conv_33_size], [N; H; W; conv_56_size] and
    [N; H; W; pool_proj_size], and every node the call creates keeps
    [N; H; W] in front. *)
Theorem inception_output_shape (w : World) (inputs : Tensor)
    (N H W : Dim) (C : nat)
    (conv_11_size conv_33_reduce_size conv_33_size
     conv_56_reduce_size conv_56_size pool_proj_size : nat) :
  well_numbered (graph w) = true ->
  option_map n_shape (find_node (graph w) inputs) = Some [N; H; W; Some C] ->
  0 < conv_11_size -> 0 < conv_33_reduce_size -> 0 < conv_33_size ->
  0 < conv_56_reduce_size -> 0 < conv_56_size -> 0 < pool_proj_size ->
  exists w' out,
    GoogLeNet.inception inputs conv_11_size conv_33_reduce_size conv_33_size
      conv_56_reduce_size conv_56_size pool_proj_size w = (w', Ok out) /\
    option_map n_shape (find_node (graph w') out) =
      Some [N; H; W; Some (conv_11_size + conv_33_size + conv_56_size + pool_proj_size)] /\
    (exists p1 p2 p3 p4,
       option_map n_inputs (find_node (graph w') out) = Some [p1; p2; p3; p4] /\
       option_map n_shape (find_node (graph w') p1) = Some [N; H; W; Some conv_11_size] /\
       option_map n_shape (find_node (graph w') p2) = Some [N; H; W; Some conv_33_size] /\
       option_map n_shape (find_node (graph w') p3) = Some [N; H; W; Some conv_56_size] /\
       option_map n_shape (find_node (graph w') p4) = Some [N; H; W; Some pool_proj_size]) /\
    Forall (fun n => firstn 3 (n_shape n) = [N; H; W] /\ List.length (n_shape n) = 4)
           (skipn (List.length (graph w)) (graph w')).
Proof.
  intros Hnum Hshape _ _ _ _ _ _.
  pose proof (well_numbered_wf _ Hnum) as Hwf.
  destruct (shape_found _ _ _ Hshape) as [nd [Hf Hs]].
  pose proof (inception_nodes_found (graph w) inputs N H W C conv_11_size
                conv_33_reduce_size conv_33_size conv_56_reduce_size conv_56_size
                pool_proj_size Hwf) as Hall.
  cbv zeta in Hall.
  eexists. eexists. split; [apply (inception_run w inputs nd N H W C); assumption|].
  rewrite with_graph_graph.
  assert (Hskip : skipn (List.length (graph w)) (graph w ++
            inception_nodes (List.length (graph w)) inputs N H W C conv_11_size
              conv_33_reduce_size conv_33_size conv_56_reduce_size conv_56_size
              pool_proj_size)
          = inception_nodes (List.length (graph w)) inputs N H W C conv_11_size
              conv_33_reduce_size conv_33_size conv_56_reduce_size conv_56_size
              pool_proj_size).
  { rewrite skipn_app, Nat.sub_diag, skipn_all. reflexivity. }
  rewrite Hskip. clear Hskip.
  unfold inception_nodes in *. split_finds Hall.
  split; [|split].
  - use_finds. reflexivity.
  - exists (List.length (graph w)), (List.length (graph w) + 2),
      (List.length (graph w) + 4), (List.length (graph w) + 6).
    use_finds. repeat split; reflexivity.
  - repeat (constructor; [split; reflexivity|]). constructor.
Qed.

End Inception_facts.

(* ================================================================== *)
(** ** From the program to its graph                                   *)
(* ================================================================== *)

(** Runs the first statement of a [bind] on a closed world. *)
Ltac step :=
  lazymatch goal with
  | |- bind ?m ?k ?w = _ =>
      let r := eval vm_compute in (m w) in
      lazymatch r with
      | (?w', Ok ?a) =>
          refine (eq_trans (bind_ok m k w w' a _) _);
          [ vm_cast_no_check (@eq_refl _ (w', Ok a)) | cbv beta ]
      end
  end.

Ltac finish :=
  lazymatch goal with
  | |- ?lhs = ?rhs =>
      let r := eval vm_compute in lhs in
      unify rhs r; vm_cast_no_check (@eq_refl _ r)
  end.

Ltac step_by tac :=
  lazymatch goal with
  | |- bind ?m ?k ?w = _ =>
      refine (eq_trans (bind_ok m k w _ _ _) _);
      [ tac | cbv beta ]
  end.

Lemma softmax_shape_refl (n : nat) :
  softmax_cross_entropy_shape [None; Some n] [None; Some n] = Ok [None].
Proof.
  unfold softmax_cross_entropy_shape. simpl. rewrite Nat.eqb_refl. reflexivity.
Qed.

Lemma broadcast_shape_refl (n : nat) :
  broadcast_shape [None; Some n] [None; Some n] = Ok [None; Some n].
Proof. unfold broadcast_shape. simpl. rewrite Nat.eqb_refl. reflexivity. Qed.

Section Program_graph.

Context {L : Library} {D : ImageNet}.

(** When [y_train] has [n] columns, [__init__] and the graph-building
    statements of [run] succeed, build [model_graph n lr], and leave the
    session part to run with the tensors [init], [train], [loss] and
    [accuracy]. *)
Lemma program_unfold (lr : Q) (ne bs : Z) (n : nat) :
  nth_error (np_shape y_train) 1 = Some n ->
  program lr ne bs initial_world =
  session_part (GoogLeNet.mk n 0 1 lr ne bs) init train loss accuracy (built_world n lr).
Proof.
  intros Hn. unfold program, GoogLeNet.__init__, tuple_index. rewrite Hn.
  step. unfold GoogLeNet.run.
  do 24 step.
  step_by ltac:(unfold tf_nn_softmax_cross_entropy_with_logits_v2;
                do 2 step; rewrite softmax_shape_refl; step; finish).
  do 5 step.
  step_by ltac:(unfold tf_equal; do 2 step; rewrite broadcast_shape_refl; step; finish).
  do 4 step.
  lazymatch goal with
  | |- _ ?w = _ =>
      change (session_part (GoogLeNet.mk n 0 1 lr ne bs) init train loss accuracy w =
              session_part (GoogLeNet.mk n 0 1 lr ne bs) init train loss accuracy
                (built_world n lr))
  end.
  apply f_equal. vm_compute. reflexivity.
Qed.

(** Without a second axis on [y_train] nothing is built and nothing runs. *)
Lemma program_no_columns (lr : Q) (ne bs : Z) :
  nth_error (np_shape y_train) 1 = None ->
  program lr ne bs initial_world = (initial_world, Raise IndexError).
Proof.
  intros Hn. unfold program, GoogLeNet.__init__, tuple_index. rewrite Hn. reflexivity.
Qed.

End Program_graph.

(* ================================================================== *)
(** ** The calls a statement issues                                    *)
(* ================================================================== *)

Section Issues.

Context {L : Library} {D : ImageNet}.

Lemma chained_app (g : Graph) (s s1 s2 : Store) (e1 e2 : list Event) :
  chained g s e1 s1 -> chained g s1 e2 s2 -> chained g s (e1 ++ e2) s2.
Proof.
  revert s. induction e1 as [|ev e1 IH]; intros s H1 H2; simpl in *.
  - subst s1. exact H2.
  - destruct H1 as [Hb [Hv Hc]]. repeat split; try assumption.
    apply IH; assumption.
Qed.

Lemma issues_silent {A} (m : TF A) (p : list Call) :
  (forall w, graph (fst (m w)) = graph w /\ log (fst (m w)) = log w /\
             store (fst (m w)) = store w) ->
  (forall w a, snd (m w) = Ok a -> p = []) ->
  issues m p.
Proof.
  intros Hm Hp w. destruct (Hm w) as [Hg [Hl Hs]]. split; [exact Hg|].
  exists []. rewrite app_nil_r. split; [exact Hl|]. split; [exact Hs|].
  destruct (snd (m w)) as [a|e] eqn:Hr; simpl.
  - split; [|reflexivity]. symmetry. apply (Hp w a Hr).
  - split; [exists p; reflexivity | left; reflexivity].
Qed.

Lemma issues_ret {A} (a : A) : issues (ret a) [].
Proof. apply issues_silent; intros; simpl; auto. Qed.

Lemma issues_print (m : Msg) : issues (print m) [].
Proof. apply issues_silent; intros; simpl; auto. Qed.

Lemma issues_sess_close : issues (sess_close tt) [].
Proof. apply issues_silent; intros; simpl; auto. Qed.

Lemma issues_lift {A} (r : result A) : issues (lift_result r) [].
Proof. apply issues_silent; intros; simpl; auto. Qed.

(** A statement that raises at once is a prefix of any plan. *)
Lemma issues_lift_raise {A B} (e : exn) (k : A -> TF B) (p : list Call) :
  issues (bind (lift_result (Raise e)) k) p.
Proof.
  apply issues_silent; intros; simpl; auto. discriminate.
Qed.

Lemma issues_sess_run (fetches : list Tensor) (feed : Feed) :
  issues (sess_run tt fetches feed) [(fetches, feed)].
Proof.
  intros w. unfold sess_run. destruct (session_open w) eqn:Hopen.
  - destruct (run_fetches (graph w) fetches feed (store w)) as [[st' values]|e] eqn:Hrun;
      cbv zeta; cbn [fst snd graph log store].
    + split; [reflexivity|]. eexists. split; [reflexivity|]. split.
      * cbn [chained ev_before ev_after]. unfold valid_event.
        cbn [ev_fetches ev_feed ev_before ev_after ev_outcome]. rewrite Hrun. auto.
      * simpl. split; reflexivity.
    + split; [reflexivity|]. eexists. split; [reflexivity|]. split.
      * cbn [chained ev_before ev_after]. unfold valid_event.
        cbn [ev_fetches ev_feed ev_before ev_after ev_outcome]. rewrite Hrun. auto.
      * cbn [trace_ok map call_of ev_fetches ev_feed app].
        split; [exists []; reflexivity|].
        right. eexists [], _. repeat split.
  - simpl. split; [reflexivity|]. exists []. rewrite app_nil_r.
    split; [reflexivity|]. split; [reflexivity|].
    simpl. split; [eexists; reflexivity | left; reflexivity].
Qed.

Lemma issues_bind {A B} (m : TF A) (k : A -> TF B) (p q : list Call) :
  issues m p -> (forall a, issues (k a) q) -> issues (bind m k) (p ++ q).
Proof.
  intros Hm Hk w. unfold bind.
  destruct (Hm w) as [Hg [evs1 [Hl [Hc Ht]]]].
  destruct (m w) as [w1 [a|e]]; simpl in *.
  - destruct (Hk a w1) as [Hg2 [evs2 [Hl2 [Hc2 Ht2]]]].
    split; [congruence|]. exists (evs1 ++ evs2).
    split; [rewrite Hl2, Hl, app_assoc; reflexivity|].
    split; [apply (chained_app _ _ (store w1)); [exact Hc | rewrite <- Hg; exact Hc2]|].
    destruct Ht as [Hp Hok].
    destruct (snd (k a w1)) as [b|e]; simpl in *.
    + destruct Ht2 as [Hq Hok2]. split.
      * rewrite map_app, Hp, Hq. reflexivity.
      * rewrite forallb_app, Hok, Hok2. reflexivity.
    + destruct Ht2 as [[rest Hrest] Hlast]. split.
      * exists rest. rewrite map_app, Hp, Hrest, app_assoc. reflexivity.
      * destruct Hlast as [Hok2 | [pre [ev [He [Hpre Hev]]]]].
        -- left. rewrite forallb_app, Hok, Hok2. reflexivity.
        -- right. exists (evs1 ++ pre), ev. repeat split.
           ++ rewrite He, app_assoc. reflexivity.
           ++ rewrite forallb_app, Hok, Hpre. reflexivity.
           ++ exact Hev.
  - split; [exact Hg|]. exists evs1. split; [exact Hl|]. split; [exact Hc|].
    destruct Ht as [[rest Hrest] Hlast]. split.
    + exists (rest ++ q). rewrite Hrest, app_assoc. reflexivity.
    + exact Hlast.
Qed.

Lemma issues_seq {A B} (m : TF A) (k : A -> TF B) (q : list Call) :
  issues m [] -> (forall a, issues (k a) q) -> issues (bind m k) q.
Proof. intros Hm Hk. apply (issues_bind m k [] q Hm Hk). Qed.

Lemma issues_for_each {A} (l : list A) (body : A -> TF unit) (plan : A -> list Call) :
  (forall x, issues (body x) (plan x)) ->
  issues (for_each l body) (List.concat (map plan l)).
Proof.
  intros Hbody. induction l as [|x l IH]; simpl.
  - apply issues_ret.
  - apply issues_bind; [apply Hbody | intros _; exact IH].
Qed.

Lemma batch_of_ok (a b : Array) (start size : Z) :
  nd_slice a start (start + size) = Ok b -> batch_of a start size = b.
Proof. intros H. unfold batch_of. rewrite H. reflexivity. Qed.

Lemma issues_lift_ok {A B} (a : A) (k : A -> TF B) (p : list Call) :
  issues (k a) p -> issues (bind (lift_result (Ok a)) k) p.
Proof. intros H. exact H. Qed.

Lemma issues_train_batch (self : GoogLeNet.t) (i start : Z) :
  issues (train_batch self train i start)
    [([train], training_feed (GoogLeNet.X self) (GoogLeNet.y self)
                 (GoogLeNet.batch_size self) start)].
Proof.
  unfold train_batch, training_feed.
  destruct (nd_slice X_train start (start + GoogLeNet.batch_size self)) as [bx|e] eqn:Hx;
    [|apply issues_lift_raise].
  apply issues_lift_ok.
  destruct (nd_slice y_train start (start + GoogLeNet.batch_size self)) as [by_|e] eqn:Hy;
    [|apply issues_lift_raise].
  apply issues_lift_ok.
  rewrite (batch_of_ok _ _ _ _ Hx), (batch_of_ok _ _ _ _ Hy).
  apply (issues_bind _ _ [_] []); [apply issues_sess_run|]. intros _.
  destruct ((start + GoogLeNet.batch_size self) mod 100 =? 0)%Z; [|apply issues_ret].
  apply issues_seq; [apply issues_lift | intros; apply issues_print].
Qed.

Lemma issues_train_epoch (self : GoogLeNet.t) (i : Z) :
  issues (train_epoch self train loss accuracy i)
    (epoch_calls (GoogLeNet.X self) (GoogLeNet.y self) (GoogLeNet.batch_size self)
       (run_starts (GoogLeNet.batch_size self))).
Proof.
  unfold train_epoch, epoch_calls, run_starts.
  destruct (py_len X_train) as [total|e]; [|apply issues_lift_raise].
  apply issues_lift_ok.
  destruct (py_range 0 total (GoogLeNet.batch_size self)) as [starts|e];
    [|apply issues_lift_raise].
  apply issues_lift_ok. simpl range_values.
  apply issues_bind.
  - replace (map _ starts) with
      (List.concat (map (fun start => [([train],
           training_feed (GoogLeNet.X self) (GoogLeNet.y self)
             (GoogLeNet.batch_size self) start)]) starts)).
    + apply issues_for_each. intros start. apply issues_train_batch.
    + induction starts as [|s starts IH]; simpl; [reflexivity|]. rewrite IH. reflexivity.
  - intros _. apply (issues_bind _ _ [_] []); [apply issues_sess_run|].
    intros values. apply issues_print.
Qed.

Lemma concat_map_const {A B} (x : list B) (l : list A) :
  List.concat (map (fun _ => x) l) = List.concat (repeat x (List.length l)).
Proof. induction l as [|a l IH]; simpl; [reflexivity|]. rewrite IH. reflexivity. Qed.

Lemma issues_session_part (self : GoogLeNet.t) :
  issues (session_part self init train loss accuracy)
    (schedule (GoogLeNet.X self) (GoogLeNet.y self) (GoogLeNet.batch_size self)
       (run_starts (GoogLeNet.batch_size self)) (run_epochs (GoogLeNet.num_epochs self))).
Proof.
  unfold session_part, schedule, run_epochs.
  apply (issues_bind _ _ [_] _); [apply issues_sess_run|]. intros _.
  apply issues_seq; [apply issues_print|]. intros _.
  apply issues_seq; [apply issues_print|]. intros _.
  destruct (py_range 0 (GoogLeNet.num_epochs self) 1) as [epochs|e];
    [|apply issues_lift_raise].
  apply issues_lift_ok. simpl range_values.
  apply issues_bind.
  - rewrite <- concat_map_const. apply issues_for_each.
    intros i. apply issues_train_epoch.
  - intros _. apply issues_seq; [apply issues_print|]. intros _.
    apply (issues_bind _ _ [_] []); [apply issues_sess_run|]. intros values.
    apply issues_seq; [apply issues_print|]. intros _.
    apply issues_sess_close.
Qed.

End Issues.

(* ================================================================== *)
(** ** Executing nodes                                                 *)
(* ================================================================== *)

Section Exec_facts.

Context {L : Library}.

Lemma result_bind_ok {A B} (r : result A) (f : A -> result B) (b : B) :
  result_bind r f = Ok b -> exists a, r = Ok a /\ f a = Ok b.
Proof. destruct r as [a|e]; simpl; [eauto|discriminate]. Qed.

Lemma exec_app (sub : Graph) (feed : Feed) (l1 l2 : list Node)
    (s0 s2 : Store * Table) :
  exec sub feed (l1 ++ l2) s0 = Ok s2 <->
  exists s1, exec sub feed l1 s0 = Ok s1 /\ exec sub feed l2 s1 = Ok s2.
Proof.
  revert s0. induction l1 as [|n l1 IH]; intros s0; simpl.
  - split; [eauto|]. intros [s1 [H1 H2]]. injection H1 as <-. exact H2.
  - split.
    + intros H. apply result_bind_ok in H. destruct H as [s' [Hn H]].
      apply IH in H. destruct H as [s1 [H1 H2]].
      exists s1. rewrite Hn. simpl. auto.
    + intros [s1 [H1 H2]]. apply result_bind_ok in H1. destruct H1 as [s' [Hn H1]].
      rewrite Hn. simpl. apply IH. eauto.
Qed.

(** A node either leaves the table alone or puts its own value on top. *)
Lemma exec_node_table (sub : Graph) (feed : Feed) (n : Node)
    (st st' : Store) (tbl tbl' : Table) :
  exec_node sub feed n (st, tbl) = Ok (st', tbl') ->
  tbl' = tbl \/ exists v, tbl' = (n_id n, v) :: tbl.
Proof.
  unfold exec_node. intros H.
  apply result_bind_ok in H. destruct H as [ins [_ H]].
  destruct (n_op n);
    try (apply result_bind_ok in H; destruct H as [v [_ H]];
         injection H as <- <-; right; eexists; reflexivity).
  - destruct (assoc feed (n_id n)) as [v|]; [|discriminate].
    destruct (feed_compatible (n_shape n) (np_shape v)); [|discriminate].
    injection H as <- <-. right. eexists. reflexivity.
  - repeat (apply result_bind_ok in H; destruct H as [? [_ H]]).
    injection H as <- <-. right. eexists. reflexivity.
  - repeat (apply result_bind_ok in H; destruct H as [? [_ H]]).
    injection H as <- <-. right. eexists. reflexivity.
  - destruct (n_inputs n) as [|lo [|]]; try discriminate.
    repeat (apply result_bind_ok in H; destruct H as [? [_ H]]).
    injection H as <- <-. left. reflexivity.
  - apply result_bind_ok in H. destruct H as [? [_ H]].
    injection H as <- <-. left. reflexivity.
Qed.

Lemma assoc_cons_other (tbl : Table) (k i : nat) (v : Array) :
  k <> i -> assoc ((k, v) :: tbl) i = assoc tbl i.
Proof. intros H. simpl. apply Nat.eqb_neq in H. rewrite H. reflexivity. Qed.

Lemma exec_assoc_frame (sub : Graph) (feed : Feed) (nodes : list Node)
    (st st' : Store) (tbl tbl' : Table) (i : nat) :
  exec sub feed nodes (st, tbl) = Ok (st', tbl') ->
  ~ In i (map n_id nodes) ->
  assoc tbl' i = assoc tbl i.
Proof.
  revert st tbl. induction nodes as [|n nodes IH]; intros st tbl H Hi; simpl in *.
  - injection H as <- <-. reflexivity.
  - apply result_bind_ok in H. destruct H as [[st1 tbl1] [Hn H]].
    rewrite (IH st1 tbl1 H) by tauto.
    destruct (exec_node_table _ _ _ _ _ _ _ Hn) as [-> | [v ->]]; [reflexivity|].
    apply assoc_cons_other. tauto.
Qed.

(** Stateless nodes leave the variables as they are. *)
Lemma exec_node_stateless (sub : Graph) (feed : Feed) (n : Node)
    (st st' : Store) (tbl tbl' : Table) :
  stateless n = true ->
  exec_node sub feed n (st, tbl) = Ok (st', tbl') -> st' = st.
Proof.
  unfold stateless, exec_node. intros Hs H.
  apply result_bind_ok in H. destruct H as [ins [_ H]].
  destruct (n_op n); try discriminate;
    try (apply result_bind_ok in H; destruct H as [v [_ H]];
         injection H as <- <-; reflexivity).
  - destruct (assoc feed (n_id n)) as [v|]; [|discriminate].
    destruct (feed_compatible (n_shape n) (np_shape v)); [|discriminate].
    injection H as <- <-. reflexivity.
  - repeat (apply result_bind_ok in H; destruct H as [? [_ H]]).
    injection H as <- <-. reflexivity.
  - repeat (apply result_bind_ok in H; destruct H as [? [_ H]]).
    injection H as <- <-. reflexivity.
Qed.

Lemma exec_stateless (sub : Graph) (feed : Feed) (nodes : list Node)
    (st st' : Store) (tbl tbl' : Table) :
  forallb stateless nodes = true ->
  exec sub feed nodes (st, tbl) = Ok (st', tbl') -> st' = st.
Proof.
  revert st tbl. induction nodes as [|n nodes IH]; intros st tbl Hs H; simpl in *.
  - injection H as <- <-. reflexivity.
  - apply andb_true_iff in Hs. destruct Hs as [Hn Hs].
    apply result_bind_ok in H. destruct H as [[st1 tbl1] [Hx H]].
    rewrite (IH st1 tbl1 Hs H). apply (exec_node_stateless _ _ _ _ _ _ _ Hn Hx).
Qed.

Lemma run_fetches_stateless (g : Graph) (fetches : list Tensor) (feed : Feed)
    (st st' : Store) (values : list (option Array)) :
  forallb stateless (prune g fetches) = true ->
  run_fetches g fetches feed st = Ok (st', values) -> st' = st.
Proof.
  unfold run_fetches. intros Hs H.
  destruct (forallb _ fetches); [|discriminate].
  apply result_bind_ok in H. destruct H as [[st1 tbl1] [Hx H]].
  injection H as <- <-. apply (exec_stateless _ _ _ _ _ _ _ Hs Hx).
Qed.

(** Nor do they leave anything behind when they raise. *)
Lemma node_leaves_stateless (sub : Graph) (feed : Feed) (n : Node)
    (st : Store) (tbl : Table) :
  stateless n = true -> node_leaves sub feed n (st, tbl) = st.
Proof.
  unfold stateless, node_leaves. intros Hs.
  destruct (result_mapM (table_get tbl) (n_inputs n)); [|reflexivity].
  destruct (n_op n); try reflexivity; discriminate.
Qed.

Lemma exec_leaves_stateless (sub : Graph) (feed : Feed) (nodes : list Node)
    (st : Store) (tbl : Table) :
  forallb stateless nodes = true ->
  exec_leaves sub feed nodes (st, tbl) = st.
Proof.
  revert st tbl. induction nodes as [|n nodes IH]; intros st tbl Hs; [reflexivity|].
  cbn [forallb] in Hs. apply andb_true_iff in Hs. destruct Hs as [Hn Hs].
  cbn [exec_leaves].
  destruct (exec_node sub feed n (st, tbl)) as [[st1 tbl1]|e] eqn:Hx.
  - rewrite (exec_node_stateless _ _ _ _ _ _ _ Hn Hx). apply (IH st tbl1 Hs).
  - apply (node_leaves_stateless _ _ _ _ _ Hn).
Qed.

Lemma run_fetches_leaves_stateless (g : Graph) (fetches : list Tensor) (feed : Feed)
    (st : Store) :
  forallb stateless (prune g fetches) = true ->
  run_fetches_leaves g fetches feed st = st.
Proof.
  unfold run_fetches_leaves. intros Hs.
  destruct (forallb _ fetches); [|reflexivity].
  apply (exec_leaves_stateless _ _ _ _ _ Hs).
Qed.

Lemma evaluation_is_stateless (n : nat) (lr : Q) :
  forallb stateless (prune (model_graph n lr) [loss; accuracy]) = true.
Proof. vm_compute. reflexivity. Qed.


Lemma exec_node_computed (sub : Graph) (feed : Feed) (n : Node)
    (st st' : Store) (tbl tbl' : Table) (ins : list Array) :
  computed (n_op n) = true ->
  result_mapM (table_get tbl) (n_inputs n) = Ok ins ->
  exec_node sub feed n (st, tbl) = Ok (st', tbl') ->
  exists v, compute (n_op n) ins = Ok v /\ st' = st /\ tbl' = (n_id n, v) :: tbl.
Proof.
  unfold exec_node. intros Hc Hins H. rewrite Hins in H. simpl in H.
  destruct (n_op n); try discriminate;
    (apply result_bind_ok in H; destruct H as [v [Hv H]];
     injection H as <- <-; exists v; auto).
Qed.

Lemma exec_placeholder_fed (sub : Graph) (feed : Feed) (name : string) (n : Node)
    (st st' : Store) (tbl tbl' : Table) :
  n_op n = Placeholder name ->
  exec_node sub feed n (st, tbl) = Ok (st', tbl') ->
  assoc tbl' (n_id n) = assoc feed (n_id n).
Proof.
  unfold exec_node. intros Hop H. rewrite Hop in H.
  apply result_bind_ok in H. destruct H as [ins [_ H]].
  destruct (assoc feed (n_id n)) as [v|]; [|discriminate].
  destruct (feed_compatible (n_shape n) (np_shape v)); [|discriminate].
  injection H as <- <-. simpl. rewrite Nat.eqb_refl. reflexivity.
Qed.

Lemma mem_false_not_in (i : nat) (l : list nat) : mem i l = false -> ~ In i l.
Proof.
  unfold mem. intros H Hin.
  assert (Ht : existsb (Nat.eqb i) l = true)
    by (apply existsb_exists; exists i; split; [exact Hin | apply Nat.eqb_refl]).
  congruence.
Qed.

Lemma map2_map {A B C D E} (f : C -> D -> E) (g : A -> C) (h : B -> D)
    (l1 : list A) (l2 : list B) :
  map2 f (map g l1) (map h l2) = map2 (fun a b => f (g a) (h b)) l1 l2.
Proof.
  revert l2. induction l1 as [|a l1 IH]; intros [|b l2]; simpl; try reflexivity.
  rewrite IH. reflexivity.
Qed.

Lemma map_map2 {A B C D} (f : C -> D) (g : A -> B -> C) (l1 : list A) (l2 : list B) :
  map f (map2 g l1 l2) = map2 (fun a b => f (g a b)) l1 l2.
Proof.
  revert l2. induction l1 as [|a l1 IH]; intros [|b l2]; simpl; try reflexivity.
  rewrite IH. reflexivity.
Qed.

Lemma eqb_shape_refl (s : list nat) : eqb_shape s s = true.
Proof. induction s as [|x s IH]; simpl; [reflexivity|]. rewrite Nat.eqb_refl. exact IH. Qed.

Lemma exec_node_value (sub : Graph) (feed : Feed) (n : Node)
    (st st' : Store) (tbl tbl' : Table) :
  exec_node sub feed n (st, tbl) = Ok (st', tbl') ->
  computed (n_op n) = true ->
  st' = st /\ exists v, tbl' = (n_id n, v) :: tbl.
Proof.
  unfold exec_node. intros H Hc.
  apply result_bind_ok in H. destruct H as [ins [_ H]].
  destruct (n_op n); try discriminate;
    (apply result_bind_ok in H; destruct H as [v [Hv H]];
     injection H as <- <-; split; [reflexivity | exists v; reflexivity]).
Qed.

Lemma exec_node_minimize (sub : Graph) (feed : Feed) (n : Node) (lr : Q)
    (vars : list Var) (l : Tensor) (st st' : Store) (tbl tbl' : Table) :
  exec_node sub feed n (st, tbl) = Ok (st', tbl') ->
  n_op n = Minimize lr vars ->
  n_inputs n = [l] ->
  tbl' = tbl /\
  exists grads,
    result_mapM (fun v => gradient sub l v feed st) vars = Ok grads /\
    apply_updates lr (combine grads vars) st = Ok st'.
Proof.
  unfold exec_node. intros H Hop Hin. rewrite Hop, Hin in H.
  apply result_bind_ok in H. destruct H as [ins [_ H]].
  apply result_bind_ok in H. destruct H as [grads [Hg H]].
  apply result_bind_ok in H. destruct H as [st1 [Hu H]].
  injection H as <- <-. split; [reflexivity|]. exists grads. auto.
Qed.

Ltac run_node HT ins v E :=
  apply result_bind_ok in HT;
  let s := fresh "s" in let t := fresh "t" in let Hn := fresh "Hn" in
  destruct HT as [[s t] [Hn HT]];
  lazymatch type of Hn with
  | exec_node ?sub ?feed ?n (?st, ?tbl) = _ =>
      let Hins := fresh "Hins" in
      assert (Hins : result_mapM (table_get tbl) (n_inputs n) = Ok ins)
        by (cbn; unfold table_get; cbn;
            repeat match goal with A : assoc _ _ = Some _ |- _ => rewrite A end;
            reflexivity);
      destruct (exec_node_computed sub feed n st s tbl t ins eq_refl Hins Hn)
        as [v [E [-> ->]]]; clear Hn Hins
  end.

(** The nodes an evaluation runs: everything up to the logits, then the
    loss and the accuracy. *)
Lemma evaluation_nodes (n : nat) (lr : Q) :
  prune (model_graph n lr) [loss; accuracy] =
  firstn 1 (model_graph n lr) ++ firstn 1 (skipn 1 (model_graph n lr)) ++
  (firstn 65 (skipn 2 (model_graph n lr)) ++ firstn 20 (skipn 79 (model_graph n lr))) ++
  [ mkNode 99 SoftmaxCrossEntropyWithLogits [1; 98] [None];
    mkNode 100 ReduceMean [99] [];
    mkNode 102 Round [98] [None; Some n];
    mkNode 103 Round [1] [None; Some n];
    mkNode 104 Equal [102; 103] [None; Some n];
    mkNode 105 (Cast Float32) [104] [None; Some n];
    mkNode 106 ReduceMean [105] [] ].
Proof. vm_compute. reflexivity. Qed.

(** What an evaluation, [sess.run((loss, accuracy), feed)], computes: it
    leaves the variables alone and returns the loss and the accuracy from
    its table of node values, in which the loss is the mean of the
    cross-entropy vector and the accuracy is the mean, over all entries,
    of the indicator that the rounded logit equals the rounded label. *)
Lemma evaluation_table (n : nat) (lr : Q) (feed : Feed) (st st' : Store)
    (values : list (option Array)) :
  run_fetches (model_graph n lr) [loss; accuracy] feed st = Ok (st', values) ->
  st' = st /\
  exists tbl,
    exec (prune (model_graph n lr) [loss; accuracy]) feed
         (prune (model_graph n lr) [loss; accuracy]) (st, []) = Ok (st', tbl) /\
    values = [assoc tbl loss; assoc tbl accuracy] /\
    (forall s d,
       assoc tbl cross_entropy = Some (NdFloat s d) ->
       assoc tbl loss = Some (NdFloat [] [f32_mean d])) /\
    (forall s dL dY,
       assoc tbl linear = Some (NdFloat s dL) ->
       assoc feed 1 = Some (NdFloat s dY) ->
       assoc tbl accuracy =
       Some (NdFloat []
               [f32_mean (map2 (fun l y => f32_of_bool (f32_equal (f32_round l) (f32_round y)))
                               dL dY)])).
Proof.
  intros Hrun.
  pose proof (run_fetches_stateless _ _ _ _ _ _ (evaluation_is_stateless n lr) Hrun) as Hst.
  split; [exact Hst|]. clear Hst. revert Hrun.
  unfold run_fetches. intros H.
  destruct (forallb _ [loss; accuracy]); [|discriminate].
  apply result_bind_ok in H. destruct H as [[st1 tbl] [Hx H]].
  injection H as <- <-. exists tbl. split; [exact Hx|]. split; [reflexivity|].
  set (sub := prune (model_graph n lr) [loss; accuracy]) in *.
  assert (Hnodes := evaluation_nodes n lr). fold sub in Hnodes.
  set (P0 := firstn 1 (model_graph n lr)) in *.
  set (P1 := firstn 1 (skipn 1 (model_graph n lr))) in *.
  set (P2 := firstn 65 (skipn 2 (model_graph n lr)) ++
             firstn 20 (skipn 79 (model_graph n lr))) in *.
  rewrite Hnodes in Hx at 2.
  apply exec_app in Hx. destruct Hx as [[sa ta] [H0 Hx]].
  apply exec_app in Hx. destruct Hx as [[sb tb] [H1 Hx]].
  apply exec_app in Hx. destruct Hx as [[sc tc] [H2 HT]].
  clear Hnodes H0.
  (* the labels in the table are the labels that were fed *)
  assert (Y1 : assoc tb 1 = assoc feed 1).
  { change P1 with [mkNode 1 (Placeholder "label") [] [None; Some n]] in H1.
    cbn [exec] in H1. apply result_bind_ok in H1. destruct H1 as [[sx tx] [Hn H1]].
    injection H1 as <- <-.
    apply (exec_placeholder_fed sub feed "label"
             (mkNode 1 (Placeholder "label") [] [None; Some n])
             sa sx ta tx eq_refl Hn). }
  assert (Y2 : assoc tc 1 = assoc tb 1).
  { apply (exec_assoc_frame _ _ _ _ _ _ _ _ H2).
    apply mem_false_not_in. vm_compute. reflexivity. }
  clear H1 H2 P0 P1 P2.
  (* the loss: the first two of the seven remaining nodes *)
  change (exec sub feed
            ([mkNode 99 SoftmaxCrossEntropyWithLogits [1; 98] [None];
              mkNode 100 ReduceMean [99] []] ++
             [mkNode 102 Round [98] [None; Some n];
              mkNode 103 Round [1] [None; Some n];
              mkNode 104 Equal [102; 103] [None; Some n];
              mkNode 105 (Cast Float32) [104] [None; Some n];
              mkNode 106 ReduceMean [105] []]) (sc, tc) = Ok (st1, tbl)) in HT.
  apply exec_app in HT. destruct HT as [[sd td] [HA HB]].
  cbn [exec] in HA.
  apply result_bind_ok in HA. destruct HA as [[s99 t99] [H99 HA]].
  destruct (exec_node_value _ _ _ _ _ _ _ H99 eq_refl) as [-> [v99 ->]]. clear H99.
  apply result_bind_ok in HA. destruct HA as [[s100 t100] [H100 HA]].
  assert (Hins : result_mapM (table_get ((99, v99) :: tc)) [99] = Ok [v99])
    by (cbn; unfold table_get; cbn; reflexivity).
  destruct (exec_node_computed sub feed (mkNode 100 ReduceMean [99] []) _ _ _ _ _
              eq_refl Hins H100) as [v100 [E100 [-> ->]]].
  clear H100 Hins. cbn [n_op n_id] in *. injection HA as <- <-.
  assert (Hframe : forall i, mem i [102; 103; 104; 105; 106] = false ->
                             assoc tbl i = assoc ((100, v100) :: (99, v99) :: tc) i).
  { intros i Hi. apply (exec_assoc_frame _ _ _ _ _ _ _ i HB).
    apply mem_false_not_in. exact Hi. }
  split.
  - intros s d Hce.
    unfold cross_entropy in Hce. rewrite (Hframe 99 eq_refl) in Hce.
    cbn in Hce. injection Hce as ->.
    cbn in E100. injection E100 as <-.
    unfold loss. rewrite (Hframe 100 eq_refl). reflexivity.
  - intros s dL dY HL HY.
    assert (AY : assoc tc 1 = Some (NdFloat s dY)) by congruence.
    assert (AL : assoc tc 98 = Some (NdFloat s dL)).
    { unfold linear in HL. rewrite (Hframe 98 eq_refl) in HL. exact HL. }
    clear Y1 Y2 HL HY E100 Hframe.
    cbn [exec] in HB.
    run_node HB [NdFloat s dL] v102 E102.
    run_node HB [NdFloat s dY] v103 E103.
    cbn in E102, E103. injection E102 as <-. injection E103 as <-.
    run_node HB [NdFloat s (map f32_round dL); NdFloat s (map f32_round dY)] v104 E104.
    cbn in E104. rewrite eqb_shape_refl in E104. injection E104 as <-.
    run_node HB [@NdBool float32 s (map2 f32_equal (map f32_round dL) (map f32_round dY))]
      v105 E105.
    cbn in E105. injection E105 as <-.
    run_node HB [NdFloat s (map f32_of_bool
                   (map2 f32_equal (map f32_round dL) (map f32_round dY)))] v106 E106.
    cbn in E106. injection E106 as <-.
    injection HB as <- <-.
    unfold accuracy. cbn [assoc]. rewrite Nat.eqb_refl.
    rewrite map2_map, map_map2. reflexivity.
Qed.

(** The nodes a training step runs: everything up to the loss, then the
    training operation. *)
Lemma training_nodes (n : nat) (lr : Q) :
  prune (model_graph n lr) [train] =
  (firstn 67 (model_graph n lr) ++ firstn 20 (skipn 79 (model_graph n lr))) ++
  [ mkNode 99 SoftmaxCrossEntropyWithLogits [1; 98] [None];
    mkNode 100 ReduceMean [99] [];
    mkNode 101 (Minimize lr (layer_vars main_layers)) [100] [] ].
Proof. vm_compute. reflexivity. Qed.

(** One training step: Adam applied to the gradients of [loss], taken at
    the variables the step started with, for the variables of the main
    path; nothing is returned for the operation. *)
Lemma training_step (n : nat) (lr : Q) (feed : Feed) (st st' : Store)
    (values : list (option Array)) :
  run_fetches (model_graph n lr) [train] feed st = Ok (st', values) ->
  values = [None] /\
  exists grads,
    result_mapM (fun v => gradient (prune (model_graph n lr) [train]) loss v feed st)
                (layer_vars main_layers) = Ok grads /\
    apply_updates lr (combine grads (layer_vars main_layers)) st = Ok st'.
Proof.
  unfold run_fetches. intros H.
  destruct (forallb _ [train]); [|discriminate].
  apply result_bind_ok in H. destruct H as [[st1 tbl] [Hx H]].
  injection H as <- <-.
  set (sub := prune (model_graph n lr) [train]) in *.
  assert (Hnodes := training_nodes n lr). fold sub in Hnodes.
  set (P := firstn 67 (model_graph n lr) ++ firstn 20 (skipn 79 (model_graph n lr))) in *.
  rewrite Hnodes in Hx at 2. clear Hnodes.
  apply exec_app in Hx. destruct Hx as [[sc tc] [HP HT]].
  assert (HsP : forallb stateless P = true) by (vm_compute; reflexivity).
  assert (HnP : mem 101 (map n_id P) = false) by (vm_compute; reflexivity).
  pose proof (exec_stateless _ _ _ _ _ _ _ HsP HP) as Hsc. subst sc.
  assert (H101 : assoc tc 101 = None).
  { rewrite (exec_assoc_frame _ _ _ _ _ _ _ 101 HP (mem_false_not_in _ _ HnP)).
    reflexivity. }
  clear HP HsP HnP P.
  cbn [exec] in HT.
  apply result_bind_ok in HT. destruct HT as [[s99 t99] [H99 HT]].
  destruct (exec_node_value _ _ _ _ _ _ _ H99 eq_refl) as [-> [v99 ->]]. clear H99.
  apply result_bind_ok in HT. destruct HT as [[s100 t100] [H100 HT]].
  destruct (exec_node_value _ _ _ _ _ _ _ H100 eq_refl) as [-> [v100 ->]]. clear H100.
  apply result_bind_ok in HT. destruct HT as [[s101 t101] [Hm HT]].
  injection HT as <- <-.
  destruct (exec_node_minimize _ _ _ _ _ _ _ _ _ _ Hm eq_refl eq_refl)
    as [-> [grads [Hg Hu]]].
  split.
  - change train with 101. cbn. rewrite H101. reflexivity.
  - exists grads. split; assumption.
Qed.

End Exec_facts.

(* ================================================================== *)
(** ** [range] and slices                                              *)
(* ================================================================== *)

Lemma range_epochs (num_epochs : Z) :
  py_range 0 num_epochs 1 =
  Ok (map Z.of_nat (seq 0 (Z.to_nat num_epochs))).
Proof.
  unfold py_range, range_length.
  change (1 =? 0)%Z with false. change (0 <? 1)%Z with true. cbv iota.
  f_equal.
  assert (Hlen : Z.to_nat (if (0 <? num_epochs)%Z
                           then (1 + (num_epochs - 1 - 0) / 1)%Z else 0%Z)
                 = Z.to_nat num_epochs).
  { destruct (Z.ltb_spec 0 num_epochs) as [Hpos|Hneg].
    - rewrite Z.div_1_r. f_equal. lia.
    - destruct num_epochs; try reflexivity. lia. }
  rewrite Hlen. apply map_ext. intros k. lia.
Qed.

Lemma ceil_div_nat (total b : nat) :
  0 < b ->
  Z.to_nat (if (0 <? Z.of_nat total)%Z
            then (1 + (Z.of_nat total - 1 - 0) / Z.of_nat b)%Z else 0%Z)
  = (total + b - 1) / b.
Proof.
  intros Hb. destruct (Z.ltb_spec 0 (Z.of_nat total)) as [Hpos|Hzero].
  - assert (H1 : (1 + (Z.of_nat total - 1 - 0) / Z.of_nat b
                  = Z.of_nat ((total + b - 1) / b))%Z).
    { rewrite Nat2Z.inj_div, Z.sub_0_r.
      replace (Z.of_nat (total + b - 1)) with (Z.of_nat total - 1 + 1 * Z.of_nat b)%Z by lia.
      rewrite Z.div_add by lia. lia. }
    rewrite H1. apply Nat2Z.id.
  - assert (total = 0) by lia. subst total. simpl.
    symmetry. apply Nat.div_small. lia.
Qed.

Lemma range_starts (total : nat) (batch_size : Z) :
  (1 <= batch_size)%Z ->
  py_range 0 (Z.of_nat total) batch_size = Ok (batch_starts total batch_size).
Proof.
  intros Hb. unfold py_range, range_length, batch_starts.
  assert (H0 : (batch_size =? 0)%Z = false) by (apply Z.eqb_neq; lia).
  assert (H1 : (0 <? batch_size)%Z = true) by (apply Z.ltb_lt; lia).
  rewrite H0, H1. f_equal.
  replace batch_size with (Z.of_nat (Z.to_nat batch_size)) at 1 by lia.
  rewrite ceil_div_nat by lia.
  apply map_ext. intros k. lia.
Qed.

Section Loop_facts.

Context {L : Library} {D : ImageNet}.

Lemma run_epochs_value (num_epochs : Z) : run_epochs num_epochs = Z.to_nat num_epochs.
Proof.
  unfold run_epochs. rewrite range_epochs. simpl.
  rewrite length_map, length_seq. reflexivity.
Qed.

Lemma run_starts_value (total : nat) (inner : list nat) (batch_size : Z) :
  np_shape X_train = total :: inner ->
  (1 <= batch_size)%Z ->
  run_starts batch_size = batch_starts total batch_size.
Proof.
  intros Hs Hb. unfold run_starts, py_len. rewrite Hs, range_starts by exact Hb.
  reflexivity.
Qed.

End Loop_facts.

Lemma slice_bound_nonneg (i : Z) (n : nat) :
  (0 <= i)%Z -> slice_bound i n = Nat.min (Z.to_nat i) n.
Proof.
  intros Hi. unfold slice_bound.
  assert (H : (i <? 0)%Z = false) by (apply Z.ltb_ge; lia).
  rewrite H. reflexivity.
Qed.

(** The batch that starts at [start]: [batch_size] rows, or what is left. *)
Lemma nd_slice_batch {F} (a : ndarray F) (total : nat) (inner : list nat)
    (start batch_size : Z) :
  np_shape a = total :: inner ->
  (0 <= start)%Z -> (1 <= batch_size)%Z ->
  exists b,
    nd_slice a start (start + batch_size) = Ok b /\
    np_shape b = Nat.min (Z.to_nat batch_size) (total - Z.to_nat start) :: inner.
Proof.
  intros Hs H0 Hb. unfold nd_slice. rewrite Hs.
  rewrite !slice_bound_nonneg by lia.
  destruct a as [s d|s d]; simpl in Hs; subst s;
    (eexists; split; [reflexivity|]; simpl; f_equal; lia).
Qed.

(* ================================================================== *)
(** ** The whole run                                                   *)
(* ================================================================== *)

Section Run_facts.

Context {L : Library} {D : ImageNet}.

Lemma chained_valid (g : Graph) (st st' : Store) (evs : list Event) :
  chained g st evs st' -> Forall (valid_event g) evs.
Proof.
  revert st. induction evs as [|ev evs IH]; intros st H; simpl in H.
  - constructor.
  - destruct H as [_ [Hv Hc]]. constructor; [exact Hv | exact (IH _ Hc)].
Qed.

(** The run as a whole: the graph at the end is the model graph, the log
    is a chain of [sess.run] calls on it that starts from a fresh session,
    and the calls follow the schedule. *)
Lemma program_trace (lr : Q) (ne bs : Z) (n : nat) :
  nth_error (np_shape y_train) 1 = Some n ->
  graph (fst (program lr ne bs initial_world)) = model_graph n lr /\
  chained (model_graph n lr) empty_store
          (log (fst (program lr ne bs initial_world)))
          (store (fst (program lr ne bs initial_world))) /\
  trace_ok (schedule 0 1 bs (run_starts bs) (Z.to_nat ne))
           (log (fst (program lr ne bs initial_world)))
           (snd (program lr ne bs initial_world)).
Proof.
  intros Hn. rewrite (program_unfold lr ne bs n Hn).
  destruct (issues_session_part (GoogLeNet.mk n 0 1 lr ne bs) (built_world n lr))
    as [Hg [evs [Hl [Hc Ht]]]].
  cbn [built_world graph log store GoogLeNet.X GoogLeNet.y GoogLeNet.batch_size
       GoogLeNet.num_epochs app] in *.
  rewrite run_epochs_value in Ht.
  rewrite Hg, Hl. split; [reflexivity|]. split; [exact Hc | exact Ht].
Qed.

Lemma valid_evaluation_frame (n : nat) (lr : Q) (ev : Event) :
  valid_event (model_graph n lr) ev ->
  ev_fetches ev = [loss; accuracy] ->
  ev_after ev = ev_before ev.
Proof.
  unfold valid_event. intros Hv Hf. rewrite Hf in Hv.
  destruct (run_fetches _ _ _ _) as [[st' values]|e] eqn:Hrun.
  - destruct Hv as [-> _].
    apply (run_fetches_stateless _ _ _ _ _ _ (evaluation_is_stateless n lr) Hrun).
  - destruct Hv as [-> _].
    apply (run_fetches_leaves_stateless _ _ _ _ (evaluation_is_stateless n lr)).
Qed.

Lemma trace_failure_is_last {A} (p : list Call) (evs : list Event) (r : result A)
    (ev : Event) (e : exn) :
  trace_ok p evs r -> In ev evs -> ev_outcome ev = Raise e ->
  r = Raise e /\ exists pre, evs = pre ++ [ev] /\ forallb event_ok pre = true.
Proof.
  intros Ht Hin He.
  assert (Hbad : event_ok ev = false) by (unfold event_ok; rewrite He; reflexivity).
  assert (Hnot : forall l, In ev l -> forallb event_ok l = true -> False).
  { intros l Hl Hall. rewrite forallb_forall in Hall. rewrite (Hall ev Hl) in Hbad.
    discriminate. }
  destruct r as [a|e']; simpl in Ht.
  - destruct Ht as [_ Hall]. destruct (Hnot _ Hin Hall).
  - destruct Ht as [_ [Hall | [pre [ev' [Hevs [Hpre He']]]]]].
    + destruct (Hnot _ Hin Hall).
    + subst evs. apply in_app_or in Hin. destruct Hin as [Hin | [<- | []]].
      * destruct (Hnot _ Hin Hpre).
      * rewrite He in He'. injection He' as ->. split; [reflexivity|].
        exists pre. auto.
Qed.


(** *** The run returns unless a session call raises *)

Lemma raises_in_session_quiet {A} (m : TF A) :
  (forall w, log (fst (m w)) = log w /\ session_open (fst (m w)) = session_open w /\
             exists a, snd (m w) = Ok a) ->
  raises_in_session m false.
Proof.
  intros Hm w Hopen. destruct (Hm w) as [Hl [Ho [a Ha]]]. exists [].
  rewrite app_nil_r. split; [exact Hl|]. rewrite Ha. intros _. rewrite Ho. exact Hopen.
Qed.

Lemma raises_in_session_ret {A} (a : A) : raises_in_session (ret a) false.
Proof. apply raises_in_session_quiet. intros w. simpl. eauto. Qed.

Lemma raises_in_session_print (m : Msg) : raises_in_session (print m) false.
Proof. apply raises_in_session_quiet. intros w. simpl. eauto. Qed.

Lemma raises_in_session_sess_close : raises_in_session (sess_close tt) true.
Proof.
  intros w Hopen. exists []. rewrite app_nil_r. simpl. split; [reflexivity|]. discriminate.
Qed.

Lemma raises_in_session_sess_run (fetches : list Tensor) (feed : Feed) :
  raises_in_session (sess_run tt fetches feed) false.
Proof.
  intros w Hopen. unfold sess_run. rewrite Hopen.
  destruct (run_fetches (graph w) fetches feed (store w)) as [[st' values]|e];
    cbv zeta; cbn [fst snd log session_open]; eexists; (split; [reflexivity|]).
  - reflexivity.
  - eexists [], _. split; reflexivity.
Qed.

Lemma raises_in_session_bind {A B} (m : TF A) (k : A -> TF B) (c : bool) :
  raises_in_session m false -> (forall a, raises_in_session (k a) c) ->
  raises_in_session (bind m k) c.
Proof.
  intros Hm Hk w Hopen. unfold bind.
  destruct (Hm w Hopen) as [e1 [Hl1 Hr1]].
  destruct (m w) as [w1 [a|e]]; cbn [fst snd] in *.
  - destruct (Hk a w1 (Hr1 eq_refl)) as [e2 [Hl2 Hr2]].
    exists (e1 ++ e2). split; [rewrite Hl2, Hl1, app_assoc; reflexivity|].
    destruct (snd (k a w1)) as [b|e]; [exact Hr2|].
    destruct Hr2 as [pre [ev [-> Hev]]]. exists (e1 ++ pre), ev.
    split; [rewrite app_assoc; reflexivity | exact Hev].
  - exists e1. split; [exact Hl1 | exact Hr1].
Qed.

Lemma raises_in_session_lift_ok {A B} (a : A) (k : A -> TF B) (c : bool) :
  raises_in_session (k a) c -> raises_in_session (bind (lift_result (Ok a)) k) c.
Proof. intros H. exact H. Qed.

Lemma raises_in_session_for_each {A} (l : list A) (body : A -> TF unit) :
  (forall x, In x l -> raises_in_session (body x) false) ->
  raises_in_session (for_each l body) false.
Proof.
  induction l as [|x l IH]; intros Hbody; cbn [for_each].
  - apply raises_in_session_ret.
  - apply raises_in_session_bind.
    + apply Hbody. left. reflexivity.
    + intros _. apply IH. intros y Hy. apply Hbody. right. exact Hy.
Qed.

(** A slice of an array with a first axis exists. *)
Lemma nd_slice_exists {F} (a : ndarray F) (rows : nat) (inner : list nat) (start stop : Z) :
  np_shape a = rows :: inner -> exists b, nd_slice a start stop = Ok b.
Proof.
  intros Hs. unfold nd_slice. rewrite Hs. destruct a; eexists; reflexivity.
Qed.

Lemma raises_in_session_train_batch (self : GoogLeNet.t) (i start : Z)
    (total rows : nat) (inner cols : list nat) :
  np_shape X_train = total :: inner ->
  np_shape y_train = rows :: cols ->
  raises_in_session (train_batch self train i start) false.
Proof.
  intros HX Hy. unfold train_batch.
  destruct (nd_slice_exists X_train total inner start
              (start + GoogLeNet.batch_size self) HX) as [bx ->].
  apply raises_in_session_lift_ok.
  destruct (nd_slice_exists y_train rows cols start
              (start + GoogLeNet.batch_size self) Hy) as [by_ ->].
  apply raises_in_session_lift_ok.
  apply raises_in_session_bind; [apply raises_in_session_sess_run|]. intros _.
  destruct ((start + GoogLeNet.batch_size self) mod 100 =? 0)%Z;
    [|apply raises_in_session_ret].
  unfold py_len. rewrite HX. apply raises_in_session_lift_ok.
  apply raises_in_session_print.
Qed.

Lemma raises_in_session_train_epoch (self : GoogLeNet.t) (i : Z)
    (total rows : nat) (inner cols : list nat) :
  np_shape X_train = total :: inner ->
  np_shape y_train = rows :: cols ->
  GoogLeNet.batch_size self <> 0%Z ->
  raises_in_session (train_epoch self train loss accuracy i) false.
Proof.
  intros HX Hy Hb. unfold train_epoch, py_len. rewrite HX.
  apply raises_in_session_lift_ok.
  unfold py_range. apply Z.eqb_neq in Hb. rewrite Hb.
  apply raises_in_session_lift_ok.
  apply raises_in_session_bind.
  - apply raises_in_session_for_each. intros start _.
    apply (raises_in_session_train_batch self i start total rows inner cols HX Hy).
  - intros _. apply raises_in_session_bind; [apply raises_in_session_sess_run|].
    intros values. apply raises_in_session_print.
Qed.

Lemma raises_in_session_session_part (self : GoogLeNet.t) (rows : nat) (cols : list nat) :
  np_shape y_train = rows :: cols ->
  (GoogLeNet.num_epochs self <= 0)%Z \/
  (GoogLeNet.batch_size self <> 0%Z /\
   exists total inner, np_shape X_train = total :: inner) ->
  raises_in_session (session_part self init train loss accuracy) true.
Proof.
  intros Hy Hcase. unfold session_part.
  apply raises_in_session_bind; [apply raises_in_session_sess_run|]. intros _.
  apply raises_in_session_bind; [apply raises_in_session_print|]. intros _.
  apply raises_in_session_bind; [apply raises_in_session_print|]. intros _.
  rewrite range_epochs. apply raises_in_session_lift_ok.
  apply raises_in_session_bind.
  - apply raises_in_session_for_each. intros i Hi.
    destruct Hcase as [Hne | [Hb [total [inner HX]]]].
    + replace (Z.to_nat (GoogLeNet.num_epochs self)) with 0 in Hi by lia. destruct Hi.
    + apply (raises_in_session_train_epoch self i total rows inner cols HX Hy Hb).
  - intros _. apply raises_in_session_bind; [apply raises_in_session_print|]. intros _.
    apply raises_in_session_bind; [apply raises_in_session_sess_run|]. intros values.
    apply raises_in_session_bind; [apply raises_in_session_print|]. intros _.
    apply raises_in_session_sess_close.
Qed.

(** The run returns exactly when no [sess.run] raised, provided the loops
    can run: no epoch is asked for, or the batch size is not 0 and
    [X_train] has a length. *)
Lemma program_returns (lr : Q) (ne bs : Z) (n : nat) :
  nth_error (np_shape y_train) 1 = Some n ->
  (ne <= 0)%Z \/ (bs <> 0%Z /\ exists total inner, np_shape X_train = total :: inner) ->
  (snd (program lr ne bs initial_world) = Ok tt <->
   forallb event_ok (log (fst (program lr ne bs initial_world))) = true).
Proof.
  intros Hn Hcase.
  destruct (program_trace lr ne bs n Hn) as [_ [_ Ht]].
  split.
  - intros Hr. rewrite Hr in Ht. apply Ht.
  - intros Hok.
    assert (Hy : exists rows cols, np_shape y_train = rows :: cols).
    { destruct (np_shape y_train) as [|rows cols]; [discriminate|]. eauto. }
    destruct Hy as [rows [cols Hy]].
    pose proof (raises_in_session_session_part (GoogLeNet.mk n 0 1 lr ne bs) rows cols Hy
                  Hcase (built_world n lr) eq_refl) as [evs [Hl Hr]].
    rewrite <- (program_unfold lr ne bs n Hn) in Hl, Hr.
    destruct (snd (program lr ne bs initial_world)) as [[]|e]; [reflexivity|].
    destruct Hr as [pre [ev [-> Hev]]]. cbn [built_world log app] in Hl.
    rewrite Hl, forallb_app in Hok. apply andb_true_iff in Hok. destruct Hok as [_ Hok].
    cbn [forallb] in Hok. unfold event_ok in Hok. rewrite Hev in Hok. discriminate.
Qed.

(** After a call that raised, the session holds what the call left. *)
Lemma chained_last (g : Graph) (st st' : Store) (pre : list Event) (ev : Event) :
  chained g st (pre ++ [ev]) st' -> st' = ev_after ev.
Proof.
  revert st. induction pre as [|e pre IH]; intros st H; simpl in H.
  - destruct H as [_ [_ H]]. exact H.
  - destruct H as [_ [_ H]]. apply (IH _ H).
Qed.


(** C2.  When [y_train] has [n] columns, the graph [run] builds leads from
    the image placeholder to the logits through, in this order: a 7x7
    stride-2 convolution, a 3x3 stride-2 max pool, a local response
    normalization; a 1x1 convolution, a 3x3 convolution, a normalization, a
    3x3 stride-2 max pool; the inception modules 3a and 3b and a max pool;
    the inception modules 4a to 4e and a max pool; the inception modules 5a
    and 5b and a 7x7 average pool; flatten, dropout and a dense layer of
    [n] units.  The two auxiliary classifiers (average pool, convolution,
    flatten, dense, dropout, dense) hang off the outputs of inception 4a
    and 4d.  The graph holds nine inception modules and two auxiliary
    classifiers and no more, and it is complete before the first
    [sess.run]: the rest of the program is the session part, started in a
    world with this graph and an empty log. *)
Theorem forward_pass_architecture (lr : Q) (ne bs : Z) (n : nat) :
  nth_error (np_shape y_train) 1 = Some n ->
  let g := graph (fst (program lr ne bs initial_world)) in
  layers_to g linear =
    (0,
     [ (LConv 64 (7, 7) (2, 2) Same, 2);
       (LMaxPool (3, 3) (2, 2) Same, 3);
       (LNorm 2.0 1.0 0.0002 0.75, 4);
       (LConv 64 (1, 1) (1, 1) Same, 5);
       (LConv 192 (3, 3) (1, 1) Same, 6);
       (LNorm 2.0 1.0 0.0002 0.75, 7);
       (LMaxPool (3, 3) (2, 2) Same, 8);
       (LInception 64 96 128 16 32 32, 16);
       (LInception 128 128 192 32 96 64, 24);
       (LMaxPool (3, 3) (2, 2) Same, 25);
       (LInception 192 96 208 16 48 64, inception_4a);
       (LInception 160 112 224 24 64 64, 41);
       (LInception 128 128 256 24 64 64, 49);
       (LInception 112 144 288 32 64 64, inception_4d);
       (LInception 256 160 320 32 128 128, 65);
       (LMaxPool (3, 3) (2, 2) Same, 66);
       (LInception 256 160 320 32 128 128, 86);
       (LInception 384 192 384 48 128 128, 94);
       (LAvgPool (7, 7) (1, 1) Valid, 95);
       (LFlatten, 96);
       (LDropout 0.4, 97);
       (LDense n, linear) ]) /\
  option_map n_op (find_node g 0) = Some (Placeholder "image") /\
  walk_back 6 g auxiliary_1 [] =
    (inception_4a,
     [ (LAvgPool (5, 5) (3, 3) Same, 67); (LConv 128 (1, 1) (1, 1) Valid, 68);
       (LFlatten, 69); (LDense 1024, 70); (LDropout 0.3, 71);
       (LDense n, auxiliary_1) ]) /\
  walk_back 6 g auxiliary_2 [] =
    (inception_4d,
     [ (LAvgPool (5, 5) (3, 3) Same, 73); (LConv 128 (1, 1) (1, 1) Valid, 74);
       (LFlatten, 75); (LDense 1024, 76); (LDropout 0.3, 77);
       (LDense n, auxiliary_2) ]) /\
  inception_outputs g = [16; 24; inception_4a; 41; 49; inception_4d; 65; 86; 94] /\
  auxiliary_heads g = [auxiliary_1; auxiliary_2] /\
  exists w0,
    graph w0 = g /\ log w0 = [] /\
    program lr ne bs initial_world =
    session_part (GoogLeNet.mk n 0 1 lr ne bs) init train loss accuracy w0.
Proof.
  intros Hn g.
  assert (Hg : g = model_graph n lr) by (apply (program_trace lr ne bs n Hn)).
  rewrite Hg. clear g Hg.
  repeat split; try (vm_compute; reflexivity).
  exists (built_world n lr). repeat split. apply (program_unfold lr ne bs n Hn).
Qed.


Lemma filter_training_calls (X y : Tensor) (bs : Z) (starts : list Z) :
  filter is_training
    (map (fun start => ([train], training_feed X y bs start)) starts) =
  map (fun start => ([train], training_feed X y bs start)) starts.
Proof.
  induction starts as [|s starts IH]; simpl; [reflexivity|]. rewrite IH. reflexivity.
Qed.

Lemma filter_training_schedule (X y : Tensor) (bs : Z) (starts : list Z) (epochs : nat) :
  filter is_training (schedule X y bs starts epochs) =
  List.concat (repeat (map (fun start => ([train], training_feed X y bs start)) starts)
                      epochs).
Proof.
  unfold schedule. cbn [filter is_training fst]. change (init =? train) with false.
  cbv iota. rewrite filter_app. cbn [filter is_training fst]. rewrite app_nil_r.
  induction epochs as [|k IH]; simpl; [reflexivity|].
  rewrite filter_app, IH. unfold epoch_calls at 1.
  rewrite filter_app, filter_training_calls. cbn [filter is_training fst].
  rewrite app_nil_r. reflexivity.
Qed.

Lemma length_concat_repeat {A} (l : list A) (k : nat) :
  List.length (List.concat (repeat l k)) = k * List.length l.
Proof.
  induction k as [|k IH]; simpl; [reflexivity|]. rewrite length_app, IH. reflexivity.
Qed.

Lemma batch_starts_bounds (total : nat) (bs start : Z) :
  (1 <= bs)%Z -> In start (batch_starts total bs) ->
  (0 <= start < Z.of_nat total)%Z.
Proof.
  intros Hb Hin. unfold batch_starts in Hin. apply in_map_iff in Hin.
  destruct Hin as [k [<- Hk]]. apply in_seq in Hk.
  assert (Hk' : k < (total + Z.to_nat bs - 1) / Z.to_nat bs) by lia.
  assert (Hb' : 0 < Z.to_nat bs) by lia.
  assert (Hmul : Z.to_nat bs * k < total).
  { assert (Hbig : Z.to_nat bs * ((total + Z.to_nat bs - 1) / Z.to_nat bs)
                   <= total + Z.to_nat bs - 1)
      by (apply Nat.Div0.mul_div_le).
    assert (Hk2 : S k <= (total + Z.to_nat bs - 1) / Z.to_nat bs) by lia.
    assert (Hm : Z.to_nat bs * S k <= Z.to_nat bs * ((total + Z.to_nat bs - 1) / Z.to_nat bs))
      by (apply Nat.mul_le_mono_l; exact Hk2).
    lia. }
  split; [lia|]. nia.
Qed.

(** C3.  With [total] training images, [batch_size >= 1] and
    [num_epochs >= 0], the run returns exactly when none of its
    [sess.run] calls raises: nothing else in it can fail.  It asks for the
    training operation at most [num_epochs * ceil (total / batch_size)]
    times, and exactly that often when it returns: the training calls
    are, epoch after epoch, the ones fed
    [X_train[start : start + batch_size]] and
    [y_train[start : start + batch_size]] for
    [start = 0, batch_size, 2 * batch_size, ...], in increasing order.
    Every such [start] is below [total], the slices exist, and a batch
    holds [batch_size] images or, at the end, the ones that are left (at
    least one). *)
Theorem training_loop_batches (lr : Q) (ne bs : Z) (n total : nat) (inner : list nat) :
  nth_error (np_shape y_train) 1 = Some n ->
  np_shape X_train = total :: inner ->
  (1 <= bs)%Z -> (0 <= ne)%Z ->
  let w := fst (program lr ne bs initial_world) in
  let r := snd (program lr ne bs initial_world) in
  let steps := filter is_training (map call_of (log w)) in
  let batches := (total + Z.to_nat bs - 1) / Z.to_nat bs in
  let starts := map (fun k => (Z.of_nat k * bs)%Z) (seq 0 batches) in
  let expected :=
    List.concat (repeat (map (fun start => ([train], training_feed 0 1 bs start)) starts)
                        (Z.to_nat ne)) in
  (r = Ok tt <-> forallb event_ok (log w) = true) /\
  (exists rest, expected = steps ++ rest) /\
  (r = Ok tt -> steps = expected) /\
  List.length expected = Z.to_nat ne * batches /\
  forall start, In start starts ->
    (0 <= start < Z.of_nat total)%Z /\
    exists batch_X batch_y,
      nd_slice X_train start (start + bs) = Ok batch_X /\
      nd_slice y_train start (start + bs) = Ok batch_y /\
      training_feed 0 1 bs start = [(0, batch_X); (1, batch_y)] /\
      np_shape batch_X = Nat.min (Z.to_nat bs) (total - Z.to_nat start) :: inner /\
      1 <= Nat.min (Z.to_nat bs) (total - Z.to_nat start).
Proof.
  intros Hn HX Hb He w r steps batches starts expected.
  destruct (program_trace lr ne bs n Hn) as [_ [_ Ht]].
  fold w in Ht. fold r in Ht.
  rewrite (run_starts_value total inner bs HX Hb) in Ht.
  change (batch_starts total bs) with starts in Ht.
  assert (Hexp : filter is_training (schedule 0 1 bs starts (Z.to_nat ne)) = expected)
    by apply filter_training_schedule.
  split; [|split; [|split; [|split]]].
  - apply (program_returns lr ne bs n Hn). right. split; [lia|]. eauto.
  - destruct r as [u|e]; simpl in Ht.
    + destruct Ht as [Hp _]. exists []. unfold steps. rewrite Hp, Hexp, app_nil_r.
      reflexivity.
    + destruct Ht as [[rest Hrest] _]. exists (filter is_training rest).
      unfold steps. rewrite <- Hexp, Hrest, filter_app. reflexivity.
  - intros Hr. rewrite Hr in Ht. simpl in Ht. destruct Ht as [Hp _].
    unfold steps. rewrite Hp. exact Hexp.
  - unfold expected. rewrite length_concat_repeat, length_map.
    unfold starts. rewrite length_map, length_seq. reflexivity.
  - intros start Hin.
    pose proof (batch_starts_bounds total bs start Hb Hin) as Hrange.
    split; [exact Hrange|].
    destruct (nd_slice_batch X_train total inner start bs HX ltac:(lia) Hb)
      as [bX [HbX HsX]].
    assert (Hy : exists m rest, np_shape y_train = m :: rest).
    { destruct (np_shape y_train) as [|m rest]; [discriminate|]. eauto. }
    destruct Hy as [m [rest Hy]].
    destruct (nd_slice_batch y_train m rest start bs Hy ltac:(lia) Hb)
      as [bY [HbY _]].
    exists bX, bY. repeat split; try assumption.
    + unfold training_feed, batch_of. rewrite HbX, HbY. reflexivity.
    + lia.
Qed.

End Run_facts.

(* ================================================================== *)
(** ** Objective, accuracy, auxiliary heads, evaluations, errors        *)
(* ================================================================== *)

Section Claims.

Context {L : Library} {D : ImageNet}.

Lemma logged_event_valid (lr : Q) (ne bs : Z) (n : nat) (ev : Event) :
  nth_error (np_shape y_train) 1 = Some n ->
  In ev (log (fst (program lr ne bs initial_world))) ->
  valid_event (model_graph n lr) ev.
Proof.
  intros Hn Hin. destruct (program_trace lr ne bs n Hn) as [_ [Hc _]].
  pose proof (chained_valid _ _ _ _ Hc) as Hall.
  rewrite Forall_forall in Hall. apply Hall. exact Hin.
Qed.

Lemma valid_event_ok (g : Graph) (ev : Event) (values : list (option Array)) :
  valid_event g ev -> ev_outcome ev = Ok values ->
  run_fetches g (ev_fetches ev) (ev_feed ev) (ev_before ev) = Ok (ev_after ev, values).
Proof.
  unfold valid_event. intros Hv Ho.
  destruct (run_fetches _ _ _ _) as [[st' vals]|e].
  - destruct Hv as [-> Hv]. rewrite Hv in Ho. injection Ho as ->. reflexivity.
  - destruct Hv as [_ Hv]. rewrite Hv in Ho. discriminate.
Qed.

(** C4.  The training operation is one [Minimize] node (Adam's
    [minimize]) whose objective is one [ReduceMean] node over one
    [SoftmaxCrossEntropyWithLogits] node, whose arguments are the label
    placeholder [y] and [linear], the last dense layer of the graph, with
    [n] units.  The cross entropy has one entry per example and the loss is
    a scalar.  A successful training step computes the gradients of this
    loss for the variables on the way to [linear] from the batch it is fed
    and hands them to the optimizer's update; an evaluation returns as loss
    the mean of the entries of the cross entropy. *)
Theorem training_objective (lr : Q) (ne bs : Z) (n : nat) :
  nth_error (np_shape y_train) 1 = Some n ->
  let w := fst (program lr ne bs initial_world) in
  let g := graph w in
  expr_of (List.length g) g cross_entropy train =
    Apply (Minimize lr (layer_vars main_layers))
      [Apply ReduceMean
         [Apply SoftmaxCrossEntropyWithLogits [Leaf 1; Leaf linear]]] /\
  find_node g 1 = Some (mkNode 1 (Placeholder "label") [] [None; Some n]) /\
  find_node g linear = Some (mkNode linear (Dense n) [97] [None; Some n]) /\
  forallb (fun nd => match n_op nd with
                     | Dense _ => n_id nd <=? linear
                     | _ => true
                     end) g = true /\
  option_map n_shape (find_node g cross_entropy) = Some [None] /\
  option_map n_shape (find_node g loss) = Some [] /\
  (forall ev values,
     In ev (log w) -> ev_fetches ev = [train] -> ev_outcome ev = Ok values ->
     values = [None] /\
     exists grads,
       result_mapM (fun v => gradient (prune g [train]) loss v (ev_feed ev) (ev_before ev))
                   (layer_vars main_layers) = Ok grads /\
       apply_updates lr (combine grads (layer_vars main_layers)) (ev_before ev)
       = Ok (ev_after ev)) /\
  (forall ev values,
     In ev (log w) -> ev_fetches ev = [loss; accuracy] -> ev_outcome ev = Ok values ->
     exists tbl,
       exec (prune g [loss; accuracy]) (ev_feed ev) (prune g [loss; accuracy])
            (ev_before ev, []) = Ok (ev_after ev, tbl) /\
       nth 0 values None = assoc tbl loss /\
       forall s d,
         assoc tbl cross_entropy = Some (NdFloat s d) ->
         assoc tbl loss = Some (NdFloat [] [f32_mean d])).
Proof.
  intros Hn w g.
  assert (Hg : g = model_graph n lr) by (apply (program_trace lr ne bs n Hn)).
  rewrite Hg.
  split; [vm_compute; reflexivity|]. split; [vm_compute; reflexivity|].
  split; [vm_compute; reflexivity|]. split; [vm_compute; reflexivity|].
  split; [vm_compute; reflexivity|]. split; [vm_compute; reflexivity|].
  split.
  - intros ev values Hin Hf Ho.
    pose proof (valid_event_ok _ _ _ (logged_event_valid lr ne bs n ev Hn Hin) Ho) as Hrun.
    rewrite Hf in Hrun. apply (training_step n lr _ _ _ _ Hrun).
  - intros ev values Hin Hf Ho.
    pose proof (valid_event_ok _ _ _ (logged_event_valid lr ne bs n ev Hn Hin) Ho) as Hrun.
    rewrite Hf in Hrun.
    destruct (evaluation_table n lr _ _ _ _ Hrun) as [_ [tbl [Hx [Hv [Hl _]]]]].
    exists tbl. split; [exact Hx|]. split; [rewrite Hv; reflexivity | exact Hl].
Qed.

(** C5.  Every successful evaluation returns the pair (loss, accuracy) of
    its table of values, and whenever the logits [dL] and the labels fed
    [dY] have the same shape, the accuracy is the mean, over all entries of
    the two matrices, of the indicator that the rounded logit equals the
    rounded label: no row-wise maximum is involved. *)
Theorem reported_accuracy (lr : Q) (ne bs : Z) (n : nat) (ev : Event)
    (values : list (option Array)) :
  nth_error (np_shape y_train) 1 = Some n ->
  In ev (log (fst (program lr ne bs initial_world))) ->
  ev_fetches ev = [loss; accuracy] ->
  ev_outcome ev = Ok values ->
  let g := graph (fst (program lr ne bs initial_world)) in
  exists tbl,
    exec (prune g [loss; accuracy]) (ev_feed ev) (prune g [loss; accuracy])
         (ev_before ev, []) = Ok (ev_after ev, tbl) /\
    values = [assoc tbl loss; assoc tbl accuracy] /\
    forall s dL dY,
      assoc tbl linear = Some (NdFloat s dL) ->
      assoc (ev_feed ev) 1 = Some (NdFloat s dY) ->
      assoc tbl accuracy =
      Some (NdFloat []
              [f32_mean (map2 (fun l y => f32_of_bool (f32_equal (f32_round l) (f32_round y)))
                              dL dY)]).
Proof.
  intros Hn Hin Hf Ho g.
  assert (Hg : g = model_graph n lr) by (apply (program_trace lr ne bs n Hn)).
  rewrite Hg.
  pose proof (valid_event_ok _ _ _ (logged_event_valid lr ne bs n ev Hn Hin) Ho) as Hrun.
  rewrite Hf in Hrun.
  destruct (evaluation_table n lr _ _ _ _ Hrun) as [_ [tbl [Hx [Hv [_ Ha]]]]].
  exists tbl. auto.
Qed.


Lemma run_fetches_pruned (g g' : Graph) (fetches : list Tensor) (feed : Feed) (st : Store) :
  prune g fetches = prune g' fetches ->
  forallb (fun t => match find_node g t with Some _ => true | None => false end) fetches =
  forallb (fun t => match find_node g' t with Some _ => true | None => false end) fetches ->
  run_fetches g fetches feed st = run_fetches g' fetches feed st.
Proof.
  intros Hp Hf. unfold run_fetches. rewrite Hp, Hf. reflexivity.
Qed.

(** C6.  The auxiliary classifiers [auxiliary_1] and [auxiliary_2] are in
    the graph, dense layers of [n] units.  Their twelve nodes lie outside
    what the training operation and the pair (loss, accuracy) depend on;
    the variables the optimizer updates are the same whether the gradients
    are taken in the graph with or without the two heads, and none belongs
    to a head; and for every feed and every state of the variables,
    running the training operation, or loss and accuracy, gives the same
    result in the graph and in the graph without the two heads. *)
Theorem auxiliary_heads_unused (lr : Q) (ne bs : Z) (n : nat) :
  nth_error (np_shape y_train) 1 = Some n ->
  let g := graph (fst (program lr ne bs initial_world)) in
  let heads := head_nodes g auxiliary_1 inception_4a
               ++ head_nodes g auxiliary_2 inception_4d in
  find_node g auxiliary_1 = Some (mkNode auxiliary_1 (Dense n) [71] [None; Some n]) /\
  find_node g auxiliary_2 = Some (mkNode auxiliary_2 (Dense n) [77] [None; Some n]) /\
  heads = [67; 68; 69; 70; 71; 72; 73; 74; 75; 76; 77; 78] /\
  forallb (fun i => negb (mem i (cone g [train])) && negb (mem i (cone g [loss; accuracy])))
          heads = true /\
  (exists vars,
     option_map n_op (find_node g train) = Some (Minimize lr vars) /\
     vars = map snd (filter fst (compute_gradients (firstn train g) loss)) /\
     vars = map snd (filter fst
                       (compute_gradients (without_auxiliary_heads (firstn train g)) loss)) /\
     forallb (fun v => negb (mem (fst v) heads)) vars = true) /\
  (forall feed st,
     run_fetches g [train] feed st =
     run_fetches (without_auxiliary_heads g) [train] feed st) /\
  (forall feed st,
     run_fetches g [loss; accuracy] feed st =
     run_fetches (without_auxiliary_heads g) [loss; accuracy] feed st).
Proof.
  intros Hn g heads. unfold heads.
  assert (Hg : g = model_graph n lr) by (apply (program_trace lr ne bs n Hn)).
  rewrite Hg. clear g heads Hg.
  split; [vm_compute; reflexivity|]. split; [vm_compute; reflexivity|].
  split; [vm_compute; reflexivity|]. split; [vm_compute; reflexivity|].
  split.
  - eexists. split; [vm_compute; reflexivity|].
    split; [vm_compute; reflexivity|]. split; vm_compute; reflexivity.
  - split; intros feed st; apply run_fetches_pruned; vm_compute; reflexivity.
Qed.

(** C8.  Where the loops can run (no epoch is asked for, or the batch
    size is not 0 and [X_train] has a length), the run returns exactly
    when none of its [sess.run] calls raises.  The calls of a run that
    returns are: the initializer; then, for each of the [num_epochs]
    epochs, the training calls followed by one evaluation of (loss,
    accuracy) fed the validation set; then one evaluation of (loss,
    accuracy) fed the test set.  A run that raises has made a prefix of
    these calls.  What an evaluation executes contains no node that writes
    variables, every evaluation in the log, failed ones included, leaves
    the variables as it found them, and each call starts from the
    variables the one before left (a training call that raises leaves
    what the library had written by then). *)
Theorem evaluations_leave_parameters (lr : Q) (ne bs : Z) (n : nat) :
  nth_error (np_shape y_train) 1 = Some n ->
  let w := fst (program lr ne bs initial_world) in
  let r := snd (program lr ne bs initial_world) in
  let plan :=
    ([init], [])
    :: List.concat
         (repeat (map (fun start => ([train], training_feed 0 1 bs start)) (run_starts bs)
                  ++ [([loss; accuracy], validation_feed 0 1)])
                 (Z.to_nat ne))
    ++ [([loss; accuracy], test_feed 0 1)] in
  ((ne <= 0)%Z \/ (bs <> 0%Z /\ exists total inner, np_shape X_train = total :: inner) ->
   (r = Ok tt <-> forallb event_ok (log w) = true)) /\
  (r = Ok tt -> map call_of (log w) = plan) /\
  (exists rest, plan = map call_of (log w) ++ rest) /\
  forallb stateless (prune (graph w) [loss; accuracy]) = true /\
  (forall ev, In ev (log w) -> ev_fetches ev = [loss; accuracy] ->
              ev_after ev = ev_before ev) /\
  chained (graph w) empty_store (log w) (store w).
Proof.
  intros Hn w r plan.
  destruct (program_trace lr ne bs n Hn) as [Hg [Hc Ht]].
  fold w in Hg, Hc, Ht. fold r in Ht.
  change (schedule 0 1 bs (run_starts bs) (Z.to_nat ne)) with plan in Ht.
  split; [|split; [|split; [|split; [|split]]]].
  - intros Hcase. apply (program_returns lr ne bs n Hn Hcase).
  - intros Hr. rewrite Hr in Ht. apply Ht.
  - destruct r as [u|e]; simpl in Ht.
    + exists []. rewrite app_nil_r. symmetry. apply Ht.
    + apply Ht.
  - rewrite Hg. apply evaluation_is_stateless.
  - intros ev Hin Hf.
    apply (valid_evaluation_frame n lr ev (logged_event_valid lr ne bs n ev Hn Hin) Hf).
  - rewrite Hg. exact Hc.
Qed.

Lemma feed_compatible_image (shape : list nat) :
  feed_compatible [None; Some 224; Some 224; Some 3] shape = true <->
  exists N, shape = [N; 224; 224; 3].
Proof.
  split.
  - destruct shape as [|N [|h [|w0 [|c [|x rest]]]]]; cbn [feed_compatible]; intros H;
      repeat match type of H with
             | _ && _ = true =>
                 let E := fresh "E" in
                 apply andb_true_iff in H; destruct H as [E H];
                 apply Nat.eqb_eq in E
             end;
      try discriminate H.
    subst. exists N. reflexivity.
  - intros [N ->]. reflexivity.
Qed.

(** C9.  When [y_train] has [n] columns, [__init__] succeeds with
    [num_classes = n] and two placeholders: [X] of static shape
    [None; 224; 224; 3], which accepts exactly the arrays of shape
    [N; 224; 224; 3] for any [N], and [y] of shape [None; n].  In the graph
    [run] builds on them, the forward pass to [linear] starts at [X],
    [linear] is a dense layer of [n] units with one row of [n] logits per
    image, and the cross entropy compares it with [y]. *)
Theorem classifier_interface (lr : Q) (ne bs : Z) (n : nat) :
  nth_error (np_shape y_train) 1 = Some n ->
  exists w0 self,
    GoogLeNet.__init__ lr ne bs initial_world = (w0, Ok self) /\
    GoogLeNet.num_classes self = n /\
    find_node (graph w0) (GoogLeNet.X self) =
      Some (mkNode (GoogLeNet.X self) (Placeholder "image") []
              [None; Some 224; Some 224; Some 3]) /\
    find_node (graph w0) (GoogLeNet.y self) =
      Some (mkNode (GoogLeNet.y self) (Placeholder "label") [] [None; Some n]) /\
    (forall shape,
       feed_compatible [None; Some 224; Some 224; Some 3] shape = true <->
       exists N, shape = [N; 224; 224; 3]) /\
    let g := graph (fst (GoogLeNet.run self w0)) in
    firstn 2 g = graph w0 /\
    fst (layers_to g linear) = GoogLeNet.X self /\
    find_node g linear = Some (mkNode linear (Dense n) [97] [None; Some n]) /\
    find_node g cross_entropy =
      Some (mkNode cross_entropy SoftmaxCrossEntropyWithLogits
              [GoogLeNet.y self; linear] [None]).
Proof.
  intros Hn.
  exists (mkWorld [mkNode 0 (Placeholder "image") [] [None; Some 224; Some 224; Some 3];
                   mkNode 1 (Placeholder "label") [] [None; Some n]]
                  false empty_store [] []),
         (GoogLeNet.mk n 0 1 lr ne bs).
  assert (Hinit : GoogLeNet.__init__ lr ne bs initial_world =
            (mkWorld [mkNode 0 (Placeholder "image") [] [None; Some 224; Some 224; Some 3];
                      mkNode 1 (Placeholder "label") [] [None; Some n]]
                     false empty_store [] [],
             Ok (GoogLeNet.mk n 0 1 lr ne bs))).
  { unfold GoogLeNet.__init__, tuple_index. rewrite Hn. reflexivity. }
  split; [exact Hinit|]. split; [reflexivity|]. split; [reflexivity|].
  split; [reflexivity|]. split; [exact feed_compatible_image|].
  assert (Hrun : GoogLeNet.run (GoogLeNet.mk n 0 1 lr ne bs)
                   (mkWorld [mkNode 0 (Placeholder "image") [] [None; Some 224; Some 224; Some 3];
                             mkNode 1 (Placeholder "label") [] [None; Some n]]
                            false empty_store [] [])
                 = program lr ne bs initial_world).
  { unfold program. rewrite (bind_ok _ _ _ _ _ Hinit). reflexivity. }
  rewrite Hrun.
  assert (Hg : graph (fst (program lr ne bs initial_world)) = model_graph n lr)
    by (apply (program_trace lr ne bs n Hn)).
  cbv zeta. rewrite Hg.
  repeat split; vm_compute; reflexivity.
Qed.


Lemma length_schedule (X y : Tensor) (bs : Z) (starts : list Z) (epochs : nat) :
  List.length (schedule X y bs starts epochs) = 2 + epochs * (List.length starts + 1).
Proof.
  unfold schedule. cbn [List.length]. rewrite length_app, length_concat_repeat.
  unfold epoch_calls. rewrite length_app, length_map. simpl. lia.
Qed.

Lemma inception_raises (w : World) (inputs : Tensor) (s : Shape) (e : exn)
    (c11 c33r c33 c56r c56 pp : nat) :
  option_map n_shape (find_node (graph w) inputs) = Some s ->
  conv2d_shape s c11 (1, 1) (1, 1) Same = Raise e ->
  GoogLeNet.inception inputs c11 c33r c33 c56r c56 pp w = (w, Raise e).
Proof.
  intros Hs He. unfold GoogLeNet.inception, tf_layers_conv2d, bind, shape_of, lift_result.
  destruct (find_node (graph w) inputs) as [nd|]; [|discriminate].
  simpl in Hs. injection Hs as ->. rewrite He. reflexivity.
Qed.

(** C10.  Nothing catches an error, nothing is undone and no result is
    kept from one call to the next.  A statement that raises ends every
    sequence it is part of with the same error; so [inception] stops at
    its first failing constructor and leaves the graph as it was, and a
    [y_train] without columns ends the program before a node exists.  A
    [sess.run] that raises is the last entry of the log and its error is
    the result of the run; the variables the run ends with are the ones
    that call left, which is whatever the library had written when it
    raised: the program restores nothing.  Every entry of the log is the
    outcome of executing its fetches anew on the variables the previous
    call left (no result is reused), the calls made are a prefix of the
    schedule, and a run that returns made all of them, once each.  Where
    the loops can run (no epoch is asked for, or the batch size is not 0
    and [X_train] has a length), the run returns exactly when no
    [sess.run] raises. *)
Theorem errors_abort_the_run (lr : Q) (ne bs : Z) :
  let w := fst (program lr ne bs initial_world) in
  let r := snd (program lr ne bs initial_world) in
  (forall (A B : Type) (m : TF A) (k : A -> TF B) (w0 w1 : World) (e : exn),
     m w0 = (w1, Raise e) -> bind m k w0 = (w1, Raise e)) /\
  (forall w0 inputs s e c11 c33r c33 c56r c56 pp,
     option_map n_shape (find_node (graph w0) inputs) = Some s ->
     conv2d_shape s c11 (1, 1) (1, 1) Same = Raise e ->
     GoogLeNet.inception inputs c11 c33r c33 c56r c56 pp w0 = (w0, Raise e)) /\
  (nth_error (np_shape y_train) 1 = None -> w = initial_world /\ r = Raise IndexError) /\
  (forall ev e,
     In ev (log w) -> ev_outcome ev = Raise e ->
     r = Raise e /\ exists pre, log w = pre ++ [ev] /\ forallb event_ok pre = true) /\
  (forall n,
     nth_error (np_shape y_train) 1 = Some n ->
     Forall (valid_event (graph w)) (log w) /\
     chained (graph w) empty_store (log w) (store w) /\
     (exists rest,
        schedule 0 1 bs (run_starts bs) (Z.to_nat ne) = map call_of (log w) ++ rest) /\
     (r = Ok tt ->
      map call_of (log w) = schedule 0 1 bs (run_starts bs) (Z.to_nat ne) /\
      List.length (log w) = 2 + Z.to_nat ne * (List.length (run_starts bs) + 1)) /\
     (forall ev e,
        In ev (log w) -> ev_outcome ev = Raise e ->
        ev_after ev =
          run_fetches_leaves (graph w) (ev_fetches ev) (ev_feed ev) (ev_before ev) /\
        store w = ev_after ev) /\
     ((ne <= 0)%Z \/
      (bs <> 0%Z /\ exists total inner, np_shape X_train = total :: inner) ->
      (r = Ok tt <-> forallb event_ok (log w) = true))).
Proof.
  intros w r.
  split; [intros A B m k w0 w1 e H; apply bind_raise; exact H|].
  split; [intros w0 inputs s e c11 c33r c33 c56r c56 pp Hs He;
          apply (inception_raises w0 inputs s e); assumption|].
  split; [|split].
  - intros Hn. unfold w, r. rewrite (program_no_columns lr ne bs Hn). split; reflexivity.
  - intros ev e Hin He.
    destruct (nth_error (np_shape y_train) 1) as [n|] eqn:Hn.
    + destruct (program_trace lr ne bs n Hn) as [_ [_ Ht]].
      apply (trace_failure_is_last _ _ _ ev e Ht Hin He).
    + unfold w in Hin. rewrite (program_no_columns lr ne bs Hn) in Hin. destruct Hin.
  - intros n Hn.
    destruct (program_trace lr ne bs n Hn) as [Hg [Hc Ht]].
    fold w in Hg, Hc, Ht. fold r in Ht. rewrite Hg.
    split; [apply (chained_valid _ _ _ _ Hc)|]. split; [exact Hc|]. split.
    + destruct r as [u|e]; simpl in Ht.
      * exists []. rewrite app_nil_r. symmetry. apply Ht.
      * apply Ht.
    + split; [|split].
      * intros Hr. rewrite Hr in Ht. simpl in Ht. destruct Ht as [Hp _].
        split; [exact Hp|].
        rewrite <- (length_map call_of), Hp. apply length_schedule.
      * intros ev e Hin He.
        pose proof (chained_valid _ _ _ _ Hc) as Hall.
        rewrite Forall_forall in Hall. pose proof (Hall ev Hin) as Hv.
        destruct (trace_failure_is_last _ _ _ ev e Ht Hin He) as [_ [pre [Hlog _]]].
        split.
        -- unfold valid_event in Hv.
           destruct (run_fetches _ _ _ _) as [[st' values]|e'].
           ++ destruct Hv as [_ Hv]. rewrite Hv in He. discriminate.
           ++ apply Hv.
        -- rewrite Hlog in Hc. apply (chained_last _ _ _ _ _ Hc).
      * intros Hcase. apply (program_returns lr ne bs n Hn Hcase).
Qed.

End Claims.

(* ================================================================== *)
(** ** Beyond the architecture: inputs [inception] and [auxiliary] refuse,
       stacked modules, shapes, variables, dropout                      *)
(* ================================================================== *)

Ltac find_appended Hwf :=
  rewrite find_node_new;
  [ reflexivity
  | apply wf_graph_app; [exact Hwf|];
    let j := fresh "j" in let n := fresh "n" in let Hn := fresh "Hn" in
    intros j n Hn;
    repeat (destruct j as [|j]; [injection Hn as <-; simpl; lia|]);
    destruct j; discriminate ].

Ltac split_all H :=
  repeat (let E := fresh "E" in
          apply Forall_cons_iff in H; destruct H as [E H]; cbn [n_id] in E).

Section Construction_facts.

Context {L : Library} {D : ImageNet}.

Lemma conv2d_shape_rejects (s : Shape) (f : nat) (k st : nat * nat) (p : Padding) :
  is_feature_map s = false -> conv2d_shape s f k st p = Raise ValueError.
Proof.
  intros H. unfold conv2d_shape, window_shape.
  destruct s as [|a [|b [|c [|d [|e s]]]]]; try reflexivity.
  - destruct d; [discriminate | reflexivity].
  - destruct d; reflexivity.
Qed.

(** X2.  [inception] needs a tensor of the graph whose static shape has
    rank 4 and a known channel count.  On anything else (an unknown
    handle, another rank, an open channel dimension) the first
    convolution raises ValueError, whatever the six sizes, and the world is
    exactly as before: no node has been added. *)
Theorem inception_rejects_other_inputs (w : World) (inputs : Tensor)
    (conv_11_size conv_33_reduce_size conv_33_size
     conv_56_reduce_size conv_56_size pool_proj_size : nat) :
  match find_node (graph w) inputs with
  | Some nd => is_feature_map (n_shape nd)
  | None => false
  end = false ->
  GoogLeNet.inception inputs conv_11_size conv_33_reduce_size conv_33_size
    conv_56_reduce_size conv_56_size pool_proj_size w = (w, Raise ValueError).
Proof.
  intros H. unfold GoogLeNet.inception, tf_layers_conv2d.
  unfold bind at 1. unfold bind at 1. unfold shape_of.
  destruct (find_node (graph w) inputs) as [nd|]; [|reflexivity].
  unfold bind, lift_result. rewrite (conv2d_shape_rejects _ _ _ _ _ H). reflexivity.
Qed.

Lemma unary_layer_next (w : World) (g l : Graph) (t : Tensor) (nd : Node) (op : Op)
    (rule : Shape -> result Shape) (out : Shape) (j : nat) :
  List.length l = j ->
  find_node (g ++ l) t = Some nd ->
  rule (n_shape nd) = Ok out ->
  (s <- shape_of t ;; o <- lift_result (rule s) ;; add_node op [t] o)
    (with_graph w (g ++ l)) =
  (with_graph w (g ++ l ++ [mkNode (List.length g + j) op [t] out]),
   Ok (List.length g + j)).
Proof.
  intros <- Hf Hr. unfold bind, shape_of, lift_result, add_node.
  rewrite with_graph_graph, Hf, Hr. rewrite with_graph_twice, with_graph_graph.
  rewrite <- app_assoc, length_app. reflexivity.
Qed.

Lemma ceil_third_pos (n : nat) : 1 <= n -> ((n + 2) / 3 <? 1) = false.
Proof.
  intros H. apply Nat.ltb_ge.
  assert (H3 : 1 * 3 <= n + 2) by lia.
  apply (Nat.Div0.div_le_mono _ _ 3) in H3. rewrite Nat.div_mul in H3 by lia. exact H3.
Qed.

(** X4.  On an input of static shape [N; H; W; C] with known height and
    width of at least 1, [auxiliary] appends exactly six nodes: a 5x5
    average pool with stride 3 and 'same' padding (height and width become
    their thirds, rounded up), a 1x1 convolution with 128 filters and
    'valid' padding, flatten, a dense layer of 1024 units, dropout with
    rate 0.3 built with [training=False], and a dense layer of
    [num_classes] units.  It returns this last node, of shape
    [N; num_classes], and changes nothing but the graph. *)
Theorem auxiliary_builds_classifier (self : GoogLeNet.t) (w : World) (inputs : Tensor)
    (N : Dim) (H W C : nat) :
  well_numbered (graph w) = true ->
  option_map n_shape (find_node (graph w) inputs) = Some [N; Some H; Some W; Some C] ->
  1 <= H -> 1 <= W ->
  GoogLeNet.auxiliary self inputs w =
  (with_graph w (graph w ++ auxiliary_nodes (List.length (graph w)) inputs N H W C
                              (GoogLeNet.num_classes self)),
   Ok (List.length (graph w) + 5)).
Proof.
  intros Hnum Hshape HH HW.
  pose proof (well_numbered_wf _ Hnum) as Hwf.
  destruct (shape_found _ _ _ Hshape) as [nd [Hf Hs]].
  rewrite <- (with_graph_id w) at 1. rewrite <- (app_nil_r (graph w)) at 1.
  set (g := graph w) in *. set (k := List.length g).
  set (h := (H + 2) / 3). set (wd := (W + 2) / 3).
  pose (n0 := mkNode (k + 0) (AveragePooling2D (5, 5) (3, 3) Same) [inputs]
                [N; Some h; Some wd; Some C]).
  pose (n1 := mkNode (k + 1) (Conv2D 128 (1, 1) (1, 1) Valid) [k + 0]
                [N; Some h; Some wd; Some 128]).
  pose (n2 := mkNode (k + 2) Flatten [k + 1] [N; Some (h * (wd * 128))]).
  pose (n3 := mkNode (k + 3) (Dense 1024) [k + 2] [N; Some 1024]).
  pose (n4 := mkNode (k + 4) (Dropout 0.3 false) [k + 3] [N; Some 1024]).
  assert (F0 : find_node (g ++ [n0]) (k + 0) = Some n0) by find_appended Hwf.
  assert (F1 : find_node (g ++ [n0; n1]) (k + 1) = Some n1) by find_appended Hwf.
  assert (F2 : find_node (g ++ [n0; n1; n2]) (k + 2) = Some n2) by find_appended Hwf.
  assert (F3 : find_node (g ++ [n0; n1; n2; n3]) (k + 3) = Some n3) by find_appended Hwf.
  assert (F4 : find_node (g ++ [n0; n1; n2; n3; n4]) (k + 4) = Some n4) by find_appended Hwf.
  unfold GoogLeNet.auxiliary.
  refine (eq_trans (bind_ok _ _ _ _ _
    (unary_layer_next w g [] inputs nd _ (fun s => pooling_shape s (5, 5) (3, 3) Same)
       [N; Some h; Some wd; Some C] 0 eq_refl (find_node_old _ _ _ _ Hf) _)) _).
  { rewrite Hs. unfold pooling_shape, window_shape, conv_output_length.
    cbn [nth_error fst snd]. change (3 =? 0) with false. cbv iota.
    replace (H + 3 - 1) with (H + 2) by lia. replace (W + 3 - 1) with (W + 2) by lia.
    reflexivity. }
  refine (eq_trans (bind_ok _ _ _ _ _
    (unary_layer_next w g [n0] (k + 0) n0 _
       (fun s => conv2d_shape s 128 (1, 1) (1, 1) Valid)
       [N; Some h; Some wd; Some 128] 1 eq_refl F0 _)) _).
  { unfold n0, conv2d_shape, window_shape, conv_output_length. cbn [n_shape nth_error fst snd].
    change (1 =? 0) with false. cbv iota.
    unfold h, wd. rewrite !ceil_third_pos by assumption. cbn [result_bind].
    rewrite !Nat.div_1_r.
    replace ((H + 2) / 3 - 1 + 1) with ((H + 2) / 3)
      by (pose proof (ceil_third_pos H HH) as E; apply Nat.ltb_ge in E; lia).
    replace ((W + 2) / 3 - 1 + 1) with ((W + 2) / 3)
      by (pose proof (ceil_third_pos W HW) as E; apply Nat.ltb_ge in E; lia).
    reflexivity. }
  refine (eq_trans (bind_ok _ _ _ _ _
    (unary_layer_next w g [n0; n1] (k + 1) n1 _ flatten_shape
       [N; Some (h * (wd * 128))] 2 eq_refl F1 _)) _).
  { unfold n1, flatten_shape. cbn [n_shape dims_product]. rewrite Nat.mul_1_r. reflexivity. }
  refine (eq_trans (bind_ok _ _ _ _ _
    (unary_layer_next w g [n0; n1; n2] (k + 2) n2 _ (fun s => dense_shape s 1024)
       [N; Some 1024] 3 eq_refl F2 eq_refl)) _).
  refine (eq_trans (bind_ok _ _ _ _ _
    (unary_layer_next w g [n0; n1; n2; n3] (k + 3) n3 (Dropout 0.3 false) Ok
       [N; Some 1024] 4 eq_refl F3 eq_refl)) _).
  refine (eq_trans
    (unary_layer_next w g [n0; n1; n2; n3; n4] (k + 4) n4 _
       (fun s => dense_shape s (GoogLeNet.num_classes self))
       [N; Some (GoogLeNet.num_classes self)] 5 eq_refl F4 eq_refl) _).
  unfold auxiliary_nodes, n0, n1, n2, n3, n4. cbn [app].
  fold k. fold h. fold wd. rewrite !Nat.add_0_r. reflexivity.
Qed.

Lemma pool_length (d : Dim) : conv_output_length d 5 Same 3 = Ok (pooled d).
Proof.
  destruct d as [x|]; [|reflexivity]. unfold conv_output_length, pooled.
  change (3 =? 0) with false. cbv iota. cbn [option_map].
  replace (x + 3 - 1) with (x + 2) by lia. reflexivity.
Qed.

Lemma pointwise_length (d : Dim) :
  (forall x, d = Some x -> 1 <= x) ->
  conv_output_length (pooled d) 1 Valid 1 = Ok (pooled d).
Proof.
  intros Hd. destruct d as [x|]; [|reflexivity]. unfold conv_output_length, pooled.
  cbn [option_map]. change (1 =? 0) with false. cbv iota.
  rewrite (ceil_third_pos x (Hd x eq_refl)). rewrite Nat.div_1_r.
  pose proof (ceil_third_pos x (Hd x eq_refl)) as E. apply Nat.ltb_ge in E.
  do 2 f_equal. lia.
Qed.

(** X5.  [auxiliary] needs the height and the width of its input to be
    known.  When one of them is open, the pool, the convolution and flatten
    are still created, flatten has the shape [N; None], and the dense layer
    then raises ValueError: the call fails and leaves these three nodes in
    the graph. *)
Theorem auxiliary_needs_known_size (self : GoogLeNet.t) (w : World) (inputs : Tensor)
    (N H W : Dim) (C : nat) :
  well_numbered (graph w) = true ->
  option_map n_shape (find_node (graph w) inputs) = Some [N; H; W; Some C] ->
  H = None \/ W = None ->
  (forall x, H = Some x -> 1 <= x) ->
  (forall x, W = Some x -> 1 <= x) ->
  let k := List.length (graph w) in
  GoogLeNet.auxiliary self inputs w =
  (with_graph w
     (graph w ++
      [ mkNode k (AveragePooling2D (5, 5) (3, 3) Same) [inputs]
          [N; pooled H; pooled W; Some C];
        mkNode (k + 1) (Conv2D 128 (1, 1) (1, 1) Valid) [k]
          [N; pooled H; pooled W; Some 128];
        mkNode (k + 2) Flatten [k + 1] [N; None] ]),
   Raise ValueError).
Proof.
  intros Hnum Hshape Hunknown HH HW k.
  pose proof (well_numbered_wf _ Hnum) as Hwf.
  destruct (shape_found _ _ _ Hshape) as [nd [Hf Hs]].
  rewrite <- (with_graph_id w) at 1. rewrite <- (app_nil_r (graph w)) at 1.
  set (g := graph w) in *.
  pose (n0 := mkNode (k + 0) (AveragePooling2D (5, 5) (3, 3) Same) [inputs]
                [N; pooled H; pooled W; Some C]).
  pose (n1 := mkNode (k + 1) (Conv2D 128 (1, 1) (1, 1) Valid) [k + 0]
                [N; pooled H; pooled W; Some 128]).
  pose (n2 := mkNode (k + 2) Flatten [k + 1] [N; None]).
  assert (F0 : find_node (g ++ [n0]) (k + 0) = Some n0) by find_appended Hwf.
  assert (F1 : find_node (g ++ [n0; n1]) (k + 1) = Some n1) by find_appended Hwf.
  assert (F2 : find_node (g ++ [n0; n1; n2]) (k + 2) = Some n2) by find_appended Hwf.
  unfold GoogLeNet.auxiliary.
  refine (eq_trans (bind_ok _ _ _ _ _
    (unary_layer_next w g [] inputs nd _ (fun s => pooling_shape s (5, 5) (3, 3) Same)
       [N; pooled H; pooled W; Some C] 0 eq_refl (find_node_old _ _ _ _ Hf) _)) _).
  { rewrite Hs. unfold pooling_shape, window_shape. cbn [nth_error fst snd].
    rewrite !pool_length. reflexivity. }
  refine (eq_trans (bind_ok _ _ _ _ _
    (unary_layer_next w g [n0] (k + 0) n0 _
       (fun s => conv2d_shape s 128 (1, 1) (1, 1) Valid)
       [N; pooled H; pooled W; Some 128] 1 eq_refl F0 _)) _).
  { unfold n0, conv2d_shape, window_shape. cbn [n_shape nth_error fst snd].
    rewrite !pointwise_length by assumption. reflexivity. }
  refine (eq_trans (bind_ok _ _ _ _ _
    (unary_layer_next w g [n0; n1] (k + 1) n1 _ flatten_shape
       [N; None] 2 eq_refl F1 _)) _).
  { unfold n1, flatten_shape. cbn [n_shape]. do 2 f_equal.
    destruct Hunknown as [-> | ->]; [reflexivity|].
    destruct H as [x|]; reflexivity. }
  unfold tf_layers_dense.
  refine (eq_trans (bind_raise _ _ _ _ ValueError
    (bind_ok _ _ _ _ _ (shape_of_ok (with_graph w (g ++ [n0; n1; n2])) (k + 2) n2 F2))) _).
  unfold n0, n1, n2. rewrite !Nat.add_0_r. reflexivity.
Qed.

Lemma numbered_from_app (k : nat) (g l : Graph) :
  numbered_from k (g ++ l) = numbered_from k g && numbered_from (k + List.length g) l.
Proof.
  revert k. induction g as [|a g IH]; intros k; simpl.
  - rewrite Nat.add_0_r. reflexivity.
  - rewrite IH, andb_assoc. do 2 f_equal. lia.
Qed.

Lemma inception_nodes_numbered (k x : nat) (N H W : Dim) (C c11 c33r c33 c56r c56 pp : nat) :
  numbered_from k (inception_nodes k x N H W C c11 c33r c33 c56r c56 pp) = true.
Proof.
  unfold inception_nodes. cbn [numbered_from n_id].
  repeat (apply andb_true_iff; split; [apply Nat.eqb_eq; lia|]). reflexivity.
Qed.

(** X3.  Inception modules compose.  On an input of static shape
    [N; H; W; C], applying [inception] to the result of [inception]
    succeeds for all twelve sizes: sixteen nodes are appended in creation
    order, the second module reads the output of the first, whose channel
    count is the sum of its four paths, the result has shape
    [N; H; W; b11 + b33 + b56 + bpp], the graph stays numbered in creation
    order and nothing but the graph changes. *)
Theorem inception_modules_stack (w : World) (inputs : Tensor) (N H W : Dim) (C : nat)
    (a11 a33r a33 a56r a56 app b11 b33r b33 b56r b56 bpp : nat) :
  well_numbered (graph w) = true ->
  option_map n_shape (find_node (graph w) inputs) = Some [N; H; W; Some C] ->
  let k := List.length (graph w) in
  exists w',
    (x <- GoogLeNet.inception inputs a11 a33r a33 a56r a56 app ;;
     GoogLeNet.inception x b11 b33r b33 b56r b56 bpp) w = (w', Ok (k + 15)) /\
    graph w' =
      graph w
      ++ inception_nodes k inputs N H W C a11 a33r a33 a56r a56 app
      ++ inception_nodes (k + 8) (k + 7) N H W (a11 + a33 + a56 + app)
           b11 b33r b33 b56r b56 bpp /\
    layer_at (graph w') (k + 7) = Some (LInception a11 a33r a33 a56r a56 app, inputs) /\
    layer_at (graph w') (k + 15) = Some (LInception b11 b33r b33 b56r b56 bpp, k + 7) /\
    option_map n_shape (find_node (graph w') (k + 15)) =
      Some [N; H; W; Some (b11 + b33 + b56 + bpp)] /\
    well_numbered (graph w') = true /\
    (session_open w', store w', log w', stdout w') =
    (session_open w, store w, log w, stdout w).
Proof.
  intros Hnum Hshape k.
  pose proof (well_numbered_wf _ Hnum) as Hwf.
  destruct (shape_found _ _ _ Hshape) as [nd [Hf Hs]].
  pose proof (find_node_lt _ _ _ Hwf Hf) as Hlt.
  set (A := inception_nodes k inputs N H W C a11 a33r a33 a56r a56 app).
  set (B := inception_nodes (k + 8) (k + 7) N H W (a11 + a33 + a56 + app)
              b11 b33r b33 b56r b56 bpp).
  assert (HwfA : wf_graph (graph w ++ A)) by (apply inception_nodes_wf; exact Hwf).
  assert (HlenA : List.length (graph w ++ A) = k + 8)
    by (rewrite length_app; reflexivity).
  pose proof (inception_nodes_found (graph w) inputs N H W C a11 a33r a33 a56r a56 app Hwf)
    as HallA. cbv zeta in HallA. fold k in HallA. fold A in HallA.
  assert (HoutA : find_node (graph w ++ A) (k + 7) =
                  Some (mkNode (k + 7) (Concat 3) [k; k + 2; k + 4; k + 6]
                          [N; H; W; Some (a11 + a33 + a56 + app)])).
  { unfold A, inception_nodes in HallA. split_all HallA. assumption. }
  pose proof (inception_nodes_found (graph w ++ A) (k + 7) N H W (a11 + a33 + a56 + app)
                b11 b33r b33 b56r b56 bpp HwfA) as HallB.
  cbv zeta in HallB. rewrite HlenA in HallB. fold B in HallB.
  assert (HallA' : Forall (fun n => find_node ((graph w ++ A) ++ B) (n_id n) = Some n) A).
  { rewrite Forall_forall in HallA. apply Forall_forall. intros n Hn.
    apply find_node_old. apply HallA. exact Hn. }
  exists (with_graph w ((graph w ++ A) ++ B)).
  split.
  - rewrite (bind_ok _ _ _ _ _ (inception_run w inputs nd N H W C a11 a33r a33 a56r a56 app
                                   Hwf Hf Hs)).
    fold k. fold A.
    rewrite (inception_run (with_graph w (graph w ++ A)) (k + 7) _ N H W
               (a11 + a33 + a56 + app) b11 b33r b33 b56r b56 bpp HwfA HoutA eq_refl).
    rewrite with_graph_twice, with_graph_graph, HlenA. fold B.
    f_equal. f_equal. lia.
  - rewrite with_graph_graph.
    split; [rewrite <- app_assoc; reflexivity|].
    split; [apply (inception_nodes_read _ k inputs N H W C a11 a33r a33 a56r a56 app 0 Hlt
                     HallA')|].
    split.
    { replace (k + 15) with (k + 8 + 7) by lia.
      apply (inception_nodes_read _ (k + 8) (k + 7) N H W (a11 + a33 + a56 + app)
               b11 b33r b33 b56r b56 bpp 0 ltac:(lia) HallB). }
    split.
    { unfold B, inception_nodes in HallB |- *. split_all HallB.
      replace (k + 15) with (k + 8 + 7) by lia.
      match goal with E : find_node _ (k + 8 + 7) = Some _ |- _ => rewrite E end.
      reflexivity. }
    split; [|reflexivity].
    unfold well_numbered in *. rewrite !numbered_from_app, Hnum. cbn [andb Nat.add].
    rewrite HlenA. fold k. unfold A, B. rewrite !inception_nodes_numbered. reflexivity.
Qed.

End Construction_facts.

Section Graph_facts.

Context {L : Library} {D : ImageNet}.

Lemma result_mapM_length {A B} (f : A -> result B) (l : list A) (out : list B) :
  result_mapM f l = Ok out -> List.length out = List.length l.
Proof.
  revert out. induction l as [|x l IH]; intros out H; simpl in H.
  - injection H as <-. reflexivity.
  - destruct (f x) as [v|e]; [|discriminate]. simpl in H.
    destruct (result_mapM f l) as [vs|e]; [|discriminate]. simpl in H.
    injection H as <-. simpl. rewrite (IH vs eq_refl). reflexivity.
Qed.

(** X6.  The static shapes along the forward pass, for any number [n] of
    classes: 112x112x64 after the first convolution, 56x56 up to the second
    normalization, 28x28x192 before and 28x28x256, 28x28x480 after the
    inception modules 3a and 3b, 14x14 with 480, 512, 512, 512, 528 and 832
    channels around the modules 4a to 4e, 7x7x832 and 7x7x1024 around 5a
    and 5b, 1x1x1024 after the average pool, 1024 features, [n] logits.
    Each auxiliary classifier pools to 5x5, flattens to 3200 features and
    ends in [n] logits.  The cross entropy has one entry per example, loss
    and accuracy are scalars.  The graph has 108 nodes, numbered in
    creation order, and every node reads only older nodes. *)
Theorem forward_pass_shapes (lr : Q) (ne bs : Z) (n : nat) :
  nth_error (np_shape y_train) 1 = Some n ->
  let g := graph (fst (program lr ne bs initial_world)) in
  static_shapes g (map snd (snd (layers_to g linear))) =
    [ Some [None; Some 112; Some 112; Some 64];
      Some [None; Some 56; Some 56; Some 64];
      Some [None; Some 56; Some 56; Some 64];
      Some [None; Some 56; Some 56; Some 64];
      Some [None; Some 56; Some 56; Some 192];
      Some [None; Some 56; Some 56; Some 192];
      Some [None; Some 28; Some 28; Some 192];
      Some [None; Some 28; Some 28; Some 256];
      Some [None; Some 28; Some 28; Some 480];
      Some [None; Some 14; Some 14; Some 480];
      Some [None; Some 14; Some 14; Some 512];
      Some [None; Some 14; Some 14; Some 512];
      Some [None; Some 14; Some 14; Some 512];
      Some [None; Some 14; Some 14; Some 528];
      Some [None; Some 14; Some 14; Some 832];
      Some [None; Some 7; Some 7; Some 832];
      Some [None; Some 7; Some 7; Some 832];
      Some [None; Some 7; Some 7; Some 1024];
      Some [None; Some 1; Some 1; Some 1024];
      Some [None; Some 1024];
      Some [None; Some 1024];
      Some [None; Some n] ] /\
  static_shapes g (map snd (snd (walk_back 6 g auxiliary_1 []))) =
    [ Some [None; Some 5; Some 5; Some 512];
      Some [None; Some 5; Some 5; Some 128];
      Some [None; Some 3200];
      Some [None; Some 1024];
      Some [None; Some 1024];
      Some [None; Some n] ] /\
  static_shapes g (map snd (snd (walk_back 6 g auxiliary_2 []))) =
    [ Some [None; Some 5; Some 5; Some 528];
      Some [None; Some 5; Some 5; Some 128];
      Some [None; Some 3200];
      Some [None; Some 1024];
      Some [None; Some 1024];
      Some [None; Some n] ] /\
  static_shapes g [cross_entropy; loss; accuracy] = [Some [None]; Some []; Some []] /\
  List.length g = 108 /\
  well_numbered g = true /\
  inputs_are_older g = true.
Proof.
  intros Hn g.
  assert (Hg : g = model_graph n lr) by (apply (program_trace lr ne bs n Hn)).
  rewrite Hg. clear g Hg.
  repeat split; vm_compute; reflexivity.
Qed.

(** X7.  The initializer sets all 128 trainable variables of the graph
    (kernel and bias of 64 layers).  The training operation updates 116 of
    them, all of which are initialised; the other 12 are the kernels and
    biases of the convolution and the two dense layers of each auxiliary
    classifier.  A successful training step is the optimizer's update
    applied to 116 gradients, one for each of the 116 variables: the
    variables of the auxiliary classifiers keep their initial values for
    the whole run. *)
Theorem auxiliary_variables_are_never_trained (lr : Q) (ne bs : Z) (n : nat) :
  nth_error (np_shape y_train) 1 = Some n ->
  let w := fst (program lr ne bs initial_world) in
  let g := graph w in
  let initialized := initialized_variables g init in
  let minimized := minimized_variables g train in
  initialized = trainable_variables g /\
  List.length initialized = 128 /\
  List.length minimized = 116 /\
  forallb (fun v => var_mem v initialized) minimized = true /\
  filter (fun v => negb (var_mem v minimized)) initialized =
    [ (68, Kernel); (68, Bias); (70, Kernel); (70, Bias); (72, Kernel); (72, Bias);
      (74, Kernel); (74, Bias); (76, Kernel); (76, Bias); (78, Kernel); (78, Bias) ] /\
  map (fun i => option_map n_op (find_node g i)) [68; 70; 72; 74; 76; 78] =
    [ Some (Conv2D 128 (1, 1) (1, 1) Valid); Some (Dense 1024); Some (Dense n);
      Some (Conv2D 128 (1, 1) (1, 1) Valid); Some (Dense 1024); Some (Dense n) ] /\
  (forall ev values,
     In ev (log w) -> ev_fetches ev = [train] -> ev_outcome ev = Ok values ->
     exists grads,
       List.length grads = 116 /\
       apply_updates lr (combine grads minimized) (ev_before ev) = Ok (ev_after ev)).
Proof.
  intros Hn w g initialized minimized. unfold initialized, minimized.
  assert (Hg : g = model_graph n lr) by (apply (program_trace lr ne bs n Hn)).
  rewrite Hg. clear initialized minimized.
  split; [vm_compute; reflexivity|]. split; [vm_compute; reflexivity|].
  split; [vm_compute; reflexivity|]. split; [vm_compute; reflexivity|].
  split; [vm_compute; reflexivity|]. split; [vm_compute; reflexivity|].
  intros ev values Hin Hf Ho.
  pose proof (valid_event_ok _ _ _ (logged_event_valid lr ne bs n ev Hn Hin) Ho) as Hrun.
  rewrite Hf in Hrun.
  destruct (training_step n lr _ _ _ _ Hrun) as [_ [grads [Hgr Hup]]].
  exists grads. split.
  - apply result_mapM_length in Hgr.
    transitivity (List.length (layer_vars main_layers)); [exact Hgr | reflexivity].
  - assert (Hm : minimized_variables (model_graph n lr) train = layer_vars main_layers)
      by (vm_compute; reflexivity).
    rewrite Hm. exact Hup.
Qed.

(** A dropout node built with [training=False] hands its input on. *)
Lemma exec_dropout_identity (sub : Graph) (feed : Feed) (pre post : list Node)
    (n : Node) (rate : Q) (x : nat) (s0 : Store * Table) (st : Store) (tbl : Table) :
  exec sub feed (pre ++ n :: post) s0 = Ok (st, tbl) ->
  n_op n = Dropout rate false ->
  n_inputs n = [x] ->
  mem x (map n_id (n :: post)) = false ->
  mem (n_id n) (map n_id post) = false ->
  exists v, assoc tbl x = Some v /\ assoc tbl (n_id n) = Some v.
Proof.
  intros Hx Hop Hin Hx_new Hn_new.
  apply exec_app in Hx. destruct Hx as [[s1 t1] [_ Hx]].
  cbn [exec] in Hx. apply result_bind_ok in Hx. destruct Hx as [[s2 t2] [Hn Hpost]].
  unfold exec_node in Hn. rewrite Hin, Hop in Hn.
  cbn [result_mapM] in Hn. unfold table_get in Hn.
  destruct (assoc t1 x) as [v|] eqn:Hv; [|discriminate].
  cbn in Hn. injection Hn as <- <-.
  exists v.
  assert (Hne : x <> n_id n).
  { intros ->. cbn in Hx_new. rewrite Nat.eqb_refl in Hx_new. discriminate. }
  split.
  - rewrite (exec_assoc_frame _ _ _ _ _ _ _ x Hpost).
    + rewrite assoc_cons_other by congruence. exact Hv.
    + apply mem_false_not_in. cbn in Hx_new. apply orb_false_iff in Hx_new. apply Hx_new.
  - rewrite (exec_assoc_frame _ _ _ _ _ _ _ (n_id n) Hpost).
    + cbn. rewrite Nat.eqb_refl. reflexivity.
    + apply mem_false_not_in. exact Hn_new.
Qed.

Lemma evaluation_nodes_dropout (n : nat) (lr : Q) :
  prune (model_graph n lr) [loss; accuracy] =
  firstn 85 (prune (model_graph n lr) [loss; accuracy])
  ++ mkNode 97 (Dropout 0.4 false) [96] [None; Some 1024]
  :: skipn 86 (prune (model_graph n lr) [loss; accuracy]).
Proof. vm_compute. reflexivity. Qed.

Lemma evaluation_nodes_after_dropout (n : nat) (lr : Q) :
  mem 96 (map n_id (mkNode 97 (Dropout 0.4 false) [96] [None; Some 1024]
                    :: skipn 86 (prune (model_graph n lr) [loss; accuracy]))) = false /\
  mem 97 (map n_id (skipn 86 (prune (model_graph n lr) [loss; accuracy]))) = false.
Proof. split; vm_compute; reflexivity. Qed.

Lemma dropout_in_graph (n : nat) (lr : Q) :
  dropout_nodes (model_graph n lr) =
  [ mkNode 71 (Dropout 0.3 false) [70] [None; Some 1024];
    mkNode 77 (Dropout 0.3 false) [76] [None; Some 1024];
    mkNode 97 (Dropout 0.4 false) [96] [None; Some 1024] ] /\
  existsb (fun nd => n_id nd =? 97) (prune (model_graph n lr) [train]) = true.
Proof. split; vm_compute; reflexivity. Qed.

(** X8.  The three dropout layers of the graph (rates 0.3, 0.3 and 0.4)
    are built with [training=False], and such a node returns its input for
    every rate.  The dropout in front of the last dense layer is part of
    what a training step differentiates, unchanged; and in every successful
    evaluation the value after that dropout is the value before it. *)
Theorem dropout_is_never_applied (lr : Q) (ne bs : Z) (n : nat) :
  nth_error (np_shape y_train) 1 = Some n ->
  let w := fst (program lr ne bs initial_world) in
  let g := graph w in
  dropout_nodes g =
    [ mkNode 71 (Dropout 0.3 false) [70] [None; Some 1024];
      mkNode 77 (Dropout 0.3 false) [76] [None; Some 1024];
      mkNode 97 (Dropout 0.4 false) [96] [None; Some 1024] ] /\
  (forall rate x, compute (Dropout rate false) [x] = Ok x) /\
  existsb (fun nd => n_id nd =? 97) (prune g [train]) = true /\
  (forall ev values,
     In ev (log w) -> ev_fetches ev = [loss; accuracy] -> ev_outcome ev = Ok values ->
     exists tbl v,
       exec (prune g [loss; accuracy]) (ev_feed ev) (prune g [loss; accuracy])
            (ev_before ev, []) = Ok (ev_after ev, tbl) /\
       values = [assoc tbl loss; assoc tbl accuracy] /\
       assoc tbl 96 = Some v /\ assoc tbl 97 = Some v).
Proof.
  intros Hn w g.
  assert (Hg : g = model_graph n lr) by (apply (program_trace lr ne bs n Hn)).
  rewrite Hg.
  destruct (dropout_in_graph n lr) as [Hd Ht].
  split; [exact Hd|]. split; [reflexivity|]. split; [exact Ht|].
  intros ev values Hin Hf Ho.
  pose proof (valid_event_ok _ _ _ (logged_event_valid lr ne bs n ev Hn Hin) Ho) as Hrun.
  rewrite Hf in Hrun.
  destruct (evaluation_table n lr _ _ _ _ Hrun) as [_ [tbl [Hx [Hv _]]]].
  destruct (evaluation_nodes_after_dropout n lr) as [H96 H97].
  pose proof Hx as Hx'. rewrite (evaluation_nodes_dropout n lr) in Hx' at 2.
  destruct (exec_dropout_identity _ _ _ _ _ 0.4%Q 96 _ _ _ Hx' eq_refl eq_refl H96 H97)
    as [v [Ha Hb]].
  exists tbl, v. auto.
Qed.

End Graph_facts.

(* ================================================================== *)
(** ** Beyond the schedule: batches, edge cases of the loop, what is
       printed, the session                                             *)
(* ================================================================== *)

Lemma firstn_add {A} (a c : nat) (l : list A) :
  firstn (a + c) l = firstn a l ++ firstn c (skipn a l).
Proof.
  revert l. induction a as [|a IH]; intros l; [reflexivity|].
  destruct l as [|x l]; simpl; [destruct c; reflexivity|].
  rewrite IH. reflexivity.
Qed.

Lemma chunks_cover {A} (d : list A) (b total rs m : nat) :
  List.concat (map (fun k => take_rows rs (Nat.min (k * b) total)
                                       (Nat.min ((k + 1) * b) total) d)
                   (seq 0 m)) =
  firstn (Nat.min (m * b) total * rs) d.
Proof.
  induction m as [|m IH]; [reflexivity|].
  rewrite seq_S, map_app, concat_app, IH. cbn [map List.concat Nat.add].
  rewrite app_nil_r. unfold take_rows.
  replace (m + 1) with (S m) by lia.
  assert (Hle : Nat.min (m * b) total <= Nat.min (S m * b) total)
    by (rewrite Nat.mul_succ_l; lia).
  revert Hle. generalize (Nat.min (m * b) total) (Nat.min (S m * b) total).
  intros lo hi Hle.
  replace (hi * rs) with (lo * rs + (hi - lo) * rs) by nia.
  apply eq_sym, firstn_add.
Qed.

Lemma chunk_rows_sum (b total m : nat) :
  list_sum (map (fun k => Nat.min ((k + 1) * b) total - Nat.min (k * b) total) (seq 0 m)) =
  Nat.min (m * b) total.
Proof.
  induction m as [|m IH]; [reflexivity|].
  rewrite seq_S, map_app, list_sum_app, IH. cbn [map list_sum Nat.add].
  replace (m + 1) with (S m) by lia. rewrite Nat.mul_succ_l.
  unfold list_sum. cbn [fold_right]. lia.
Qed.

Lemma batches_reach_total (total b : nat) :
  0 < b -> Nat.min ((total + b - 1) / b * b) total = total.
Proof.
  intros Hb. apply Nat.min_r.
  pose proof (Nat.div_mod_eq (total + b - 1) b) as Hd.
  pose proof (Nat.mod_upper_bound (total + b - 1) b ltac:(lia)) as Hm.
  rewrite (Nat.mul_comm _ b). lia.
Qed.

Section Loop_edge_facts.

Context {L : Library} {D : ImageNet}.

Lemma batch_of_float (a : Array) (rows : nat) (inner : list nat) (d : list float32)
    (bs : Z) (k : nat) :
  a = NdFloat (rows :: inner) d ->
  (1 <= bs)%Z ->
  batch_of a (Z.of_nat k * bs) bs =
  NdFloat ((Nat.min ((k + 1) * Z.to_nat bs) rows - Nat.min (k * Z.to_nat bs) rows) :: inner)
          (take_rows (row_size (rows :: inner))
                     (Nat.min (k * Z.to_nat bs) rows)
                     (Nat.min ((k + 1) * Z.to_nat bs) rows) d).
Proof.
  intros -> Hb. unfold batch_of, nd_slice. cbn [np_shape].
  rewrite !slice_bound_nonneg by nia.
  replace (Z.to_nat (Z.of_nat k * bs)) with (k * Z.to_nat bs) by nia.
  replace (Z.to_nat (Z.of_nat k * bs + bs)) with ((k + 1) * Z.to_nat bs) by nia.
  reflexivity.
Qed.

(** The batches the loop of [run] cuts out of an array with as many rows
    as [X_train]. *)
Lemma run_batches (a : Array) (bs : Z) (total : nat) (innerX inner : list nat)
    (d : list float32) :
  np_shape X_train = total :: innerX ->
  a = NdFloat (total :: inner) d ->
  (1 <= bs)%Z ->
  let batches := map (fun start => batch_of a start bs) (run_starts bs) in
  List.concat (map float_data batches) = firstn (total * row_size (total :: inner)) d /\
  map array_rows batches =
    map (fun k => Nat.min ((k + 1) * Z.to_nat bs) total - Nat.min (k * Z.to_nat bs) total)
        (seq 0 ((total + Z.to_nat bs - 1) / Z.to_nat bs)) /\
  Forall (fun b => tl (np_shape b) = inner /\ 1 <= array_rows b) batches.
Proof.
  intros Hshape Ha Hb batches.
  assert (Hbatches : batches =
            map (fun k => NdFloat
                   ((Nat.min ((k + 1) * Z.to_nat bs) total - Nat.min (k * Z.to_nat bs) total)
                      :: inner)
                   (take_rows (row_size (total :: inner))
                      (Nat.min (k * Z.to_nat bs) total)
                      (Nat.min ((k + 1) * Z.to_nat bs) total) d))
                (seq 0 ((total + Z.to_nat bs - 1) / Z.to_nat bs))).
  { unfold batches. rewrite (run_starts_value total innerX bs Hshape Hb).
    unfold batch_starts. rewrite map_map. apply map_ext. intros k.
    apply (batch_of_float a total inner d bs k Ha Hb). }
  split; [|split].
  - rewrite Hbatches, map_map. cbn [float_data].
    rewrite chunks_cover, batches_reach_total by lia. reflexivity.
  - rewrite Hbatches, map_map. unfold array_rows. cbn [np_shape hd]. reflexivity.
  - rewrite Hbatches. apply Forall_forall. intros b Hin.
    apply in_map_iff in Hin. destruct Hin as [k [<- Hk]].
    apply in_seq in Hk. unfold array_rows. cbn [np_shape tl hd].
    split; [reflexivity|].
    assert (Hlt : k * Z.to_nat bs < total).
    { pose proof (Nat.Div0.mul_div_le (total + Z.to_nat bs - 1) (Z.to_nat bs)) as Hd.
      assert (Hk' : S k <= (total + Z.to_nat bs - 1) / Z.to_nat bs) by lia.
      apply (Nat.mul_le_mono_l _ _ (Z.to_nat bs)) in Hk'. nia. }
    nia.
Qed.

Lemma training_feeds_pairs (X y : Tensor) (bs : Z) (starts : list Z) :
  map (training_feed X y bs) starts =
  map2 (fun batch_X batch_y => [(X, batch_X); (y, batch_y)])
       (map (fun start => batch_of X_train start bs) starts)
       (map (fun start => batch_of y_train start bs) starts).
Proof.
  induction starts as [|s l IH]; [reflexivity|].
  cbn [map map2]. rewrite IH. reflexivity.
Qed.

(** X9.  With [batch_size >= 1], and [X_train] and [y_train] well-formed
    arrays with the same number [total] of rows, the batches of one epoch
    are what the training calls are fed, pair by pair; the image batches
    put end to end are [X_train] and the label batches are [y_train], so
    every example is used exactly once per epoch and in order; an image
    batch and its label batch have the same number of rows; the rows add up
    to [total]; and every batch has between 1 and [batch_size] rows. *)
Theorem batches_partition_training_set (bs : Z) (total : nat) (inner_X inner_y : list nat)
    (data_X data_y : list float32) :
  X_train = NdFloat (total :: inner_X) data_X ->
  y_train = NdFloat (total :: inner_y) data_y ->
  List.length data_X = total * row_size (total :: inner_X) ->
  List.length data_y = total * row_size (total :: inner_y) ->
  (1 <= bs)%Z ->
  let batches_X := map (fun start => batch_of X_train start bs) (run_starts bs) in
  let batches_y := map (fun start => batch_of y_train start bs) (run_starts bs) in
  map (training_feed 0 1 bs) (run_starts bs) =
    map2 (fun batch_X batch_y => [(0, batch_X); (1, batch_y)]) batches_X batches_y /\
  List.concat (map float_data batches_X) = data_X /\
  List.concat (map float_data batches_y) = data_y /\
  map array_rows batches_X = map array_rows batches_y /\
  list_sum (map array_rows batches_X) = total /\
  Forall (fun b => tl (np_shape b) = inner_X /\ 1 <= array_rows b <= Z.to_nat bs) batches_X.
Proof.
  intros HX Hy HlX Hly Hb batches_X batches_y.
  assert (Hshape : np_shape X_train = total :: inner_X) by (rewrite HX; reflexivity).
  destruct (run_batches X_train bs total inner_X inner_X data_X Hshape HX Hb)
    as [HcX [HrX HfX]].
  destruct (run_batches y_train bs total inner_X inner_y data_y Hshape Hy Hb)
    as [Hcy [Hry _]].
  fold batches_X in HcX, HrX, HfX. fold batches_y in Hcy, Hry.
  split; [apply training_feeds_pairs|].
  split; [rewrite HcX, <- HlX; apply firstn_all|].
  split; [rewrite Hcy, <- Hly; apply firstn_all|].
  split; [rewrite HrX, Hry; reflexivity|].
  split.
  - rewrite HrX, chunk_rows_sum, batches_reach_total by lia. reflexivity.
  - rewrite Forall_forall in HfX. apply Forall_forall. intros b Hin.
    destruct (HfX b Hin) as [Ht Hpos]. split; [exact Ht|]. split; [exact Hpos|].
    assert (Hin' : In (array_rows b) (map array_rows batches_X)) by (apply in_map; exact Hin).
    rewrite HrX in Hin'. apply in_map_iff in Hin'. destruct Hin' as [k [<- _]].
    rewrite !Nat.mul_add_distr_r. lia.
Qed.

Lemma trace_prefix {A} (p : list Call) (evs : list Event) (r : result A) :
  trace_ok p evs r -> exists rest, p = map call_of evs ++ rest.
Proof.
  destruct r as [a|e]; simpl.
  - intros [H _]. exists []. rewrite app_nil_r. symmetry. exact H.
  - intros [H _]. exact H.
Qed.

Lemma in_prefix_calls (p rest : list Call) (evs : list Event) (ev : Event) :
  p = map call_of evs ++ rest -> In ev evs -> In (call_of ev) p.
Proof.
  intros -> Hin. apply in_or_app. left. apply in_map. exact Hin.
Qed.

(** [range(0, total, batch_size)] is empty for a negative step. *)
Lemma run_starts_negative (bs : Z) : (bs < 0)%Z -> run_starts bs = [].
Proof.
  intros Hb. unfold run_starts, py_len.
  destruct (np_shape X_train) as [|total inner]; [reflexivity|].
  unfold py_range, range_length.
  assert (H0 : (bs =? 0)%Z = false) by (apply Z.eqb_neq; lia).
  assert (H1 : (0 <? bs)%Z = false) by (apply Z.ltb_ge; lia).
  assert (H2 : (Z.of_nat total <? 0)%Z = false) by (apply Z.ltb_ge; lia).
  rewrite H0, H1, H2. reflexivity.
Qed.

Lemma run_starts_empty (bs : Z) (inner : list nat) :
  np_shape X_train = 0 :: inner -> run_starts bs = [].
Proof.
  intros Hs. unfold run_starts, py_len. rewrite Hs.
  unfold py_range, range_length. destruct (bs =? 0)%Z; [reflexivity|].
  change (Z.of_nat 0) with 0%Z. change (0 <? 0)%Z with false.
  destruct (0 <? bs)%Z; reflexivity.
Qed.

Lemma chained_before (g : Graph) (st st' : Store) (pre : list Event) (ev : Event)
    (post : list Event) :
  chained g st (pre ++ ev :: post) st' ->
  exists mid, chained g st pre mid /\ ev_before ev = mid.
Proof.
  revert st. induction pre as [|e pre IH]; intros st H; simpl in H.
  - destruct H as [Hb _]. exists st. split; [reflexivity | exact Hb].
  - destruct H as [Hb [Hv Hc]]. destruct (IH _ Hc) as [mid [Hm He]].
    exists mid. split; [|exact He]. simpl. auto.
Qed.


Lemma concat_repeat_single {A} (x : A) (k : nat) :
  List.concat (repeat [x] k) = repeat x k.
Proof. induction k as [|k IH]; simpl; [reflexivity|]. rewrite IH. reflexivity. Qed.

(** A chain of evaluations never moves the variables. *)
Lemma chained_evaluations (n : nat) (lr : Q) (st st' : Store) (evs : list Event) :
  chained (model_graph n lr) st evs st' ->
  (forall ev, In ev evs -> ev_fetches ev = [loss; accuracy]) ->
  forall ev, In ev evs -> ev_before ev = st /\ ev_after ev = st.
Proof.
  revert st. induction evs as [|e evs IH]; intros st Hc Hf ev Hin; [destruct Hin|].
  simpl in Hc. destruct Hc as [Hb [Hv Hc]].
  assert (Ha : ev_after e = st).
  { rewrite <- Hb. apply (valid_evaluation_frame n lr e Hv). apply Hf. left. reflexivity. }
  destruct Hin as [<- | Hin]; [split; assumption|].
  rewrite Ha in Hc. apply (IH st Hc); [|exact Hin].
  intros ev' Hin'. apply Hf. right. exact Hin'.
Qed.

(** X10.  When [num_epochs <= 0], or [X_train] has [total] images and
    either [batch_size < 0] or [total = 0] with a batch size other than 0,
    the run trains nothing and still evaluates.  It returns exactly when
    none of its [sess.run] calls raises, and then its calls are the
    initializer, one evaluation on the validation set for each epoch and
    the evaluation on the test set; a run in which a call raises made a
    prefix of these.  No call runs the training operation, and every
    evaluation sees and leaves the variables as the initializer left
    them.  (With epochs to run, a batch size of 0 or an [X_train] without
    a length raises before any evaluation.) *)
Theorem untrained_model_is_evaluated (lr : Q) (ne bs : Z) (n total : nat)
    (inner : list nat) :
  nth_error (np_shape y_train) 1 = Some n ->
  (ne <= 0)%Z \/
  (np_shape X_train = total :: inner /\ ((bs < 0)%Z \/ (total = 0 /\ bs <> 0%Z))) ->
  let w := fst (program lr ne bs initial_world) in
  let r := snd (program lr ne bs initial_world) in
  let plan :=
    ([init], [])
    :: repeat ([loss; accuracy], validation_feed 0 1) (Z.to_nat ne)
    ++ [([loss; accuracy], test_feed 0 1)] in
  (r = Ok tt <-> forallb event_ok (log w) = true) /\
  (r = Ok tt -> map call_of (log w) = plan) /\
  (exists rest, plan = map call_of (log w) ++ rest) /\
  (forall ev, In ev (log w) -> ev_fetches ev <> [train]) /\
  (forall first rest,
     log w = first :: rest ->
     forall ev, In ev rest -> ev_before ev = ev_after first /\ ev_after ev = ev_after first).
Proof.
  intros Hn Hcase w r plan.
  assert (Hret : r = Ok tt <-> forallb event_ok (log w) = true).
  { apply (program_returns lr ne bs n Hn).
    destruct Hcase as [Hne | [HX Hb]]; [left; exact Hne|].
    right. split; [lia|]. eauto. }
  destruct (program_trace lr ne bs n Hn) as [Hg [Hc Ht]].
  fold w in Hg, Hc, Ht. fold r in Ht.
  assert (Hplan : schedule 0 1 bs (run_starts bs) (Z.to_nat ne) = plan).
  { unfold schedule, plan. f_equal. f_equal.
    destruct Hcase as [Hne | Hst].
    - replace (Z.to_nat ne) with 0 by lia. reflexivity.
    - assert (Hs : run_starts bs = []).
      { destruct Hst as [HX [Hb | [H0 _]]]; [apply run_starts_negative; exact Hb|].
        subst total. apply (run_starts_empty bs inner HX). }
      rewrite Hs. unfold epoch_calls. cbn [map app]. apply concat_repeat_single. }
  rewrite Hplan in Ht.
  destruct (trace_prefix _ _ _ Ht) as [rest Hrest].
  assert (Hcalls : forall ev, In ev (log w) -> In (call_of ev) plan).
  { intros ev Hin. apply (in_prefix_calls plan rest (log w) ev Hrest Hin). }
  assert (Hplan_in : forall c, In c plan ->
            c = ([init], []) \/ fst c = [loss; accuracy]).
  { intros c Hin. unfold plan in Hin. destruct Hin as [<- | Hin]; [left; reflexivity|].
    right. apply in_app_or in Hin. destruct Hin as [Hin | [<- | []]]; [|reflexivity].
    apply repeat_spec in Hin. subst c. reflexivity. }
  split; [exact Hret|]. split; [|split; [|split]].
  - intros Hr. rewrite Hr in Ht. apply Ht.
  - exists rest. exact Hrest.
  - intros ev Hin Hf. destruct (Hplan_in _ (Hcalls ev Hin)) as [Hc0 | Hc0].
    + unfold call_of in Hc0. injection Hc0 as Hc0 _. rewrite Hf in Hc0. discriminate.
    + unfold call_of in Hc0. simpl in Hc0. rewrite Hf in Hc0. discriminate.
  - intros first rest' Hlog ev Hin.
    rewrite Hlog in Hc, Hrest. simpl in Hc. destruct Hc as [_ [_ Hc]].
    apply (chained_evaluations n lr _ _ rest' Hc); [|exact Hin].
    intros ev' Hin'.
    (* the calls after the first are evaluations *)
    unfold plan in Hrest. apply (f_equal (@tl Call)) in Hrest.
    cbn [tl map app] in Hrest.
    assert (Hin2 : In (call_of ev')
              (repeat ([loss; accuracy], validation_feed 0 1) (Z.to_nat ne)
               ++ [([loss; accuracy], test_feed 0 1)])).
    { rewrite Hrest. apply in_or_app. left. apply in_map. exact Hin'. }
    apply in_app_or in Hin2. destruct Hin2 as [Hin2 | [Hin2 | []]].
    + apply repeat_spec in Hin2. unfold call_of in Hin2. injection Hin2 as -> _. reflexivity.
    + unfold call_of in Hin2. injection Hin2 as <- _. reflexivity.
Qed.

Lemma range_epochs_cons (ne : Z) :
  (1 <= ne)%Z ->
  exists rest, py_range 0 ne 1 = Ok (0%Z :: rest).
Proof.
  intros H. rewrite range_epochs.
  destruct (Z.to_nat ne) as [|k] eqn:Hk; [lia|].
  simpl. eexists. reflexivity.
Qed.

Lemma train_epoch_zero_batch (self : GoogLeNet.t) (tr lo ac : Tensor) (i : Z)
    (total : nat) (inner : list nat) (w : World) :
  np_shape X_train = total :: inner ->
  GoogLeNet.batch_size self = 0%Z ->
  train_epoch self tr lo ac i w = (w, Raise ValueError).
Proof.
  intros HX Hb. unfold train_epoch, py_len. rewrite HX, Hb. reflexivity.
Qed.

(** X11.  With [batch_size = 0] and at least one epoch, the only [sess.run]
    is the initializer.  If it succeeds the run prints its first two lines
    and then raises ValueError at [range(0, len(X_train), 0)]; if it fails
    the run ends with its error and prints nothing.  Either way nothing is
    trained or evaluated and the session is left open. *)
Theorem zero_batch_size_raises (lr : Q) (ne : Z) (n total : nat) (inner : list nat) :
  nth_error (np_shape y_train) 1 = Some n ->
  np_shape X_train = total :: inner ->
  (1 <= ne)%Z ->
  let w := fst (program lr ne 0 initial_world) in
  let r := snd (program lr ne 0 initial_world) in
  exists ev,
    log w = [ev] /\ ev_fetches ev = [init] /\
    r = match ev_outcome ev with
        | Ok _ => Raise ValueError
        | Raise e => Raise e
        end /\
    stdout w = match ev_outcome ev with
               | Ok _ => [MsgBlank; MsgTraining]
               | Raise _ => []
               end /\
    store w = ev_after ev /\
    session_open w = true.
Proof.
  intros Hn HX Hne w r. unfold w, r.
  rewrite (program_unfold lr ne 0 n Hn).
  unfold session_part. cbn [GoogLeNet.num_epochs].
  destruct (range_epochs_cons ne Hne) as [rest Hrange]. rewrite Hrange.
  destruct (run_fetches (model_graph n lr) [init] [] empty_store) as [[st1 values]|e]
    eqn:Hrun.
  - assert (H1 : sess_run tt [init] [] (built_world n lr) =
                 (mkWorld (model_graph n lr) true st1
                    [mkEvent [init] [] empty_store st1 (Ok values)] [], Ok values)).
    { unfold sess_run, built_world. cbn [session_open graph store log stdout].
      rewrite Hrun. reflexivity. }
    rewrite (bind_ok _ _ _ _ _ H1).
    rewrite (bind_ok (print MsgBlank) _ _ _ tt eq_refl).
    rewrite (bind_ok (print MsgTraining) _ _ _ tt eq_refl).
    rewrite bind_lift_ok.
    cbn [for_each].
    erewrite (bind_raise (bind (train_epoch _ _ _ _ _) _));
      [|apply bind_raise;
        apply (train_epoch_zero_batch (GoogLeNet.mk n 0 1 lr ne 0) _ _ _ _ total inner _
                 HX eq_refl)].
    eexists. cbn [fst snd log stdout store session_open graph app
                  ev_fetches ev_outcome ev_after].
    repeat split.
  - assert (H1 : sess_run tt [init] [] (built_world n lr) =
                 (mkWorld (model_graph n lr) true
                    (run_fetches_leaves (model_graph n lr) [init] [] empty_store)
                    [mkEvent [init] [] empty_store
                       (run_fetches_leaves (model_graph n lr) [init] [] empty_store)
                       (Raise e)] [], Raise e)).
    { unfold sess_run, built_world. cbn [session_open graph store log stdout].
      rewrite Hrun. reflexivity. }
    rewrite (bind_raise _ _ _ _ _ H1).
    eexists. cbn [fst snd log stdout store session_open graph app
                  ev_fetches ev_outcome ev_after].
    repeat split.
Qed.

Lemma feed_compatible_known (s a : list nat) :
  feed_compatible (map Some s) a = eqb_shape a s.
Proof.
  revert a. induction s as [|d s IH]; intros [|x a]; simpl; try reflexivity.
  rewrite IH, (Nat.eqb_sym d x). reflexivity.
Qed.

Lemma batch_of_shape (a : Array) (total : nat) (inner : list nat) (start size : Z) :
  np_shape a = total :: inner ->
  exists k, np_shape (batch_of a start size) = k :: inner.
Proof.
  intros Hs. unfold batch_of, nd_slice. rewrite Hs.
  destruct a as [s d|s d]; simpl; eexists; reflexivity.
Qed.

Lemma train_is_a_node (n : nat) (lr : Q) :
  forallb (fun t => match find_node (model_graph n lr) t with
                    | Some _ => true | None => false end) [train] = true.
Proof. vm_compute. reflexivity. Qed.

Lemma training_nodes_head (n : nat) (lr : Q) :
  prune (model_graph n lr) [train] =
  mkNode 0 (Placeholder "image") [] [None; Some 224; Some 224; Some 3]
  :: tl (prune (model_graph n lr) [train]).
Proof. vm_compute. reflexivity. Qed.

Lemma exec_rejects_feed (sub rest : Graph) (feed : Feed) (state : Store * Table)
    (name : string) (id : nat) (shape : Shape) (v : Array) :
  assoc feed id = Some v ->
  feed_compatible shape (np_shape v) = false ->
  exec sub feed (mkNode id (Placeholder name) [] shape :: rest) state = Raise ValueError.
Proof.
  intros Hv Hc. destruct state as [st tbl]. cbn [exec]. unfold exec_node.
  cbn [n_inputs result_mapM result_bind n_op n_id n_shape].
  rewrite Hv, Hc. reflexivity.
Qed.

(** A training step whose image batch does not fit the placeholder [X]
    stops at the placeholder. *)
Lemma training_step_rejects_feed (n : nat) (lr : Q) (feed : Feed) (st : Store) (v : Array) :
  assoc feed 0 = Some v ->
  feed_compatible [None; Some 224; Some 224; Some 3] (np_shape v) = false ->
  run_fetches (model_graph n lr) [train] feed st = Raise ValueError.
Proof.
  intros Hv Hc. unfold run_fetches. rewrite train_is_a_node. cbv zeta.
  rewrite (training_nodes_head n lr) at 2.
  rewrite (exec_rejects_feed _ _ feed (st, []) "image" 0 _ v Hv Hc). reflexivity.
Qed.

(** Nothing has been written at that point. *)
Lemma exec_rejects_feed_leaves (sub rest : Graph) (feed : Feed) (st : Store) (tbl : Table)
    (name : string) (id : nat) (shape : Shape) (v : Array) :
  assoc feed id = Some v ->
  feed_compatible shape (np_shape v) = false ->
  exec_leaves sub feed (mkNode id (Placeholder name) [] shape :: rest) (st, tbl) = st.
Proof.
  intros Hv Hc. cbn [exec_leaves].
  assert (Hx : exec_node sub feed (mkNode id (Placeholder name) [] shape) (st, tbl)
               = Raise ValueError).
  { unfold exec_node. cbn [n_inputs result_mapM result_bind n_op n_id n_shape].
    rewrite Hv, Hc. reflexivity. }
  rewrite Hx. reflexivity.
Qed.

Lemma training_step_rejects_feed_leaves (n : nat) (lr : Q) (feed : Feed) (st : Store)
    (v : Array) :
  assoc feed 0 = Some v ->
  feed_compatible [None; Some 224; Some 224; Some 3] (np_shape v) = false ->
  run_fetches_leaves (model_graph n lr) [train] feed st = st.
Proof.
  intros Hv Hc. unfold run_fetches_leaves. rewrite train_is_a_node. cbv zeta.
  rewrite (training_nodes_head n lr) at 2.
  apply (exec_rejects_feed_leaves _ _ feed st [] "image" 0 _ v Hv Hc).
Qed.

Lemma schedule_training_calls (X y : Tensor) (bs : Z) (starts : list Z) (k : nat) (c : Call) :
  In c (schedule X y bs starts k) -> fst c = [train] ->
  exists start, c = ([train], training_feed X y bs start).
Proof.
  unfold schedule. intros [<- | Hin] Hf; [discriminate|].
  apply in_app_or in Hin. destruct Hin as [Hin | [<- | []]]; [|discriminate].
  apply in_concat in Hin. destruct Hin as [l [Hl Hc]].
  apply repeat_spec in Hl. subst l. unfold epoch_calls in Hc.
  apply in_app_or in Hc. destruct Hc as [Hc | [<- | []]]; [|discriminate].
  apply in_map_iff in Hc. destruct Hc as [start [<- _]]. exists start. reflexivity.
Qed.

(** X12.  When the training images are not 224 x 224 x 3, every training
    call stops at the placeholder [X] with ValueError and changes no
    variable; it is the last call of the run, whose result is that error.
    So with at least one epoch, one image and a batch size of at least 1,
    the run cannot succeed. *)
Theorem wrong_image_size_stops_training (lr : Q) (ne bs : Z) (n total : nat)
    (inner : list nat) :
  nth_error (np_shape y_train) 1 = Some n ->
  np_shape X_train = total :: inner ->
  eqb_shape inner [224; 224; 3] = false ->
  let w := fst (program lr ne bs initial_world) in
  let r := snd (program lr ne bs initial_world) in
  (forall ev, In ev (log w) -> ev_fetches ev = [train] ->
     ev_outcome ev = Raise ValueError /\ ev_after ev = ev_before ev /\
     r = Raise ValueError /\ exists pre, log w = pre ++ [ev]) /\
  ((1 <= ne)%Z -> (1 <= bs)%Z -> 1 <= total -> r <> Ok tt).
Proof.
  intros Hn HX Hinner w r.
  destruct (program_trace lr ne bs n Hn) as [Hg [Hc Ht]].
  fold w in Hg, Hc, Ht. fold r in Ht.
  destruct (trace_prefix _ _ _ Ht) as [rest Hrest].
  assert (Hfail : forall ev, In ev (log w) -> ev_fetches ev = [train] ->
            ev_outcome ev = Raise ValueError /\ ev_after ev = ev_before ev).
  { intros ev Hin Hf.
    assert (Hcall : In (call_of ev) (schedule 0 1 bs (run_starts bs) (Z.to_nat ne))).
    { rewrite Hrest. apply in_or_app. left. apply in_map. exact Hin. }
    destruct (schedule_training_calls _ _ _ _ _ _ Hcall Hf) as [start Hstart].
    unfold call_of in Hstart. injection Hstart as _ Hfeed.
    pose proof (chained_valid _ _ _ _ Hc) as Hall. rewrite Forall_forall in Hall.
    pose proof (Hall ev Hin) as Hv. unfold valid_event in Hv. rewrite Hf, Hfeed in Hv.
    destruct (batch_of_shape X_train total inner start bs HX) as [k Hk].
    assert (Hfed : assoc (training_feed 0 1 bs start) 0 = Some (batch_of X_train start bs))
      by reflexivity.
    assert (Hbad : feed_compatible [None; Some 224; Some 224; Some 3]
                     (np_shape (batch_of X_train start bs)) = false).
    { rewrite Hk.
      change (feed_compatible (map Some [224; 224; 3]) inner = false).
      rewrite feed_compatible_known. exact Hinner. }
    rewrite (training_step_rejects_feed n lr _ (ev_before ev) _ Hfed Hbad) in Hv.
    rewrite (training_step_rejects_feed_leaves n lr _ (ev_before ev) _ Hfed Hbad) in Hv.
    destruct Hv as [Ha Ho]. split; assumption. }
  split.
  - intros ev Hin Hf. destruct (Hfail ev Hin Hf) as [Ho Ha].
    destruct (trace_failure_is_last _ _ _ ev ValueError Ht Hin Ho) as [Hr [pre [Hl _]]].
    repeat split; try assumption. exists pre. exact Hl.
  - intros Hne Hbs Htot Hr. rewrite Hr in Ht. simpl in Ht. destruct Ht as [Hp Hok].
    rewrite (run_starts_value total inner bs HX Hbs) in Hp.
    (* the plan holds a training call, which the log would have to hold too *)
    assert (Hin : In ([train], training_feed 0 1 bs 0) (map call_of (log w))).
    { rewrite Hp. unfold schedule. right. apply in_or_app. left.
      destruct (Z.to_nat ne) as [|k] eqn:Hk; [lia|].
      cbn [repeat List.concat]. apply in_or_app. left.
      unfold epoch_calls. apply in_or_app. left.
      apply in_map_iff. exists 0%Z. split; [reflexivity|].
      unfold batch_starts. apply in_map_iff. exists 0. split; [reflexivity|].
      apply in_seq. split; [lia|]. simpl.
      assert (Hpos : 1 <= (total + Z.to_nat bs - 1) / Z.to_nat bs).
      { assert (H1 : 1 * Z.to_nat bs <= total + Z.to_nat bs - 1) by lia.
        apply (Nat.Div0.div_le_mono _ _ (Z.to_nat bs)) in H1.
        rewrite Nat.div_mul in H1 by lia. exact H1. }
      lia. }
    apply in_map_iff in Hin. destruct Hin as [ev [Hcall Hin]].
    unfold call_of in Hcall. injection Hcall as Hf _.
    destruct (Hfail ev Hin Hf) as [Ho _].
    rewrite forallb_forall in Hok. pose proof (Hok ev Hin) as Hev.
    unfold event_ok in Hev. rewrite Ho in Hev. discriminate.
Qed.

End Loop_edge_facts.

Section Output_facts.

Context {L : Library} {D : ImageNet}.

Lemma writes_silent {A} (m : TF A) (p : list Msg) :
  (forall w, stdout (fst (m w)) = stdout w /\ session_open (fst (m w)) = session_open w) ->
  (forall w a, snd (m w) = Ok a -> p = []) ->
  writes m p false.
Proof.
  intros Hm Hp w Hopen. destruct (Hm w) as [Hs Ho]. exists [].
  rewrite Hs, app_nil_r. split; [reflexivity|].
  destruct (snd (m w)) as [a|e] eqn:Hr.
  - split; [symmetry; apply (Hp w a Hr) | simpl; rewrite Ho; exact Hopen].
  - split; [exists p; reflexivity | rewrite Ho; exact Hopen].
Qed.

Lemma writes_ret {A} (a : A) : writes (ret a) [] false.
Proof. apply writes_silent; intros; simpl; auto. Qed.

Lemma writes_lift {A} (r : result A) : writes (lift_result r) [] false.
Proof. apply writes_silent; intros; simpl; auto. Qed.

Lemma writes_lift_raise {A B} (e : exn) (k : A -> TF B) (p : list Msg) (c : bool) :
  writes (bind (lift_result (Raise e)) k) p c.
Proof.
  intros w Hopen. exists []. rewrite app_nil_r. simpl. split; [reflexivity|].
  split; [exists p; reflexivity | exact Hopen].
Qed.

Lemma writes_sess_run (fetches : list Tensor) (feed : Feed) :
  writes (sess_run tt fetches feed) [] false.
Proof.
  intros w Hopen. exists []. rewrite app_nil_r. unfold sess_run. rewrite Hopen.
  destruct (run_fetches (graph w) fetches feed (store w)) as [[st' values]|e]; simpl;
    (split; [reflexivity|]); [split; reflexivity | split; [exists []; reflexivity | reflexivity]].
Qed.

Lemma writes_print (m : Msg) : writes (print m) [without_values m] false.
Proof.
  intros w Hopen. exists [without_values m]. simpl. rewrite map_app. simpl.
  split; [reflexivity|]. split; [reflexivity | exact Hopen].
Qed.

Lemma writes_sess_close : writes (sess_close tt) [] true.
Proof.
  intros w Hopen. exists []. rewrite app_nil_r. simpl. split; [reflexivity|].
  split; reflexivity.
Qed.

Lemma writes_bind {A B} (m : TF A) (k : A -> TF B) (p q : list Msg) (c : bool) :
  writes m p false -> (forall a, writes (k a) q c) -> writes (bind m k) (p ++ q) c.
Proof.
  intros Hm Hk w Hopen. unfold bind.
  destruct (Hm w Hopen) as [l1 [Hs1 Hr1]].
  destruct (m w) as [w1 [a|e]]; simpl in *.
  - destruct Hr1 as [-> Ho1].
    destruct (Hk a w1 Ho1) as [l2 [Hs2 Hr2]].
    exists (p ++ l2). split; [rewrite Hs2, Hs1, app_assoc; reflexivity|].
    destruct (snd (k a w1)) as [b|e].
    + destruct Hr2 as [-> Ho2]. split; [reflexivity | exact Ho2].
    + destruct Hr2 as [[rest Hrest] Ho2]. split; [|exact Ho2].
      exists rest. rewrite Hrest, app_assoc. reflexivity.
  - destruct Hr1 as [[rest Hrest] Ho1]. exists l1. split; [exact Hs1|].
    split; [|exact Ho1]. exists (rest ++ q). rewrite Hrest, app_assoc. reflexivity.
Qed.

Lemma writes_seq {A B} (m : TF A) (k : A -> TF B) (q : list Msg) (c : bool) :
  writes m [] false -> (forall a, writes (k a) q c) -> writes (bind m k) q c.
Proof. intros Hm Hk. apply (writes_bind m k [] q c Hm Hk). Qed.

Lemma writes_for_each {A} (l : list A) (body : A -> TF unit) (lines : A -> list Msg) :
  (forall x, writes (body x) (lines x) false) ->
  writes (for_each l body) (List.concat (map lines l)) false.
Proof.
  intros Hbody. induction l as [|x l IH]; simpl.
  - apply writes_ret.
  - apply writes_bind; [apply Hbody | intros _; exact IH].
Qed.

Lemma writes_lift_ok {A B} (a : A) (k : A -> TF B) (p : list Msg) (c : bool) :
  writes (k a) p c -> writes (bind (lift_result (Ok a)) k) p c.
Proof. intros H. exact H. Qed.

Lemma writes_train_batch (self : GoogLeNet.t) (i start : Z) :
  writes (train_batch self train i start)
    (progress_lines (GoogLeNet.batch_size self) [start] i) false.
Proof.
  unfold train_batch, progress_lines.
  destruct (nd_slice X_train start (start + GoogLeNet.batch_size self)) as [bx|e];
    [|apply writes_lift_raise].
  apply writes_lift_ok.
  destruct (nd_slice y_train start (start + GoogLeNet.batch_size self)) as [by_|e];
    [|apply writes_lift_raise].
  apply writes_lift_ok.
  apply writes_seq; [apply writes_sess_run|]. intros _.
  cbn [filter].
  destruct ((start + GoogLeNet.batch_size self) mod 100 =? 0)%Z; [|apply writes_ret].
  unfold run_total.
  destruct (py_len X_train) as [total|e]; [|apply writes_lift_raise].
  apply writes_lift_ok. apply (writes_print (MsgProgress i _ total)).
Qed.

Lemma progress_lines_concat (bs i : Z) (starts : list Z) :
  List.concat (map (fun start => progress_lines bs [start] i) starts) =
  progress_lines bs starts i.
Proof.
  unfold progress_lines. induction starts as [|s starts IH]; [reflexivity|].
  rewrite map_cons, concat_cons, IH. cbn [filter].
  destruct ((s + bs) mod 100 =? 0)%Z; reflexivity.
Qed.

Lemma writes_train_epoch (self : GoogLeNet.t) (i : Z) :
  writes (train_epoch self train loss accuracy i)
    (epoch_lines (GoogLeNet.batch_size self) (run_starts (GoogLeNet.batch_size self)) i)
    false.
Proof.
  unfold train_epoch, epoch_lines, run_starts.
  destruct (py_len X_train) as [total|e] eqn:Hlen; [|apply writes_lift_raise].
  apply writes_lift_ok.
  destruct (py_range 0 total (GoogLeNet.batch_size self)) as [starts|e];
    [|apply writes_lift_raise].
  apply writes_lift_ok. simpl range_values.
  apply writes_bind.
  - rewrite <- (progress_lines_concat (GoogLeNet.batch_size self) i starts).
    apply (writes_for_each starts (train_batch self train i)
             (fun start => progress_lines (GoogLeNet.batch_size self) [start] i)).
    intros start. apply writes_train_batch.
  - intros _. apply writes_seq; [apply writes_sess_run|].
    intros values. apply (writes_print (MsgEpoch i values)).
Qed.

Lemma writes_session_part (self : GoogLeNet.t) :
  writes (session_part self init train loss accuracy)
    (transcript (GoogLeNet.batch_size self) (run_starts (GoogLeNet.batch_size self))
       (range_values (py_range 0 (GoogLeNet.num_epochs self) 1)))
    true.
Proof.
  unfold session_part, transcript.
  apply writes_seq; [apply writes_sess_run|]. intros _.
  apply (writes_bind _ _ [_] _); [apply (writes_print MsgBlank)|]. intros _.
  apply (writes_bind _ _ [_] _); [apply (writes_print MsgTraining)|]. intros _.
  destruct (py_range 0 (GoogLeNet.num_epochs self) 1) as [epochs|e];
    [|apply writes_lift_raise].
  apply writes_lift_ok. simpl range_values.
  apply writes_bind.
  - apply writes_for_each. intros i. apply writes_train_epoch.
  - intros _. apply (writes_bind _ _ [_] [_]); [apply (writes_print MsgEvaluating)|].
    intros _. apply writes_seq; [apply writes_sess_run|]. intros values.
    apply (writes_bind _ _ [_] []); [apply (writes_print (MsgTest values))|]. intros _.
    apply writes_sess_close.
Qed.

Lemma program_writes (lr : Q) (ne bs : Z) (n : nat) :
  nth_error (np_shape y_train) 1 = Some n ->
  let w := fst (program lr ne bs initial_world) in
  let r := snd (program lr ne bs initial_world) in
  exists ls,
    map without_values (stdout w) = ls /\
    match r with
    | Ok _ => ls = transcript bs (run_starts bs) (map Z.of_nat (seq 0 (Z.to_nat ne)))
              /\ session_open w = false
    | Raise _ => (exists rest, transcript bs (run_starts bs) (map Z.of_nat (seq 0 (Z.to_nat ne)))
                               = ls ++ rest) /\ session_open w = true
    end.
Proof.
  intros Hn w r. unfold w, r. rewrite (program_unfold lr ne bs n Hn).
  destruct (writes_session_part (GoogLeNet.mk n 0 1 lr ne bs) (built_world n lr) eq_refl)
    as [ls [Hs Hr]].
  cbn [GoogLeNet.batch_size GoogLeNet.num_epochs] in Hr.
  rewrite range_epochs in Hr. cbn [range_values] in Hr.
  exists ls. split; [exact Hs|]. exact Hr.
Qed.


(** The lines of a run with batches of [bs >= 1] out of [total] images. *)
Lemma transcript_value (ne bs : Z) (total : nat) (inner : list nat) :
  np_shape X_train = total :: inner ->
  (1 <= bs)%Z ->
  transcript bs (run_starts bs) (map Z.of_nat (seq 0 (Z.to_nat ne))) =
  [MsgBlank; MsgTraining]
  ++ List.concat
       (map (fun i =>
               map (fun start => MsgProgress i (start + bs) (Z.of_nat total))
                   (filter (fun start => ((start + bs) mod 100 =? 0)%Z)
                           (batch_starts total bs))
               ++ [MsgEpoch i []])
            (map Z.of_nat (seq 0 (Z.to_nat ne))))
  ++ [MsgEvaluating; MsgTest []].
Proof.
  intros HX Hb. unfold transcript, epoch_lines, progress_lines, run_total, py_len.
  rewrite (run_starts_value total inner bs HX Hb), HX. reflexivity.
Qed.

(** X13.  What a run prints, leaving aside the values of loss and accuracy:
    a blank line and the training banner; for each epoch [i], in order, a
    progress line for every batch whose [end = start + batch_size] is a
    multiple of 100, showing [i], [end] and [len(X_train)], and then the
    epoch's result line; finally the evaluation banner and the test result
    line.  A successful run prints exactly these lines, a failing run a
    prefix of them. *)
Theorem run_prints_progress_and_results (lr : Q) (ne bs : Z) (n total : nat)
    (inner : list nat) :
  nth_error (np_shape y_train) 1 = Some n ->
  np_shape X_train = total :: inner ->
  (1 <= bs)%Z ->
  let w := fst (program lr ne bs initial_world) in
  let r := snd (program lr ne bs initial_world) in
  let lines :=
    [MsgBlank; MsgTraining]
    ++ List.concat
         (map (fun i =>
                 map (fun start => MsgProgress i (start + bs) (Z.of_nat total))
                     (filter (fun start => ((start + bs) mod 100 =? 0)%Z)
                             (batch_starts total bs))
                 ++ [MsgEpoch i []])
              (map Z.of_nat (seq 0 (Z.to_nat ne))))
    ++ [MsgEvaluating; MsgTest []] in
  (r = Ok tt -> map without_values (stdout w) = lines) /\
  (exists rest, lines = map without_values (stdout w) ++ rest).
Proof.
  intros Hn HX Hb w r lines.
  destruct (program_writes lr ne bs n Hn) as [ls [Hs Hr]].
  fold w in Hs, Hr. fold r in Hr.
  rewrite (transcript_value ne bs total inner HX Hb) in Hr. fold lines in Hr.
  rewrite Hs.
  split.
  - intros Hok. rewrite Hok in Hr. apply Hr.
  - destruct r as [u|e].
    + destruct Hr as [-> _]. exists []. rewrite app_nil_r. reflexivity.
    + apply Hr.
Qed.

(** X14.  The session is closed exactly when the run returns: a run that
    raises after the graph is built leaves the session open.  When
    [y_train] has no second axis, no session is ever created. *)
Theorem session_is_closed_only_on_success (lr : Q) (ne bs : Z) :
  let w := fst (program lr ne bs initial_world) in
  let r := snd (program lr ne bs initial_world) in
  (forall n, nth_error (np_shape y_train) 1 = Some n ->
     session_open w = match r with Ok _ => false | Raise _ => true end) /\
  (nth_error (np_shape y_train) 1 = None -> session_open w = false /\ r = Raise IndexError).
Proof.
  intros w r. split.
  - intros n Hn. destruct (program_writes lr ne bs n Hn) as [ls [_ Hr]].
    fold w in Hr. fold r in Hr. destruct r; apply Hr.
  - intros Hn. unfold w, r. rewrite (program_no_columns lr ne bs Hn). split; reflexivity.
Qed.

Lemma filter_progress_without_values (l : list Msg) :
  filter is_progress (map without_values l) = filter is_progress l.
Proof.
  induction l as [|m l IH]; [reflexivity|].
  destruct m; cbn [map without_values filter is_progress]; rewrite IH; reflexivity.
Qed.

Lemma filter_progress_epochs (f : Z -> list Msg) (epochs : list Z) :
  (forall i, forallb is_progress (f i) = true) ->
  filter is_progress (List.concat (map (fun i => f i ++ [MsgEpoch i []]) epochs)) =
  List.concat (map f epochs).
Proof.
  intros Hf. induction epochs as [|i epochs IH]; [reflexivity|].
  cbn [map List.concat]. rewrite !filter_app, IH. cbn [filter is_progress].
  rewrite app_nil_r. f_equal.
  specialize (Hf i). induction (f i) as [|m l IHl]; [reflexivity|].
  cbn [forallb] in Hf. apply andb_true_iff in Hf. destruct Hf as [Hm Hl].
  cbn [filter]. rewrite Hm, (IHl Hl). reflexivity.
Qed.

Lemma hundreds_all_report (total : nat) :
  filter (fun start => ((start + 100) mod 100 =? 0)%Z) (batch_starts total 100) =
  batch_starts total 100.
Proof.
  unfold batch_starts. induction (seq 0 ((total + Z.to_nat 100 - 1) / Z.to_nat 100))
    as [|k l IH]; [reflexivity|].
  cbn [map filter]. rewrite IH.
  replace ((Z.of_nat k * 100 + 100) mod 100)%Z with 0%Z; [reflexivity|].
  replace (Z.of_nat k * 100 + 100)%Z with ((Z.of_nat k + 1) * 100)%Z by lia.
  symmetry. apply Z.mod_mul. lia.
Qed.

(** X15.  Run as a script, the program uses the defaults: learning rate
    0.001, 10 epochs, batches of 100.  A successful run makes
    [2 + 10 * (ceil (total / 100) + 1)] session calls and prints a progress
    line after every training step, stating [100 * (k + 1)] images after
    batch [k] (a failing run prints the first of these lines).  When
    [total] is not a multiple of 100, the last line of an epoch states more
    images than there are. *)
Theorem main_reports_every_batch (n total : nat) (inner : list nat) :
  nth_error (np_shape y_train) 1 = Some n ->
  np_shape X_train = total :: inner ->
  let w := fst (GoogLeNet.main initial_world) in
  let r := snd (GoogLeNet.main initial_world) in
  let batches := (total + 99) / 100 in
  let progress :=
    List.concat
      (map (fun i => map (fun k => MsgProgress (Z.of_nat i) (Z.of_nat (100 * (k + 1)))
                                               (Z.of_nat total))
                         (seq 0 batches))
           (seq 0 10)) in
  (r = Ok tt ->
   List.length (log w) = 2 + 10 * (batches + 1) /\
   filter is_progress (stdout w) = progress) /\
  (exists rest, progress = filter is_progress (stdout w) ++ rest) /\
  (total mod 100 <> 0 -> total < 100 * batches).
Proof.
  intros Hn HX w r batches progress.
  change (GoogLeNet.main initial_world) with (program 0.001 10 100 initial_world) in w, r.
  assert (Hb : (1 <= 100)%Z) by lia.
  destruct (program_writes 0.001 10 100 n Hn) as [ls [Hs Hw]].
  fold w in Hs, Hw. fold r in Hw.
  rewrite (transcript_value 10 100 total inner HX Hb) in Hw. subst ls.
  assert (Hprog : filter is_progress
            ([MsgBlank; MsgTraining]
             ++ List.concat
                  (map (fun i =>
                          map (fun start => MsgProgress i (start + 100) (Z.of_nat total))
                              (filter (fun start => ((start + 100) mod 100 =? 0)%Z)
                                      (batch_starts total 100))
                          ++ [MsgEpoch i []])
                       (map Z.of_nat (seq 0 (Z.to_nat 10))))
             ++ [MsgEvaluating; MsgTest []]) = progress).
  { rewrite !filter_app. cbn [filter is_progress app]. rewrite app_nil_r.
    rewrite (filter_progress_epochs
               (fun i => map (fun start => MsgProgress i (start + 100) (Z.of_nat total))
                             (filter (fun start => ((start + 100) mod 100 =? 0)%Z)
                                     (batch_starts total 100)))).
    - rewrite hundreds_all_report. unfold progress, batch_starts, batches.
      rewrite map_map. change (Z.to_nat 10) with 10. change (Z.to_nat 100) with 100.
      replace (total + 100 - 1) with (total + 99) by lia.
      f_equal. apply map_ext. intros i. rewrite map_map. apply map_ext. intros k.
      f_equal. lia.
    - intros i. apply forallb_forall. intros m Hm. apply in_map_iff in Hm.
      destruct Hm as [s [<- _]]. reflexivity. }
  split; [|split].
  - intros Hr. split.
    + destruct (program_trace 0.001 10 100 n Hn) as [_ [_ Ht]].
      fold w in Ht. fold r in Ht. rewrite Hr in Ht. destruct Ht as [Hp _].
      rewrite <- (length_map call_of), Hp, length_schedule.
      rewrite (run_starts_value total inner 100 HX Hb). unfold batch_starts.
      rewrite length_map, length_seq. change (Z.to_nat 10) with 10.
      change (Z.to_nat 100) with 100. unfold batches.
      replace (total + 100 - 1) with (total + 99) by lia. reflexivity.
    + rewrite Hr in Hw. destruct Hw as [Hs _].
      rewrite <- Hprog, <- Hs. apply eq_sym, filter_progress_without_values.
  - destruct r as [u|e].
    + destruct Hw as [Hs _]. exists [].
      rewrite app_nil_r, <- Hprog, <- Hs. apply filter_progress_without_values.
    + destruct Hw as [[rest Hrest] _]. exists (filter is_progress rest).
      rewrite <- Hprog, Hrest, filter_app, filter_progress_without_values. reflexivity.
  - intros Hmod. unfold batches.
    pose proof (Nat.div_mod_eq (total + 99) 100) as Hd.
    pose proof (Nat.mod_upper_bound (total + 99) 100 ltac:(lia)) as Hm.
    pose proof (Nat.div_mod_eq total 100) as Hd2.
    pose proof (Nat.mod_upper_bound total 100 ltac:(lia)) as Hm2.
    assert (Hq : (total + 99) / 100 = total / 100 + 1).
    { symmetry. apply (Nat.div_unique (total + 99) 100 _ (total mod 100 - 1)); lia. }
    lia.
Qed.

End Output_facts.

(* ================================================================== *)
(** ** Concrete runs on the exact library                              *)
(* ================================================================== *)

Import Exact.

(** The short run succeeds. *)
Lemma short_run_succeeds : snd short_run = Ok tt.
Proof. vm_compute. reflexivity. Qed.

(** Two epochs with batches of two images. *)
Lemma two_epochs_succeed : snd (program 0.001 2 2 initial_world) = Ok tt.
Proof. vm_compute. reflexivity. Qed.

(** What the two-epoch run asks of the session, in order: the fetches and
    the placeholders fed. *)
Lemma two_epochs_calls :
  map (fun ev => (ev_fetches ev, map fst (ev_feed ev), event_ok ev))
      (log (fst (program 0.001 2 2 initial_world))) =
  [ ([init], [], true);
    ([train], [0; 1], true); ([train], [0; 1], true);
    ([loss; accuracy], [0; 1], true);
    ([train], [0; 1], true); ([train], [0; 1], true);
    ([loss; accuracy], [0; 1], true);
    ([loss; accuracy], [0; 1], true) ].
Proof. vm_compute. reflexivity. Qed.

(** The batches of the two-epoch run: two images, then the one left. *)
Lemma two_epochs_batches :
  map (fun ev => map (fun kv => np_shape (snd kv)) (ev_feed ev))
      (filter (fun ev => is_training (call_of ev))
              (log (fst (program 0.001 2 2 initial_world)))) =
  [ [[2; 224; 224; 3]; [2; 2]]; [[1; 224; 224; 3]; [1; 2]];
    [[2; 224; 224; 3]; [2; 2]]; [[1; 224; 224; 3]; [1; 2]] ].
Proof. vm_compute. reflexivity. Qed.

(** With the failing optimizer the second training step raises at its
    second update: the run ends with that error, the one update the step
    had applied stays in the variables (117, not 116), the session is left
    with them, and no evaluation takes place. *)
Lemma failing_run_aborts :
  snd (@program Failing.library Failing.data 0.001 2 2 initial_world) =
    Raise (LibraryError 7) /\
  map (fun ev => (ev_fetches ev, ev_before ev, ev_after ev, event_ok ev))
      (log (fst (@program Failing.library Failing.data 0.001 2 2 initial_world))) =
  [ ([init], 0, 0, true); ([train], 0, 116, true); ([train], 116, 117, false) ] /\
  store (fst (@program Failing.library Failing.data 0.001 2 2 initial_world)) = 117.
Proof. vm_compute. repeat split. Qed.

(** X1.  The reported accuracy is not the classification accuracy: on the
    validation image the logits [0.6; 0.7] and the labels [0; 1] have their
    largest entry at the same position, so the argmax accuracy is 1, while
    [run] reports 1/2 (0.6 rounds to 1, the label is 0). *)
Theorem accuracy_is_not_argmax_accuracy :
  let g := graph (fst short_run) in
  ev_fetches validation_event = [loss; accuracy] /\
  assoc (ev_feed validation_event) 1 = Some (NdFloat [1; 2] [0%Q; 1%Q]) /\
  result_bind (run_fetches g [linear] (ev_feed validation_event) (ev_before validation_event))
              (fun out => Ok (snd out)) = Ok [Some (NdFloat [1; 2] [0.6%Q; 0.7%Q])] /\
  ev_outcome validation_event =
    Ok [Some (NdFloat [] [(13 # 20)%Q]); Some (NdFloat [] [(1 # 2)%Q])] /\
  argmax_accuracy (NdFloat [1; 2] [0.6%Q; 0.7%Q]) (NdFloat [1; 2] [0%Q; 1%Q]) = 1%Q.
Proof. vm_compute. repeat split. Qed.

(** [inception_concatenates_four_paths] on the image placeholder, with the
    sizes of inception 3a. *)
Lemma inception_concatenates_four_paths_witness :
  well_numbered (graph input_world) = true /\
  option_map n_shape (find_node (graph input_world) 0) =
    Some [None; Some 224; Some 224; Some 3] /\
  exists w' out,
    GoogLeNet.inception 0 64 96 128 16 32 32 input_world = (w', Ok out) /\
    expr_of (List.length (graph w')) (graph w') (List.length (graph input_world)) out =
      Apply (Concat 3)
        [ Apply (Conv2D 64 (1, 1) (1, 1) Same) [Leaf 0];
          Apply (Conv2D 128 (3, 3) (1, 1) Same)
            [Apply (Conv2D 96 (1, 1) (1, 1) Same) [Leaf 0]];
          Apply (Conv2D 32 (5, 5) (1, 1) Same)
            [Apply (Conv2D 16 (1, 1) (1, 1) Same) [Leaf 0]];
          Apply (Conv2D 32 (1, 1) (1, 1) Same)
            [Apply (MaxPooling2D (3, 3) (1, 1) Same) [Leaf 0]] ] /\
    layer_at (graph w') out = Some (LInception 64 96 128 16 32 32, 0) /\
    List.length (graph w') = List.length (graph input_world) + 8 /\
    firstn (List.length (graph input_world)) (graph w') = graph input_world /\
    (session_open w', store w', log w', stdout w') =
    (session_open input_world, store input_world, log input_world, stdout input_world).
Proof.
  split; [reflexivity|]. split; [reflexivity|].
  apply (inception_concatenates_four_paths input_world 0 None (Some 224) (Some 224) 3);
    reflexivity.
Defined.

(** [inception_output_shape] on the image placeholder, with the sizes of
    inception 3a: the output has 64 + 128 + 32 + 32 channels. *)
Lemma inception_output_shape_witness :
  well_numbered (graph input_world) = true /\
  option_map n_shape (find_node (graph input_world) 0) =
    Some [None; Some 224; Some 224; Some 3] /\
  exists w' out,
    GoogLeNet.inception 0 64 96 128 16 32 32 input_world = (w', Ok out) /\
    option_map n_shape (find_node (graph w') out) =
      Some [None; Some 224; Some 224; Some (64 + 128 + 32 + 32)] /\
    (exists p1 p2 p3 p4,
       option_map n_inputs (find_node (graph w') out) = Some [p1; p2; p3; p4] /\
       option_map n_shape (find_node (graph w') p1) = Some [None; Some 224; Some 224; Some 64] /\
       option_map n_shape (find_node (graph w') p2) = Some [None; Some 224; Some 224; Some 128] /\
       option_map n_shape (find_node (graph w') p3) = Some [None; Some 224; Some 224; Some 32] /\
       option_map n_shape (find_node (graph w') p4) = Some [None; Some 224; Some 224; Some 32]) /\
    Forall (fun n => firstn 3 (n_shape n) = [None; Some 224; Some 224] /\
                     List.length (n_shape n) = 4)
           (skipn (List.length (graph input_world)) (graph w')).
Proof.
  split; [reflexivity|]. split; [reflexivity|].
  apply (inception_output_shape input_world 0 None (Some 224) (Some 224) 3);
    first [reflexivity | lia].
Defined.

(** [forward_pass_architecture] for the data of the exact library, which has
    two classes. *)
Lemma forward_pass_architecture_witness :
  nth_error (np_shape y_train) 1 = Some 2 /\
  (let g := graph (fst (program 0.001 1 100 initial_world)) in
   layers_to g linear =
     (0,
      [ (LConv 64 (7, 7) (2, 2) Same, 2);
        (LMaxPool (3, 3) (2, 2) Same, 3);
        (LNorm 2.0 1.0 0.0002 0.75, 4);
        (LConv 64 (1, 1) (1, 1) Same, 5);
        (LConv 192 (3, 3) (1, 1) Same, 6);
        (LNorm 2.0 1.0 0.0002 0.75, 7);
        (LMaxPool (3, 3) (2, 2) Same, 8);
        (LInception 64 96 128 16 32 32, 16);
        (LInception 128 128 192 32 96 64, 24);
        (LMaxPool (3, 3) (2, 2) Same, 25);
        (LInception 192 96 208 16 48 64, inception_4a);
        (LInception 160 112 224 24 64 64, 41);
        (LInception 128 128 256 24 64 64, 49);
        (LInception 112 144 288 32 64 64, inception_4d);
        (LInception 256 160 320 32 128 128, 65);
        (LMaxPool (3, 3) (2, 2) Same, 66);
        (LInception 256 160 320 32 128 128, 86);
        (LInception 384 192 384 48 128 128, 94);
        (LAvgPool (7, 7) (1, 1) Valid, 95);
        (LFlatten, 96);
        (LDropout 0.4, 97);
        (LDense 2, linear) ]) /\
   option_map n_op (find_node g 0) = Some (Placeholder "image") /\
   walk_back 6 g auxiliary_1 [] =
     (inception_4a,
      [ (LAvgPool (5, 5) (3, 3) Same, 67); (LConv 128 (1, 1) (1, 1) Valid, 68);
        (LFlatten, 69); (LDense 1024, 70); (LDropout 0.3, 71);
        (LDense 2, auxiliary_1) ]) /\
   walk_back 6 g auxiliary_2 [] =
     (inception_4d,
      [ (LAvgPool (5, 5) (3, 3) Same, 73); (LConv 128 (1, 1) (1, 1) Valid, 74);
        (LFlatten, 75); (LDense 1024, 76); (LDropout 0.3, 77);
        (LDense 2, auxiliary_2) ]) /\
   inception_outputs g = [16; 24; inception_4a; 41; 49; inception_4d; 65; 86; 94] /\
   auxiliary_heads g = [auxiliary_1; auxiliary_2] /\
   exists w0,
     graph w0 = g /\ log w0 = [] /\
     program 0.001 1 100 initial_world =
     session_part (GoogLeNet.mk 2 0 1 0.001 1 100) init train loss accuracy w0).
Proof.
  split; [reflexivity|].
  exact (forward_pass_architecture 0.001 1 100 2 eq_refl).
Defined.

(** [training_loop_batches] for three training images, two epochs and
    batches of two. *)
Lemma training_loop_batches_witness :
  nth_error (np_shape y_train) 1 = Some 2 /\
  np_shape X_train = 3 :: [224; 224; 3] /\
  (1 <= 2)%Z /\ (0 <= 2)%Z /\
  (let w := fst (program 0.001 2 2 initial_world) in
   let r := snd (program 0.001 2 2 initial_world) in
   let steps := filter is_training (map call_of (log w)) in
   let batches := (3 + Z.to_nat 2 - 1) / Z.to_nat 2 in
   let starts := map (fun k => (Z.of_nat k * 2)%Z) (seq 0 batches) in
   let expected :=
     List.concat (repeat (map (fun start => ([train], training_feed 0 1 2 start)) starts)
                         (Z.to_nat 2)) in
   (r = Ok tt <-> forallb event_ok (log w) = true) /\
   (exists rest, expected = steps ++ rest) /\
   (r = Ok tt -> steps = expected) /\
   List.length expected = Z.to_nat 2 * batches /\
   forall start, In start starts ->
     (0 <= start < Z.of_nat 3)%Z /\
     exists batch_X batch_y,
       nd_slice X_train start (start + 2) = Ok batch_X /\
       nd_slice y_train start (start + 2) = Ok batch_y /\
       training_feed 0 1 2 start = [(0, batch_X); (1, batch_y)] /\
       np_shape batch_X = Nat.min (Z.to_nat 2) (3 - Z.to_nat start) :: [224; 224; 3] /\
       1 <= Nat.min (Z.to_nat 2) (3 - Z.to_nat start)).
Proof.
  split; [reflexivity|]. split; [reflexivity|]. split; [lia|]. split; [lia|].
  apply (training_loop_batches 0.001 2 2 2 3 [224; 224; 3]); first [reflexivity | lia].
Defined.

(** [training_objective] for the short run. *)
Lemma training_objective_witness :
  nth_error (np_shape y_train) 1 = Some 2 /\
  (let w := fst (program 0.001 1 100 initial_world) in
   let g := graph w in
   expr_of (List.length g) g cross_entropy train =
     Apply (Minimize 0.001 (layer_vars main_layers))
       [Apply ReduceMean
          [Apply SoftmaxCrossEntropyWithLogits [Leaf 1; Leaf linear]]] /\
   find_node g 1 = Some (mkNode 1 (Placeholder "label") [] [None; Some 2]) /\
   find_node g linear = Some (mkNode linear (Dense 2) [97] [None; Some 2]) /\
   forallb (fun nd => match n_op nd with
                      | Dense _ => n_id nd <=? linear
                      | _ => true
                      end) g = true /\
   option_map n_shape (find_node g cross_entropy) = Some [None] /\
   option_map n_shape (find_node g loss) = Some [] /\
   (forall ev values,
      In ev (log w) -> ev_fetches ev = [train] -> ev_outcome ev = Ok values ->
      values = [None] /\
      exists grads,
        result_mapM (fun v => gradient (prune g [train]) loss v (ev_feed ev) (ev_before ev))
                    (layer_vars main_layers) = Ok grads /\
        apply_updates 0.001 (combine grads (layer_vars main_layers)) (ev_before ev)
        = Ok (ev_after ev)) /\
   (forall ev values,
      In ev (log w) -> ev_fetches ev = [loss; accuracy] -> ev_outcome ev = Ok values ->
      exists tbl,
        exec (prune g [loss; accuracy]) (ev_feed ev) (prune g [loss; accuracy])
             (ev_before ev, []) = Ok (ev_after ev, tbl) /\
        nth 0 values None = assoc tbl loss /\
        forall s d,
          assoc tbl cross_entropy = Some (NdFloat s d) ->
          assoc tbl loss = Some (NdFloat [] [f32_mean d]))).
Proof.
  split; [reflexivity|].
  exact (training_objective 0.001 1 100 2 eq_refl).
Defined.

(** [reported_accuracy] for the evaluation on the validation set in the
    short run, which returns the loss 13/20 and the accuracy 1/2. *)
Lemma reported_accuracy_witness :
  nth_error (np_shape y_train) 1 = Some 2 /\
  In validation_event (log (fst (program 0.001 1 100 initial_world))) /\
  ev_fetches validation_event = [loss; accuracy] /\
  ev_outcome validation_event =
    Ok [Some (NdFloat [] [(13 # 20)%Q]); Some (NdFloat [] [(1 # 2)%Q])] /\
  (let g := graph (fst (program 0.001 1 100 initial_world)) in
   exists tbl,
     exec (prune g [loss; accuracy]) (ev_feed validation_event) (prune g [loss; accuracy])
          (ev_before validation_event, []) = Ok (ev_after validation_event, tbl) /\
     [Some (NdFloat [] [(13 # 20)%Q]); Some (NdFloat [] [(1 # 2)%Q])] =
       [assoc tbl loss; assoc tbl accuracy] /\
     forall s dL dY,
       assoc tbl linear = Some (NdFloat s dL) ->
       assoc (ev_feed validation_event) 1 = Some (NdFloat s dY) ->
       assoc tbl accuracy =
       Some (NdFloat []
               [f32_mean (map2 (fun l y => f32_of_bool (f32_equal (f32_round l) (f32_round y)))
                               dL dY)])).
Proof.
  assert (Hin : In validation_event (log (fst (program 0.001 1 100 initial_world)))).
  { apply nth_In. apply Nat.ltb_lt. vm_compute. reflexivity. }
  assert (Hf : ev_fetches validation_event = [loss; accuracy])
    by (vm_compute; reflexivity).
  assert (Ho : ev_outcome validation_event =
               Ok [Some (NdFloat [] [(13 # 20)%Q]); Some (NdFloat [] [(1 # 2)%Q])])
    by (vm_compute; reflexivity).
  split; [reflexivity|]. split; [exact Hin|]. split; [exact Hf|]. split; [exact Ho|].
  exact (reported_accuracy 0.001 1 100 2 validation_event _ eq_refl Hin Hf Ho).
Defined.

(** [auxiliary_heads_unused] for the short run. *)
Lemma auxiliary_heads_unused_witness :
  nth_error (np_shape y_train) 1 = Some 2 /\
  (let g := graph (fst (program 0.001 1 100 initial_world)) in
   let heads := head_nodes g auxiliary_1 inception_4a
                ++ head_nodes g auxiliary_2 inception_4d in
   find_node g auxiliary_1 = Some (mkNode auxiliary_1 (Dense 2) [71] [None; Some 2]) /\
   find_node g auxiliary_2 = Some (mkNode auxiliary_2 (Dense 2) [77] [None; Some 2]) /\
   heads = [67; 68; 69; 70; 71; 72; 73; 74; 75; 76; 77; 78] /\
   forallb (fun i => negb (mem i (cone g [train])) && negb (mem i (cone g [loss; accuracy])))
           heads = true /\
   (exists vars,
      option_map n_op (find_node g train) = Some (Minimize 0.001 vars) /\
      vars = map snd (filter fst (compute_gradients (firstn train g) loss)) /\
      vars = map snd (filter fst
                        (compute_gradients (without_auxiliary_heads (firstn train g)) loss)) /\
      forallb (fun v => negb (mem (fst v) heads)) vars = true) /\
   (forall feed st,
      run_fetches g [train] feed st =
      run_fetches (without_auxiliary_heads g) [train] feed st) /\
   (forall feed st,
      run_fetches g [loss; accuracy] feed st =
      run_fetches (without_auxiliary_heads g) [loss; accuracy] feed st)).
Proof.
  split; [reflexivity|].
  exact (auxiliary_heads_unused 0.001 1 100 2 eq_refl).
Defined.

(** [evaluations_leave_parameters] for two epochs and batches of two. *)
Lemma evaluations_leave_parameters_witness :
  nth_error (np_shape y_train) 1 = Some 2 /\
  (let w := fst (program 0.001 2 2 initial_world) in
   let r := snd (program 0.001 2 2 initial_world) in
   let plan :=
     ([init], [])
     :: List.concat
          (repeat (map (fun start => ([train], training_feed 0 1 2 start)) (run_starts 2)
                   ++ [([loss; accuracy], validation_feed 0 1)])
                  (Z.to_nat 2))
     ++ [([loss; accuracy], test_feed 0 1)] in
   ((2 <= 0)%Z \/ (2%Z <> 0%Z /\ exists total inner, np_shape X_train = total :: inner) ->
    (r = Ok tt <-> forallb event_ok (log w) = true)) /\
   (r = Ok tt -> map call_of (log w) = plan) /\
   (exists rest, plan = map call_of (log w) ++ rest) /\
   forallb stateless (prune (graph w) [loss; accuracy]) = true /\
   (forall ev, In ev (log w) -> ev_fetches ev = [loss; accuracy] ->
               ev_after ev = ev_before ev) /\
   chained (graph w) empty_store (log w) (store w)).
Proof.
  split; [reflexivity|].
  exact (evaluations_leave_parameters 0.001 2 2 2 eq_refl).
Defined.

(** [classifier_interface] for the data of the exact library. *)
Lemma classifier_interface_witness :
  nth_error (np_shape y_train) 1 = Some 2 /\
  exists w0 self,
    GoogLeNet.__init__ 0.001 1 100 initial_world = (w0, Ok self) /\
    GoogLeNet.num_classes self = 2 /\
    find_node (graph w0) (GoogLeNet.X self) =
      Some (mkNode (GoogLeNet.X self) (Placeholder "image") []
              [None; Some 224; Some 224; Some 3]) /\
    find_node (graph w0) (GoogLeNet.y self) =
      Some (mkNode (GoogLeNet.y self) (Placeholder "label") [] [None; Some 2]) /\
    (forall shape,
       feed_compatible [None; Some 224; Some 224; Some 3] shape = true <->
       exists N, shape = [N; 224; 224; 3]) /\
    let g := graph (fst (GoogLeNet.run self w0)) in
    firstn 2 g = graph w0 /\
    fst (layers_to g linear) = GoogLeNet.X self /\
    find_node g linear = Some (mkNode linear (Dense 2) [97] [None; Some 2]) /\
    find_node g cross_entropy =
      Some (mkNode cross_entropy SoftmaxCrossEntropyWithLogits
              [GoogLeNet.y self; linear] [None]).
Proof.
  split; [reflexivity|].
  exact (classifier_interface 0.001 1 100 2 eq_refl).
Defined.

(** Small images are refused by the placeholder: the first training step
    raises and the run ends there. *)
Lemma small_images_are_refused :
  snd (@program Exact.library Small.data 0.001 1 2 initial_world) = Raise ValueError /\
  map (fun ev => (ev_fetches ev, event_ok ev))
      (log (fst (@program Exact.library Small.data 0.001 1 2 initial_world))) =
  [ ([init], true); ([train], false) ].
Proof. vm_compute. split; reflexivity. Qed.

(** The short run prints one progress line, for the batch that ends at 100
    of its 3 images. *)
Lemma short_run_output :
  map without_values (stdout (fst short_run)) =
  [ MsgBlank; MsgTraining; MsgProgress 0 100 3; MsgEpoch 0 []; MsgEvaluating; MsgTest [] ].
Proof. vm_compute. reflexivity. Qed.

(** [inception_rejects_other_inputs] on the label placeholder, which has
    rank 2. *)
Lemma inception_rejects_other_inputs_witness :
  match find_node (graph input_world) 1 with
  | Some nd => is_feature_map (n_shape nd)
  | None => false
  end = false /\
  GoogLeNet.inception 1 64 96 128 16 32 32 input_world = (input_world, Raise ValueError).
Proof.
  split; [reflexivity|].
  apply (inception_rejects_other_inputs input_world 1 64 96 128 16 32 32). reflexivity.
Defined.

(** [inception_modules_stack] on the image placeholder, with the sizes of
    inception 3a and 3b. *)
Lemma inception_modules_stack_witness :
  well_numbered (graph input_world) = true /\
  option_map n_shape (find_node (graph input_world) 0) =
    Some [None; Some 224; Some 224; Some 3] /\
  (let k := List.length (graph input_world) in
   exists w',
     (x <- GoogLeNet.inception 0 64 96 128 16 32 32 ;;
      GoogLeNet.inception x 128 128 192 32 96 64) input_world = (w', Ok (k + 15)) /\
     graph w' =
       graph input_world
       ++ inception_nodes k 0 None (Some 224) (Some 224) 3 64 96 128 16 32 32
       ++ inception_nodes (k + 8) (k + 7) None (Some 224) (Some 224) (64 + 128 + 32 + 32)
            128 128 192 32 96 64 /\
     layer_at (graph w') (k + 7) = Some (LInception 64 96 128 16 32 32, 0) /\
     layer_at (graph w') (k + 15) = Some (LInception 128 128 192 32 96 64, k + 7) /\
     option_map n_shape (find_node (graph w') (k + 15)) =
       Some [None; Some 224; Some 224; Some (128 + 192 + 96 + 64)] /\
     well_numbered (graph w') = true /\
     (session_open w', store w', log w', stdout w') =
     (session_open input_world, store input_world, log input_world, stdout input_world)).
Proof.
  split; [reflexivity|]. split; [reflexivity|].
  apply (inception_modules_stack input_world 0 None (Some 224) (Some 224) 3); reflexivity.
Defined.

(** [auxiliary_builds_classifier] on the image placeholder, for two classes:
    the pool leaves 75 x 75 positions. *)
Lemma auxiliary_builds_classifier_witness :
  well_numbered (graph input_world) = true /\
  option_map n_shape (find_node (graph input_world) 0) =
    Some [None; Some 224; Some 224; Some 3] /\
  1 <= 224 /\
  GoogLeNet.auxiliary (GoogLeNet.mk 2 0 1 0.001 1 100) 0 input_world =
  (with_graph input_world
     (graph input_world ++
      auxiliary_nodes (List.length (graph input_world)) 0 None 224 224 3
        (GoogLeNet.num_classes (GoogLeNet.mk 2 0 1 0.001 1 100))),
   Ok (List.length (graph input_world) + 5)).
Proof.
  split; [reflexivity|]. split; [reflexivity|]. split; [lia|].
  apply (auxiliary_builds_classifier (GoogLeNet.mk 2 0 1 0.001 1 100) input_world 0
           None 224 224 3); first [reflexivity | lia].
Defined.

(** [auxiliary_needs_known_size] on a placeholder with open height. *)
Lemma auxiliary_needs_known_size_witness :
  well_numbered (graph unsized_world) = true /\
  option_map n_shape (find_node (graph unsized_world) 0) =
    Some [None; None; Some 224; Some 3] /\
  (@None nat = None \/ Some 224 = None) /\
  (forall x, Some 224 = Some x -> 1 <= x) /\
  (let k := List.length (graph unsized_world) in
   GoogLeNet.auxiliary (GoogLeNet.mk 2 0 1 0.001 1 100) 0 unsized_world =
   (with_graph unsized_world
      (graph unsized_world ++
       [ mkNode k (AveragePooling2D (5, 5) (3, 3) Same) [0]
           [None; pooled None; pooled (Some 224); Some 3];
         mkNode (k + 1) (Conv2D 128 (1, 1) (1, 1) Valid) [k]
           [None; pooled None; pooled (Some 224); Some 128];
         mkNode (k + 2) Flatten [k + 1] [None; None] ]),
    Raise ValueError)).
Proof.
  split; [reflexivity|]. split; [reflexivity|]. split; [left; reflexivity|].
  split; [intros x Hx; injection Hx as <-; lia|].
  apply (auxiliary_needs_known_size (GoogLeNet.mk 2 0 1 0.001 1 100) unsized_world 0
           None None (Some 224) 3);
    first [reflexivity | left; reflexivity | intros x Hx; discriminate Hx
          | intros x Hx; injection Hx as <-; lia].
Defined.

(** [forward_pass_shapes] for the data of the exact library, which has two
    classes. *)
Lemma forward_pass_shapes_witness :
  nth_error (np_shape y_train) 1 = Some 2 /\
  (let g := graph (fst (program 0.001 1 100 initial_world)) in
   static_shapes g (map snd (snd (layers_to g linear))) =
     [ Some [None; Some 112; Some 112; Some 64];
       Some [None; Some 56; Some 56; Some 64];
       Some [None; Some 56; Some 56; Some 64];
       Some [None; Some 56; Some 56; Some 64];
       Some [None; Some 56; Some 56; Some 192];
       Some [None; Some 56; Some 56; Some 192];
       Some [None; Some 28; Some 28; Some 192];
       Some [None; Some 28; Some 28; Some 256];
       Some [None; Some 28; Some 28; Some 480];
       Some [None; Some 14; Some 14; Some 480];
       Some [None; Some 14; Some 14; Some 512];
       Some [None; Some 14; Some 14; Some 512];
       Some [None; Some 14; Some 14; Some 512];
       Some [None; Some 14; Some 14; Some 528];
       Some [None; Some 14; Some 14; Some 832];
       Some [None; Some 7; Some 7; Some 832];
       Some [None; Some 7; Some 7; Some 832];
       Some [None; Some 7; Some 7; Some 1024];
       Some [None; Some 1; Some 1; Some 1024];
       Some [None; Some 1024];
       Some [None; Some 1024];
       Some [None; Some 2] ] /\
   static_shapes g (map snd (snd (walk_back 6 g auxiliary_1 []))) =
     [ Some [None; Some 5; Some 5; Some 512];
       Some [None; Some 5; Some 5; Some 128];
       Some [None; Some 3200];
       Some [None; Some 1024];
       Some [None; Some 1024];
       Some [None; Some 2] ] /\
   static_shapes g (map snd (snd (walk_back 6 g auxiliary_2 []))) =
     [ Some [None; Some 5; Some 5; Some 528];
       Some [None; Some 5; Some 5; Some 128];
       Some [None; Some 3200];
       Some [None; Some 1024];
       Some [None; Some 1024];
       Some [None; Some 2] ] /\
   static_shapes g [cross_entropy; loss; accuracy] = [Some [None]; Some []; Some []] /\
   List.length g = 108 /\
   well_numbered g = true /\
   inputs_are_older g = true).
Proof.
  split; [reflexivity|].
  exact (forward_pass_shapes 0.001 1 100 2 eq_refl).
Defined.

(** [auxiliary_variables_are_never_trained] for the short run. *)
Lemma auxiliary_variables_are_never_trained_witness :
  nth_error (np_shape y_train) 1 = Some 2 /\
  (let w := fst (program 0.001 1 100 initial_world) in
   let g := graph w in
   let initialized := initialized_variables g init in
   let minimized := minimized_variables g train in
   initialized = trainable_variables g /\
   List.length initialized = 128 /\
   List.length minimized = 116 /\
   forallb (fun v => var_mem v initialized) minimized = true /\
   filter (fun v => negb (var_mem v minimized)) initialized =
     [ (68, Kernel); (68, Bias); (70, Kernel); (70, Bias); (72, Kernel); (72, Bias);
       (74, Kernel); (74, Bias); (76, Kernel); (76, Bias); (78, Kernel); (78, Bias) ] /\
   map (fun i => option_map n_op (find_node g i)) [68; 70; 72; 74; 76; 78] =
     [ Some (Conv2D 128 (1, 1) (1, 1) Valid); Some (Dense 1024); Some (Dense 2);
       Some (Conv2D 128 (1, 1) (1, 1) Valid); Some (Dense 1024); Some (Dense 2) ] /\
   (forall ev values,
      In ev (log w) -> ev_fetches ev = [train] -> ev_outcome ev = Ok values ->
      exists grads,
        List.length grads = 116 /\
        apply_updates 0.001 (combine grads minimized) (ev_before ev) = Ok (ev_after ev))).
Proof.
  split; [reflexivity|].
  exact (auxiliary_variables_are_never_trained 0.001 1 100 2 eq_refl).
Defined.

(** [dropout_is_never_applied] for the short run. *)
Lemma dropout_is_never_applied_witness :
  nth_error (np_shape y_train) 1 = Some 2 /\
  (let w := fst (program 0.001 1 100 initial_world) in
   let g := graph w in
   dropout_nodes g =
     [ mkNode 71 (Dropout 0.3 false) [70] [None; Some 1024];
       mkNode 77 (Dropout 0.3 false) [76] [None; Some 1024];
       mkNode 97 (Dropout 0.4 false) [96] [None; Some 1024] ] /\
   (forall rate x, compute (Dropout rate false) [x] = Ok x) /\
   existsb (fun nd => n_id nd =? 97) (prune g [train]) = true /\
   (forall ev values,
      In ev (log w) -> ev_fetches ev = [loss; accuracy] -> ev_outcome ev = Ok values ->
      exists tbl v,
        exec (prune g [loss; accuracy]) (ev_feed ev) (prune g [loss; accuracy])
             (ev_before ev, []) = Ok (ev_after ev, tbl) /\
        values = [assoc tbl loss; assoc tbl accuracy] /\
        assoc tbl 96 = Some v /\ assoc tbl 97 = Some v)).
Proof.
  split; [reflexivity|].
  exact (dropout_is_never_applied 0.001 1 100 2 eq_refl).
Defined.

(** [batches_partition_training_set] for the three small images and
    batches of two. *)
Lemma batches_partition_training_set_witness :
  @X_train _ Small.data =
    NdFloat (3 :: [2; 2; 3]) (map (fun k => inject_Z (Z.of_nat k)) (seq 0 36)) /\
  @y_train _ Small.data = NdFloat (3 :: [2]) [1%Q; 0%Q; 0%Q; 1%Q; 1%Q; 0%Q] /\
  List.length (map (fun k => inject_Z (Z.of_nat k)) (seq 0 36)) =
    3 * row_size (3 :: [2; 2; 3]) /\
  List.length [1%Q; 0%Q; 0%Q; 1%Q; 1%Q; 0%Q] = 3 * row_size (3 :: [2]) /\
  (1 <= 2)%Z /\
  (let batches_X :=
     map (fun start => batch_of (@X_train _ Small.data) start 2) (@run_starts _ Small.data 2) in
   let batches_y :=
     map (fun start => batch_of (@y_train _ Small.data) start 2) (@run_starts _ Small.data 2) in
   map (@training_feed _ Small.data 0 1 2) (@run_starts _ Small.data 2) =
     map2 (fun batch_X batch_y => [(0, batch_X); (1, batch_y)]) batches_X batches_y /\
   List.concat (map float_data batches_X) =
     map (fun k => inject_Z (Z.of_nat k)) (seq 0 36) /\
   List.concat (map float_data batches_y) = [1%Q; 0%Q; 0%Q; 1%Q; 1%Q; 0%Q] /\
   map array_rows batches_X = map array_rows batches_y /\
   list_sum (map array_rows batches_X) = 3 /\
   Forall (fun b => tl (np_shape b) = [2; 2; 3] /\ 1 <= array_rows b <= Z.to_nat 2)
          batches_X).
Proof.
  split; [reflexivity|]. split; [reflexivity|]. split; [reflexivity|].
  split; [reflexivity|]. split; [lia|].
  apply (@batches_partition_training_set Exact.library Small.data 2 3 [2; 2; 3] [2]);
    first [reflexivity | lia].
Defined.

(** [untrained_model_is_evaluated] for two epochs and the batch size -1,
    on the three training images. *)
Lemma untrained_model_is_evaluated_witness :
  nth_error (np_shape y_train) 1 = Some 2 /\
  ((2 <= 0)%Z \/
   (np_shape X_train = 3 :: [224; 224; 3] /\
    ((-1 < 0)%Z \/ (3 = 0 /\ (-1)%Z <> 0%Z)))) /\
  (let w := fst (program 0.001 2 (-1) initial_world) in
   let r := snd (program 0.001 2 (-1) initial_world) in
   let plan :=
     ([init], [])
     :: repeat ([loss; accuracy], validation_feed 0 1) (Z.to_nat 2)
     ++ [([loss; accuracy], test_feed 0 1)] in
   (r = Ok tt <-> forallb event_ok (log w) = true) /\
   (r = Ok tt -> map call_of (log w) = plan) /\
   (exists rest, plan = map call_of (log w) ++ rest) /\
   (forall ev, In ev (log w) -> ev_fetches ev <> [train]) /\
   (forall first rest,
      log w = first :: rest ->
      forall ev, In ev rest -> ev_before ev = ev_after first /\ ev_after ev = ev_after first)).
Proof.
  split; [reflexivity|]. split; [right; split; [reflexivity | left; lia]|].
  apply (untrained_model_is_evaluated 0.001 2 (-1) 2 3 [224; 224; 3]);
    [reflexivity | right; split; [reflexivity | left; lia]].
Defined.

(** [zero_batch_size_raises] for one epoch on the three training images. *)
Lemma zero_batch_size_raises_witness :
  nth_error (np_shape y_train) 1 = Some 2 /\
  np_shape X_train = 3 :: [224; 224; 3] /\
  (1 <= 1)%Z /\
  (let w := fst (program 0.001 1 0 initial_world) in
   let r := snd (program 0.001 1 0 initial_world) in
   exists ev,
     log w = [ev] /\ ev_fetches ev = [init] /\
     r = match ev_outcome ev with
         | Ok _ => Raise ValueError
         | Raise e => Raise e
         end /\
     stdout w = match ev_outcome ev with
                | Ok _ => [MsgBlank; MsgTraining]
                | Raise _ => []
                end /\
     store w = ev_after ev /\
     session_open w = true).
Proof.
  split; [reflexivity|]. split; [reflexivity|]. split; [lia|].
  apply (zero_batch_size_raises 0.001 1 2 3 [224; 224; 3]); first [reflexivity | lia].
Defined.

(** [wrong_image_size_stops_training] for the images of 2 x 2 pixels. *)
Lemma wrong_image_size_stops_training_witness :
  nth_error (np_shape (@y_train _ Small.data)) 1 = Some 2 /\
  np_shape (@X_train _ Small.data) = 3 :: [2; 2; 3] /\
  eqb_shape [2; 2; 3] [224; 224; 3] = false /\
  (let w := fst (@program _ Small.data 0.001 1 2 initial_world) in
   let r := snd (@program _ Small.data 0.001 1 2 initial_world) in
   (forall ev, In ev (log w) -> ev_fetches ev = [train] ->
      ev_outcome ev = Raise ValueError /\ ev_after ev = ev_before ev /\
      r = Raise ValueError /\ exists pre, log w = pre ++ [ev]) /\
   ((1 <= 1)%Z -> (1 <= 2)%Z -> 1 <= 3 -> r <> Ok tt)).
Proof.
  split; [reflexivity|]. split; [reflexivity|]. split; [reflexivity|].
  apply (@wrong_image_size_stops_training Exact.library Small.data 0.001 1 2 2 3 [2; 2; 3]);
    reflexivity.
Defined.

(** [run_prints_progress_and_results] for the short run. *)
Lemma run_prints_progress_and_results_witness :
  nth_error (np_shape y_train) 1 = Some 2 /\
  np_shape X_train = 3 :: [224; 224; 3] /\
  (1 <= 100)%Z /\
  (let w := fst (program 0.001 1 100 initial_world) in
   let r := snd (program 0.001 1 100 initial_world) in
   let lines :=
     [MsgBlank; MsgTraining]
     ++ List.concat
          (map (fun i =>
                  map (fun start => MsgProgress i (start + 100) (Z.of_nat 3))
                      (filter (fun start => ((start + 100) mod 100 =? 0)%Z)
                              (batch_starts 3 100))
                  ++ [MsgEpoch i []])
               (map Z.of_nat (seq 0 (Z.to_nat 1))))
     ++ [MsgEvaluating; MsgTest []] in
   (r = Ok tt -> map without_values (stdout w) = lines) /\
   (exists rest, lines = map without_values (stdout w) ++ rest)).
Proof.
  split; [reflexivity|]. split; [reflexivity|]. split; [lia|].
  apply (run_prints_progress_and_results 0.001 1 100 2 3 [224; 224; 3]);
    first [reflexivity | lia].
Defined.

(** [main_reports_every_batch] for the data of the exact library. *)
Lemma main_reports_every_batch_witness :
  nth_error (np_shape y_train) 1 = Some 2 /\
  np_shape X_train = 3 :: [224; 224; 3] /\
  (let w := fst (GoogLeNet.main initial_world) in
   let r := snd (GoogLeNet.main initial_world) in
   let batches := (3 + 99) / 100 in
   let progress :=
     List.concat
       (map (fun i => map (fun k => MsgProgress (Z.of_nat i) (Z.of_nat (100 * (k + 1)))
                                                (Z.of_nat 3))
                          (seq 0 batches))
            (seq 0 10)) in
   (r = Ok tt ->
    List.length (log w) = 2 + 10 * (batches + 1) /\
    filter is_progress (stdout w) = progress) /\
   (exists rest, progress = filter is_progress (stdout w) ++ rest) /\
   (3 mod 100 <> 0 -> 3 < 100 * batches)).
Proof.
  split; [reflexivity|]. split; [reflexivity|].
  apply (main_reports_every_batch 2 3 [224; 224; 3]); reflexivity.
Defined.
